(** * dao-delegate: the proposal-signing cloud function (src/index.js)

    A shallow embedding of [index.js] and of the platform and library
    functions it calls, followed by the properties of the signing pipeline:
    operation packing, the oracle retry protocol, the domain override, the
    outcome store and the batch loop.

    Conventions.
    - A JavaScript [BigInt] is a [Z]; a hex string ("0x...") is a [string].
    - A JavaScript exception is a value of [JSError]; code that may throw
      returns a [Result].
    - [undefined] and [null] of an optional field are [None]. *)

From Stdlib Require Import ZArith List String Ascii Bool Lia DecimalString.
Import ListNotations.

Local Open Scope string_scope.
Local Open Scope Z_scope.

(* ================================================================== *)
(** * Part I. Definitions                                              *)
(* ================================================================== *)

(** ** Exceptions and results *)

Record JSError : Type := mkJSError {
  err_name : string;      (* the error's class: Error, TypeError, ... *)
  err_message : string
}.

Inductive Result (A : Type) : Type :=
| Ok (a : A)
| Throw (e : JSError).
Arguments Ok {A} a.
Arguments Throw {A} e.

Definition rbind {A B} (r : Result A) (k : A -> Result B) : Result B :=
  match r with
  | Ok a => k a
  | Throw e => Throw e
  end.

Declare Scope result_scope.
Delimit Scope result_scope with result.
Notation "x <-? r ;; k" := (rbind r (fun x => k))
  (at level 61, r at next level, right associativity) : result_scope.

(** ** The JavaScript platform: strings and BigInt *)

Module JS.

Definition dq : string := String "034"%char EmptyString.

(** The decimal numeral of a natural number (template literals, [${n}]). *)
Definition Number_toString (n : nat) : string :=
  NilEmpty.string_of_uint (Nat.to_uint n).

(** The decimal numeral of a BigInt ([`${n}`]). *)
Definition BigInt_toString (n : Z) : string :=
  if n <? 0 then "-" ++ Number_toString (Z.to_nat (- n))
  else Number_toString (Z.to_nat n).

(** [s.startsWith(pat)], returning the rest of [s] after [pat]. *)
Fixpoint strip_prefix (pat s : string) : option string :=
  match pat, s with
  | EmptyString, _ => Some s
  | String a p, String b t => if Ascii.eqb a b then strip_prefix p t else None
  | String _ _, EmptyString => None
  end.

(** [s.replace(pat, rep)] for a string pattern: the first occurrence of
    [pat], scanning from the left, is replaced. *)
Fixpoint replace (pat rep s : string) : string :=
  match strip_prefix pat s with
  | Some rest => rep ++ rest
  | None =>
      match s with
      | EmptyString => EmptyString
      | String c t => String c (replace pat rep t)
      end
  end.

Fixpoint repeat_char (c : ascii) (n : nat) : string :=
  match n with
  | O => EmptyString
  | S k => String c (repeat_char c k)
  end.

(** [s.padStart(target, c)] with a one-character filler. *)
Definition padStart (target : nat) (c : ascii) (s : string) : string :=
  repeat_char c (target - String.length s) ++ s.

(** [c.toLowerCase()] on the ASCII letters; other code units are kept. *)
Definition lower_char (c : ascii) : ascii :=
  let n := nat_of_ascii c in
  if (andb (Nat.leb 65 n) (Nat.leb n 90)) then ascii_of_nat (n + 32) else c.

Fixpoint toLowerCase (s : string) : string :=
  match s with
  | EmptyString => EmptyString
  | String c t => String (lower_char c) (toLowerCase t)
  end.

(** Truthiness of an optional string field: [undefined], [null] and the
    empty string are falsy. *)
Definition truthy_string (o : option string) : bool :=
  match o with
  | Some (String _ _) => true
  | _ => false
  end.

(** [o || dflt] on an optional string. *)
Definition or_string (o : option string) (dflt : string) : string :=
  match o with
  | Some (String c t) => String c t
  | _ => dflt
  end.

(** [o || 0] on an optional BigInt: [undefined] and [0n] are falsy. *)
Definition or_zero (o : option Z) : Z :=
  match o with
  | Some v => if v =? 0 then 0 else v
  | None => 0
  end.

Definition hex_digit (d : Z) : ascii :=
  match d with
  | 0 => "0" | 1 => "1" | 2 => "2" | 3 => "3" | 4 => "4" | 5 => "5"
  | 6 => "6" | 7 => "7" | 8 => "8" | 9 => "9" | 10 => "a" | 11 => "b"
  | 12 => "c" | 13 => "d" | 14 => "e" | _ => "f"
  end%char.

(** The base-16 digits of a non-negative integer, most significant
    first; [fuel] bounds the number of digits produced. *)
Fixpoint to_hex_digits (fuel : nat) (n : Z) : string :=
  match fuel with
  | O => EmptyString
  | S f =>
      if n <? 16 then String (hex_digit n) EmptyString
      else to_hex_digits f (n / 16) ++ String (hex_digit (n mod 16)) EmptyString
  end.

(** [n.toString(16)] for a BigInt [n >= 0]: lower-case digits, no leading
    zero.  A number below [2^(k+1)] has at most [k+1] hex digits, so the
    fuel [S (log2 n)] is never exhausted (lemma [to_hex_digits_fuel]). *)
Definition BigInt_toString16 (n : Z) : string :=
  to_hex_digits (S (Z.to_nat (Z.log2 n))) n.

End JS.

(** ** The viem helpers imported at index.js:5

    [toHex], [pad] and [concat] belong to the viem package, not to this
    repository; they are transcribed from the package's
    [utils/encoding/toHex], [utils/data/pad] and [utils/data/concat].
    The long form of the library's error messages (documentation links and
    version) is left out: only the short message is kept. *)

Module Viem.

Definition IntegerOutOfRangeError (value : Z) : JSError :=
  mkJSError "IntegerOutOfRangeError"
            ("Number " ++ JS.dq ++ JS.BigInt_toString value ++ "n" ++ JS.dq
               ++ " is not in safe integer range (above 0n)").

Definition SizeExceedsPaddingSizeError (size target : nat) : JSError :=
  mkJSError "SizeExceedsPaddingSizeError"
            ("Hex size (" ++ JS.Number_toString size
               ++ ") exceeds padding size (" ++ JS.Number_toString target ++ ").").

(** [toHex(value)] on a BigInt (and on the number [0]), called without a
    [size]: [numberToHex].  A negative value is out of range; otherwise the
    result is [`0x${value.toString(16)}`], not padded. *)
Definition toHex (value : Z) : Result string :=
  if value <? 0 then Throw (IntegerOutOfRangeError value)
  else Ok ("0x" ++ JS.BigInt_toString16 value).

(** [pad(hex, { size })] on a hex string: [padHex], padding on the left.
    More digits than [2 * size] is an error, not a truncation. *)
Definition pad (hex_ : string) (size : nat) : Result string :=
  let hex := JS.replace "0x" "" hex_ in
  if Nat.ltb (size * 2) (String.length hex)
  then Throw (SizeExceedsPaddingSizeError
                (Nat.div (String.length hex + 1) 2) size)
  else Ok ("0x" ++ JS.padStart (size * 2) "0" hex).

(** [concat(values)] on hex strings: [concatHex]. *)
Definition concat (values : list string) : string :=
  "0x" ++ fold_left (fun acc x => acc ++ JS.replace "0x" "" x) values "".

End Viem.

(** ** The operation packer (index.js:338-374) *)

(** The [userOperation] object built by [signProposal] (index.js:222-242). *)
Record UserOperation : Type := mkUserOperation {
  sender : string;
  nonce : Z;
  callData : string;
  verificationGasLimit : Z;
  callGasLimit : Z;
  preVerificationGas : Z;
  maxFeePerGas : Z;
  maxPriorityFeePerGas : Z;
  factory : option string;
  factoryData : option string;
  paymaster : option string;
  paymasterPostOpGasLimit : option Z;
  paymasterVerificationGasLimit : option Z;
  paymasterData : option string
}.

Local Open Scope result_scope.

(** [pad(toHex(v), { size: 16 })]. *)
Definition pad16 (v : Z) : Result string :=
  h <-? Viem.toHex v ;; Viem.pad h 16.

Definition packInitCode (op : UserOperation) : string :=
  if JS.truthy_string (factory op)
  then Viem.concat [JS.or_string (factory op) ""; JS.or_string (factoryData op) "0x"]
  else "0x".

Definition packAccountGasLimits (op : UserOperation) : Result string :=
  a <-? pad16 (verificationGasLimit op) ;;
  b <-? pad16 (callGasLimit op) ;;
  Ok (Viem.concat [a; b]).

Definition packGasLimits (op : UserOperation) : Result string :=
  a <-? pad16 (maxPriorityFeePerGas op) ;;
  b <-? pad16 (maxFeePerGas op) ;;
  Ok (Viem.concat [a; b]).

Definition packPaymasterAndData (op : UserOperation) : Result string :=
  if JS.truthy_string (paymaster op)
  then
    a <-? pad16 (JS.or_zero (paymasterVerificationGasLimit op)) ;;
    b <-? pad16 (JS.or_zero (paymasterPostOpGasLimit op)) ;;
    Ok (Viem.concat [JS.or_string (paymaster op) ""; a; b;
                     JS.or_string (paymasterData op) "0x"])
  else Ok "0x".

(** ** Bytes denoted by a hex string

    The vocabulary the packing properties are stated in: the byte sequence
    a hex string stands for, and the big-endian encoding of an integer on a
    fixed number of bytes. *)

Definition hex_char_value (c : ascii) : option Z :=
  let n := Z.of_nat (nat_of_ascii c) in
  if (48 <=? n) && (n <=? 57) then Some (n - 48)
  else if (97 <=? n) && (n <=? 102) then Some (n - 87)
  else if (65 <=? n) && (n <=? 70) then Some (n - 55)
  else None.

Fixpoint hex_pairs (s : string) : option (list Z) :=
  match s with
  | EmptyString => Some []
  | String _ EmptyString => None
  | String a (String b t) =>
      match hex_char_value a, hex_char_value b, hex_pairs t with
      | Some x, Some y, Some r => Some (16 * x + y :: r)
      | _, _, _ => None
      end
  end.

Definition hex_to_bytes (h : string) : option (list Z) :=
  match JS.strip_prefix "0x" h with
  | Some digits => hex_pairs digits
  | None => None
  end.

(** Big-endian encoding of [v] on [n] bytes (the low [8n] bits of [v]). *)
Fixpoint be_bytes (n : nat) (v : Z) : list Z :=
  match n with
  | O => []
  | S k => be_bytes k (v / 256) ++ [v mod 256]
  end.

(** The integer a list of bytes denotes, read big-endian after [acc]. *)
Definition be_value (acc : Z) (bs : list Z) : Z :=
  fold_left (fun a b => 256 * a + b) bs acc.

(** The integer a string of hex digits denotes, read after [acc]. *)
Fixpoint hex_value_acc (acc : Z) (s : string) : option Z :=
  match s with
  | EmptyString => Some acc
  | String c t =>
      match hex_char_value c with
      | Some d => hex_value_acc (16 * acc + d) t
      | None => None
      end
  end.

Definition is_byte (b : Z) : Prop := 0 <= b < 256.

Definition sample_op (vgl cgl : Z) : UserOperation :=
  mkUserOperation "0x0000000000001d8a2e7bf6bc369525a2654aa298" 7 "0x"
    vgl cgl 21000 100 1 None None None None None None.


(** ** JSON values and [JSON.parse]

    The oracle's reply is read with the platform's [JSON.parse].  A parsed
    string is a list of UTF-16 code units (an escape [\uXXXX] may denote
    any unit); the text being parsed is a [string] whose characters stand
    for the code units below 256.  A number keeps its decimal reading
    [(-1)^neg * mant * 10^exp10]. *)

#[local] Set Warnings "-register-all".

Inductive JSON : Type :=
| JNull
| JBool (b : bool)
| JNumber (neg : bool) (mant : N) (exp10 : Z)
| JString (s : list N)
| JArray (items : list JSON)
| JObject (members : list (list N * JSON)).

Module JSONParse.

Inductive token : Type :=
| TScalar (v : JSON)        (* null, true, false, a number *)
| TString (s : list N)
| TLBracket | TRBracket | TLBrace | TRBrace | TComma | TColon.

(** Where the scanner stands inside a number: an optional minus, then 0
    or a non-zero digit followed by digits, then optionally a point and one
    or more digits, then optionally e or E, an optional sign and one or
    more digits. *)
Inductive numstate : Type :=
| NMinus      (* after the sign: a digit must follow *)
| NZero       (* after a leading 0 *)
| NInt        (* inside the integer digits *)
| NDot        (* after the point: a digit must follow *)
| NFrac       (* inside the fraction digits *)
| NE          (* after e or E: a sign or a digit must follow *)
| NESign      (* after the exponent's sign: a digit must follow *)
| NExp.       (* inside the exponent digits *)

Record numacc : Type := mkNum {
  n_neg : bool;       (* a leading minus was read *)
  n_mant : N;         (* the integer and fraction digits read so far *)
  n_scale : Z;        (* how many of them are fraction digits *)
  n_eneg : bool;      (* the exponent's sign *)
  n_exp : N           (* the exponent digits read so far *)
}.

Inductive lstate : Type :=
| LGround
| LLit (rest : string) (v : JSON)          (* inside null / true / false *)
| LStr (acc : list N)                      (* inside a string, reversed *)
| LEsc (acc : list N)                      (* after a backslash *)
| LUni (acc : list N) (k : nat) (code : N) (* in \u, [k] hex digits to come *)
| LNum (st : numstate) (a : numacc).

Definition digit_value (c : ascii) : option N :=
  let n := N_of_ascii c in
  if (48 <=? n)%N && (n <=? 57)%N then Some (n - 48)%N else None.

Definition hex_value (c : ascii) : option N :=
  let n := N_of_ascii c in
  if (48 <=? n)%N && (n <=? 57)%N then Some (n - 48)%N
  else if (97 <=? n)%N && (n <=? 102)%N then Some (n - 87)%N
  else if (65 <=? n)%N && (n <=? 70)%N then Some (n - 55)%N
  else None.

Definition number_token (a : numacc) : token :=
  TScalar (JNumber (n_neg a) (n_mant a)
             ((if n_eneg a then - Z.of_N (n_exp a) else Z.of_N (n_exp a))
              - n_scale a)).

Definition push_mant (a : numacc) (d : N) (frac : bool) : numacc :=
  mkNum (n_neg a) (10 * n_mant a + d)
        (if frac then n_scale a + 1 else n_scale a) (n_eneg a) (n_exp a).

Definition push_exp (a : numacc) (d : N) : numacc :=
  mkNum (n_neg a) (n_mant a) (n_scale a) (n_eneg a) (10 * n_exp a + d).

Definition set_eneg (a : numacc) : numacc :=
  mkNum (n_neg a) (n_mant a) (n_scale a) true (n_exp a).

Definition num0 (neg : bool) : numacc := mkNum neg 0 0 false 0.

(** One character read outside any token. *)
Definition ground (c : ascii) : option (list token * lstate) :=
  match c with
  | " "%char | "009"%char | "010"%char | "013"%char => Some ([], LGround)
  | "["%char => Some ([TLBracket], LGround)
  | "]"%char => Some ([TRBracket], LGround)
  | "{"%char => Some ([TLBrace], LGround)
  | "}"%char => Some ([TRBrace], LGround)
  | ","%char => Some ([TComma], LGround)
  | ":"%char => Some ([TColon], LGround)
  | "034"%char => Some ([], LStr [])
  | "n"%char => Some ([], LLit "ull" JNull)
  | "t"%char => Some ([], LLit "rue" (JBool true))
  | "f"%char => Some ([], LLit "alse" (JBool false))
  | "-"%char => Some ([], LNum NMinus (num0 true))
  | "0"%char => Some ([], LNum NZero (num0 false))
  | _ =>
      match digit_value c with
      | Some d => Some ([], LNum NInt (push_mant (num0 false) d false))
      | None => None
      end
  end.

(** A number ends at the first character that cannot continue it; that
    character is then read from the ground state. *)
Definition end_number (a : numacc) (c : ascii) : option (list token * lstate) :=
  match ground c with
  | Some (ts, st) => Some (number_token a :: ts, st)
  | None => None
  end.

Definition is_e (c : ascii) : bool :=
  Ascii.eqb c "e" || Ascii.eqb c "E".

Definition num_step (st : numstate) (a : numacc) (c : ascii)
  : option (list token * lstate) :=
  match st, digit_value c with
  | NMinus, Some d =>
      if (d =? 0)%N then Some ([], LNum NZero a)
      else Some ([], LNum NInt (push_mant a d false))
  | NMinus, None => None
  | NZero, _ =>
      if Ascii.eqb c "." then Some ([], LNum NDot a)
      else if is_e c then Some ([], LNum NE a)
      else end_number a c
  | NInt, Some d => Some ([], LNum NInt (push_mant a d false))
  | NInt, None =>
      if Ascii.eqb c "." then Some ([], LNum NDot a)
      else if is_e c then Some ([], LNum NE a)
      else end_number a c
  | NDot, Some d => Some ([], LNum NFrac (push_mant a d true))
  | NDot, None => None
  | NFrac, Some d => Some ([], LNum NFrac (push_mant a d true))
  | NFrac, None =>
      if is_e c then Some ([], LNum NE a) else end_number a c
  | NE, Some d => Some ([], LNum NExp (push_exp a d))
  | NE, None =>
      if Ascii.eqb c "+" then Some ([], LNum NESign a)
      else if Ascii.eqb c "-" then Some ([], LNum NESign (set_eneg a))
      else None
  | NESign, Some d => Some ([], LNum NExp (push_exp a d))
  | NESign, None => None
  | NExp, Some d => Some ([], LNum NExp (push_exp a d))
  | NExp, None => end_number a c
  end.

Definition escape_unit (c : ascii) : option N :=
  match c with
  | "034"%char => Some 34%N
  | "\"%char => Some 92%N
  | "/"%char => Some 47%N
  | "b"%char => Some 8%N
  | "f"%char => Some 12%N
  | "n"%char => Some 10%N
  | "r"%char => Some 13%N
  | "t"%char => Some 9%N
  | _ => None
  end.

Definition lex_step (st : lstate) (c : ascii) : option (list token * lstate) :=
  match st with
  | LGround => ground c
  | LLit (String e rest) v =>
      if Ascii.eqb c e
      then match rest with
           | EmptyString => Some ([TScalar v], LGround)
           | _ => Some ([], LLit rest v)
           end
      else None
  | LLit EmptyString _ => None
  | LStr acc =>
      if Ascii.eqb c "034" then Some ([TString (rev acc)], LGround)
      else if Ascii.eqb c "\" then Some ([], LEsc acc)
      else if (N_of_ascii c <? 32)%N then None
      else Some ([], LStr (N_of_ascii c :: acc))
  | LEsc acc =>
      if Ascii.eqb c "u" then Some ([], LUni acc 4 0%N)
      else match escape_unit c with
           | Some u => Some ([], LStr (u :: acc))
           | None => None
           end
  | LUni acc k code =>
      match hex_value c, k with
      | Some h, S O => Some ([], LStr ((16 * code + h)%N :: acc))
      | Some h, S k' => Some ([], LUni acc k' (16 * code + h)%N)
      | _, _ => None
      end
  | LNum ns a => num_step ns a c
  end.

Definition lex_end (st : lstate) : option (list token) :=
  match st with
  | LGround => Some []
  | LNum NZero a | LNum NInt a | LNum NFrac a | LNum NExp a =>
      Some [number_token a]
  | _ => None
  end.

Fixpoint lex (st : lstate) (s : string) : option (list token) :=
  match s with
  | EmptyString => lex_end st
  | String c t =>
      match lex_step st c with
      | Some (ts, st') =>
          match lex st' t with
          | Some rest => Some (ts ++ rest)%list
          | None => None
          end
      | None => None
      end
  end.

(** The containers being built, innermost first. *)
Inductive frame : Type :=
| FArr (acc : list JSON)                          (* elements, reversed *)
| FObj (acc : list (list N * JSON)) (key : list N). (* members, reversed *)

Inductive mode : Type :=
| MValue                               (* a value must start here *)
| MValueOrEnd                          (* just after [: a value or ] *)
| MKeyOrEnd                            (* just after {: a key or } *)
| MKey (acc : list (list N * JSON))    (* after a comma in an object *)
| MColon (acc : list (list N * JSON)) (key : list N)
| MDone (v : JSON).                    (* a value was completed *)

Definition start_value (stack : list frame) (t : token)
  : option (list frame * mode) :=
  match t with
  | TScalar v => Some (stack, MDone v)
  | TString s => Some (stack, MDone (JString s))
  | TLBracket => Some (FArr [] :: stack, MValueOrEnd)
  | TLBrace => Some (stack, MKeyOrEnd)
  | _ => None
  end.

Definition parse_step (stack : list frame) (m : mode) (t : token)
  : option (list frame * mode) :=
  match m, t with
  | MValue, _ => start_value stack t
  | MValueOrEnd, TRBracket =>
      match stack with
      | FArr _ :: st => Some (st, MDone (JArray []))
      | _ => None
      end
  | MValueOrEnd, _ => start_value stack t
  | MKeyOrEnd, TRBrace => Some (stack, MDone (JObject []))
  | MKeyOrEnd, TString k => Some (stack, MColon [] k)
  | MKey acc, TString k => Some (stack, MColon acc k)
  | MColon acc k, TColon => Some (FObj acc k :: stack, MValue)
  | MDone v, TComma =>
      match stack with
      | FArr acc :: st => Some (FArr (v :: acc) :: st, MValue)
      | FObj acc k :: st => Some (st, MKey ((k, v) :: acc))
      | [] => None
      end
  | MDone v, TRBracket =>
      match stack with
      | FArr acc :: st => Some (st, MDone (JArray (rev (v :: acc))))
      | _ => None
      end
  | MDone v, TRBrace =>
      match stack with
      | FObj acc k :: st => Some (st, MDone (JObject (rev ((k, v) :: acc))))
      | _ => None
      end
  | _, _ => None
  end.

Fixpoint parse_tokens (stack : list frame) (m : mode) (ts : list token)
  : option JSON :=
  match ts with
  | [] =>
      match stack, m with
      | [], MDone v => Some v
      | _, _ => None
      end
  | t :: rest =>
      match parse_step stack m t with
      | Some (stack', m') => parse_tokens stack' m' rest
      | None => None
      end
  end.

End JSONParse.

Module JSON_.

(** [JSON.parse(text)]: [None] stands for the [SyntaxError] it throws. *)
Definition parse (text : string) : option JSON :=
  match JSONParse.lex JSONParse.LGround text with
  | Some ts => JSONParse.parse_tokens [] JSONParse.MValue ts
  | None => None
  end.

End JSON_.

Module JSValue.

(** The code units of a string literal of the program. *)
Fixpoint units (s : string) : list N :=
  match s with
  | EmptyString => []
  | String c t => N_of_ascii c :: units t
  end.

(** A parsed number is the double nearest to its decimal reading: it is
    zero when the mantissa is, or when the reading is at most [2^-1075],
    half of the least positive double (ties round to even, that is to 0). *)
Definition number_is_zero (mant : N) (exp10 : Z) : bool :=
  (mant =? 0)%N
  || ((exp10 <? 0) && (Z.of_N mant * 2 ^ 1075 <=? 10 ^ (- exp10))).

(** [Boolean(v)] on a parsed value. *)
Definition ToBoolean (v : JSON) : bool :=
  match v with
  | JNull => false
  | JBool b => b
  | JNumber _ mant exp10 => negb (number_is_zero mant exp10)
  | JString [] => false
  | JString (_ :: _) => true
  | JArray _ => true
  | JObject _ => true
  end.

(** [Boolean(v)] on a value that may be [undefined]. *)
Definition truthy (o : option JSON) : bool :=
  match o with
  | Some v => ToBoolean v
  | None => false
  end.

Definition units_eqb (a b : list N) : bool :=
  if list_eq_dec N.eq_dec a b then true else false.

(** The own property [key] of a parsed object: of two members with the
    same key the later one wins. *)
Fixpoint own_property (key : list N) (members : list (list N * JSON))
  : option JSON :=
  match members with
  | [] => None
  | (k, v) :: rest =>
      match own_property key rest with
      | Some v' => Some v'
      | None => if units_eqb k key then Some v else None
      end
  end.

(** [v.vote] and [v.reason] on a parsed value other than [null]: only an
    object can own them, and no prototype of a string, number, boolean,
    array or object defines them. *)
Definition get (v : JSON) (key : string) : option JSON :=
  match v with
  | JObject members => own_property (units key) members
  | _ => None
  end.

End JSValue.

(** ** Data of the program *)

(** A row of the [proposals] table as [signProposal] reads it: the numeric
    columns hold the integer that [BigInt(...)] yields. *)
Record Proposal : Type := mkProposal {
  p_sender : string;
  p_nonce : Z;
  p_callData : string;
  p_verificationGasLimit : Z;
  p_callGasLimit : Z;
  p_preVerificationGas : Z;
  p_maxFeePerGas : Z;
  p_maxPriorityFeePerGas : Z;
  p_factory : option string;
  p_factoryData : option string;
  p_paymaster : option string;
  p_paymasterPostOpGasLimit : option Z;
  p_paymasterVerificationGasLimit : option Z;
  p_paymasterData : option string;
  p_chain : string;
  p_content : string;
  p_userOpHash : string
}.

Inductive Chain : Type := mainnet | arbitrum | base.

(** [chain.id] of the three viem chain objects. *)
Definition chain_id (c : Chain) : Z :=
  match c with
  | mainnet => 1
  | arbitrum => 42161
  | base => 8453
  end.

Record Domain : Type := mkDomain {
  d_name : string;
  d_version : string;
  d_chainId : Z;
  d_verifyingContract : string
}.

(** The [message] of the typed data, in the order of [types.ValidateUserOp]. *)
Record TypedMessage : Type := mkMessage {
  m_sender : string;
  m_nonce : Z;
  m_initCode : string;
  m_callData : string;
  m_accountGasLimits : string;
  m_preVerificationGas : Z;
  m_gasFees : string;
  m_paymasterAndData : string;
  m_validUntil : Z;
  m_validAfter : Z
}.

Record Account : Type := mkAccount { address : string }.

(** A row of the [signatures] table: the five values bound by
    [addSignature]. *)
Record SigRow : Type := mkSigRow {
  row_signer : string;
  row_account : option string;
  row_hash : string;
  row_signature : string;
  row_content : option JSON
}.

(** The argument of [addSignature]. *)
Record Sig : Type := mkSig {
  sig_signer : string;
  sig_account : option string;
  sig_hash : string;
  sig_signature : string;
  sig_reason : option JSON
}.

(** The [status] of an entry of [results]: success, rejected, error. *)
Inductive Status : Type := status_success | status_rejected | status_error.

(** An entry pushed on [results]. *)
Record ResultEntry : Type := mkEntry {
  r_hash : string;
  r_status : Status;
  r_signature : option string;
  r_vote : option JSON;
  r_reason : option JSON;
  r_error : option string
}.

Inductive HttpResponse : Type :=
| Status200 (message : string) (results : list ResultEntry)
| Status500 (details : string).

Record ValidatorApp : Type := mkApp {
  app_id : string;
  app_address : string;
  app_title : string;
  app_icon : string;
  app_description : string
}.

(** ** The world outside the function

    Calls that leave the process are recorded in a trace, oldest first.
    What the outside answers is given by an environment; an answer may
    depend on the moment of the call, that is on the number of calls made
    before it. *)

Inductive Event : Type :=
| EvSelect                                  (* the proposals query *)
| EvInsert (row : SigRow)                   (* the insert of addSignature *)
| EvSleep (ms : Z)                          (* setTimeout *)
| EvFetch (content : string)                (* the oracle request *)
| EvAccount                                 (* toGcpAccount *)
| EvReadContract (c : Chain) (addr : string)
| EvSignTypedData (d : Domain) (m : TypedMessage).

Record World : Type := mkWorld {
  signatures : list SigRow;     (* the table written by addSignature *)
  trace : list Event
}.

Record Env : Type := mkEnv {
  (** what the proposals query answers *)
  select_reply : nat -> Result (list Proposal);
  (** a failure of the insert that is not a constraint violation *)
  insert_fault : nat -> option JSError;
  (** whether the signatures table declares (signer, hash) unique; the
      repository holds no schema, so both cases are considered *)
  unique_signer_hash : bool;
  (** the body of the oracle's response to a system message, or the
      failure of [fetch] or of [response.text()] *)
  fetch_reply : nat -> string -> Result string;
  account_reply : nat -> Result Account;
  (** what [readContract] answers for [eip712Domain()]: the entries 1 to 4
      of the tuple, [chainId] as the number [Number(data[3])] *)
  readContract_reply : nat -> Chain -> string -> Result Domain;
  signTypedData_reply : nat -> Domain -> TypedMessage -> Result string;
  (** the two functions imported from eip-7582-utils (index.js:6) *)
  getKeyFromNonce : Z -> string;
  getValidatorKey : string -> string
}.

(** ** Computations: state passing with exceptions *)

Definition M (A : Type) : Type := World -> Result A * World.

Definition ret {A} (a : A) : M A := fun w => (Ok a, w).

Definition throw {A} (e : JSError) : M A := fun w => (Throw e, w).

Definition bind {A B} (m : M A) (k : A -> M B) : M B :=
  fun w =>
    match m w with
    | (Ok a, w') => k a w'
    | (Throw e, w') => (Throw e, w')
    end.

(** [try { m } catch (e) { h e }]. *)
Definition try_catch {A} (m : M A) (h : JSError -> M A) : M A :=
  fun w =>
    match m w with
    | (Ok a, w') => (Ok a, w')
    | (Throw e, w') => h e w'
    end.

Definition lift {A} (r : Result A) : M A := fun w => (r, w).

Definition log (e : Event) (w : World) : World :=
  mkWorld (signatures w) (trace w ++ [e]).

(** An outside call: its answer is read at the present moment and the
    call is recorded. *)
Definition call {A} (reply : nat -> Result A) (e : Event) : M A :=
  fun w => (reply (List.length (trace w)), log e w).

Declare Scope js_scope.
Delimit Scope js_scope with js.
Notation "x <- m ;; k" := (bind m (fun x => k))
  (at level 61, m at next level, right associativity) : js_scope.
Notation "m ;;; k" := (bind m (fun _ => k))
  (at level 61, right associativity) : js_scope.

Definition Error (message : string) : JSError := mkJSError "Error" message.
Definition TypeError (message : string) : JSError :=
  mkJSError "TypeError" message.
Definition ReferenceError (ident : string) : JSError :=
  mkJSError "ReferenceError" (ident ++ " is not defined").

(** ** The program (index.js) *)

Local Open Scope js_scope.

Definition TARGET_SENDER : string := "0x0000000000001d8a2e7bf6bc369525a2654aa298".
Definition AI_SIGNER : string := "0x466d3E0E6D661d6E7626e9dea93c460BD4e15B40".

Definition validatorApps : list ValidatorApp :=
  [ mkApp "remote-validator" "0x0000000000159aAFCA7067005E28665a28B5B4cf"
      "Scheduler" "/apps/remote-validator.png"
      "Set specific days and times for your transactions to be processed";
    mkApp "recovery-validator" "0x000000000000a78fb292191473e51dd34700c43d"
      "Recovery" "/apps/recovery-validator.png"
      "Set backup roles to recover your account in case of an emergency";
    mkApp "joint-validator" "0x000000000000D3D2b2980A7BC509018E4d88e947"
      "Joint Ownership" "/apps/joint-validator.webp"
      "Add joint owners to your smart account with full concurrent rights";
    mkApp "payment-validator" "0x00000000000032CD4FAE890F90e61e6864e44aa7"
      "Payment Plans" "/apps/payment-validator.webp"
      "Add payment plans and delegate token transfer permissions";
    mkApp "permit-validator" "0x000000000000ab6c9FF3ed50AC4BAF2a20890835"
      "Custom Permissions" "/apps/permit-validator.webp"
      "Add arbitrary permissions within the Permit structure" ].

(** [getValidator] (index.js:330-336). *)
Definition getValidator (id : string) : Result ValidatorApp :=
  match find (fun app => String.eqb (app_id app) id) validatorApps with
  | Some app => Ok app
  | None => Throw (Error "App not found")
  end.

(** [resolveChain] (index.js:414-425). *)
Definition resolveChain (chain : string) : Result Chain :=
  let c := JS.toLowerCase chain in
  if String.eqb c "eth" then Ok mainnet
  else if String.eqb c "arbitrum" then Ok arbitrum
  else if String.eqb c "base" then Ok base
  else Throw (Error "Unsupported chain ").

(** *** Identifiers in scope

    What a free identifier of a function body refers to: its own
    parameters and declarations, then the bindings of the module (imports
    and top-level declarations).  A binding that holds a viem client
    records the chain the client was created for. *)

Inductive Binding : Type :=
| BClient (c : Chain)
| BOther.

Definition Scope : Type := list (string * Binding).

Definition others (names : list string) : Scope :=
  map (fun x => (x, BOther)) names.

Definition module_scope : Scope :=
  others [ "http"; "pg"; "toGcpAccount"; "mainnet"; "base"; "arbitrum";
           "createPublicClient"; "viemHttp"; "concat"; "pad"; "toHex";
           "getKeyFromNonce"; "getValidatorKey";
           "types"; "credentials"; "CONNECTION_STRING"; "pool";
           "TARGET_SENDER"; "AI_SIGNER"; "getRecentProposals";
           "addSignature"; "getNaniVote"; "signProposal"; "validatorApps";
           "getValidator"; "packInitCode"; "packAccountGasLimits";
           "packGasLimits"; "packPaymasterAndData"; "eip712DomainABI";
           "getDomain"; "resolveChain" ].

(** The body of [getDomain] declares the client (index.js:395). *)
Definition getDomain_scope (c : Chain) : Scope :=
  ((("publicClient", BClient c) :: others ["sender"; "chain"; "data"])
     ++ module_scope)%list.

(** The body of [signProposal] declares no client (index.js:221-287). *)
Definition signProposal_scope : Scope :=
  (others [ "account"; "proposal"; "userOperation"; "domain"; "gasFees";
           "accountGasLimits"; "paymasterAndData"; "initCode"; "message";
           "key"; "signature" ]
    ++ module_scope)%list.

Fixpoint lookup (x : string) (sc : Scope) : option Binding :=
  match sc with
  | [] => None
  | (y, b) :: rest => if String.eqb x y then Some b else lookup x rest
  end.

(** The expression [x.chain.id]. *)
Definition client_chain_id (sc : Scope) (x : string) : Result Z :=
  match lookup x sc with
  | Some (BClient c) => Ok (chain_id c)
  | Some BOther =>
      Throw (TypeError "Cannot read properties of undefined (reading 'id')")
  | None => Throw (ReferenceError x)
  end.

Definition zero_key : string :=
  "0x0000000000000000000000000000000000000000000000000000000000000000".

Definition format_example : string :=
  "{" ++ JS.dq ++ "vote" ++ JS.dq ++ ":true/false," ++ JS.dq ++ "reason"
      ++ JS.dq ++ ":" ++ JS.dq ++ "explanation" ++ JS.dq ++ "}".

(** The system message of [makeRequest] (index.js:187). *)
Definition system_content (additionalInstruction content : string) : string :=
  "You are NANI, an AI member of the DAO. You must carefully evaluate whether the following proposal is in the best interest of the DAO. Analyze the proposal and determine if it should be approved. Your response must be in JSON format with 'vote' being true or false and include a 'reason' explaining your decision. Format: "
    ++ format_example ++ ". " ++ additionalInstruction
    ++ " Here is the proposal to evaluate: " ++ content.

Definition second_instruction : string :=
  "You must respond with ONLY valid JSON, no other text or explanation.".

Definition final_instruction : string :=
  "CRITICAL: Respond with ONLY a JSON object in the exact format {"
    ++ JS.dq ++ "vote" ++ JS.dq ++ ": boolean, " ++ JS.dq ++ "reason" ++ JS.dq
    ++ ": " ++ JS.dq ++ "string" ++ JS.dq ++ "} - no other text whatsoever.".

(** [try { return JSON.parse(text) } catch (e) { return null }]
    (index.js:194-199). *)
Definition parse_or_null (text : string) : JSON :=
  match JSON_.parse text with
  | Some v => v
  | None => JNull
  end.

(** The object literal of [signProposal] (index.js:222-242).  A [Proposal]
    holds in its numeric fields the integers that the [BigInt(...)]
    conversions of lines 224-240 yield, so the literal copies them; a row
    on which a conversion throws (a column that is not the text of an
    integer) has no [Proposal] and lies outside this development. *)
Definition userOperation_of (proposal : Proposal) : UserOperation :=
  {| sender := p_sender proposal;
     nonce := p_nonce proposal;
     callData := p_callData proposal;
     verificationGasLimit := p_verificationGasLimit proposal;
     callGasLimit := p_callGasLimit proposal;
     preVerificationGas := p_preVerificationGas proposal;
     maxFeePerGas := p_maxFeePerGas proposal;
     maxPriorityFeePerGas := p_maxPriorityFeePerGas proposal;
     factory := p_factory proposal;
     factoryData := p_factoryData proposal;
     paymaster := p_paymaster proposal;
     paymasterPostOpGasLimit := p_paymasterPostOpGasLimit proposal;
     paymasterVerificationGasLimit := p_paymasterVerificationGasLimit proposal;
     paymasterData := p_paymasterData proposal |}.

Section Program.

Variable E : Env.

(** [pool.query] of the proposals query (index.js:124-139). *)
Definition query_proposals : M (list Proposal) :=
  call (select_reply E) EvSelect.

Definition same_key (a b : SigRow) : bool :=
  String.eqb (row_signer a) (row_signer b)
  && String.eqb (row_hash a) (row_hash b).

Definition unique_violation : JSError :=
  mkJSError "error" "duplicate key value violates unique constraint".

(** [pool.query] of [INSERT INTO signatures ... RETURNING *]
    (index.js:153-157, 167): the statement has no conflict clause, so the
    row is appended unless the table refuses it. *)
Definition query_insert (row : SigRow) : M SigRow :=
  fun w =>
    match insert_fault E (List.length (trace w)) with
    | Some e => (Throw e, log (EvInsert row) w)
    | None =>
        if unique_signer_hash E && existsb (same_key row) (signatures w)
        then (Throw unique_violation, log (EvInsert row) w)
        else (Ok row, log (EvInsert row)
                        (mkWorld (signatures w ++ [row]) (trace w)))
    end.

Definition sleep (ms : Z) : M unit :=
  fun w => (Ok tt, log (EvSleep ms) w).

(** The loop of [getRecentProposals] (index.js:122-149) from iteration
    [i], with [todo = retries - i] iterations left; falling out of the loop
    returns [undefined]. *)
Fixpoint getRecentProposals_loop (retries i todo : nat)
  : M (option (list Proposal)) :=
  match todo with
  | O => ret None
  | S todo' =>
      try_catch
        (rows <- query_proposals ;; ret (Some rows))
        (fun error =>
           if Nat.eqb i (retries - 1) then throw error
           else
             sleep (1000 * (Z.of_nat i + 1)) ;;;
             getRecentProposals_loop retries (S i) todo')
  end.

(** [getRecentProposals] (index.js:121-150); the handler calls it with the
    default [retries = 3]. *)
Definition getRecentProposals (retries : nat) : M (option (list Proposal)) :=
  getRecentProposals_loop retries 0 retries.

(** The [values] bound by [addSignature] (index.js:158-164). *)
Definition row_of (sig : Sig) : SigRow :=
  {| row_signer := JS.toLowerCase (sig_signer sig);
     row_account :=
       if JS.truthy_string (sig_account sig)
       then Some (JS.toLowerCase (JS.or_string (sig_account sig) ""))
       else None;
     row_hash := JS.toLowerCase (sig_hash sig);
     row_signature := sig_signature sig;
     row_content := sig_reason sig |}.

(** [addSignature] (index.js:152-173): the catch clause logs and rethrows. *)
Definition addSignature (sig : Sig) : M SigRow :=
  try_catch (query_insert (row_of sig)) (fun error => throw error).

(** [makeRequest] (index.js:176-200).  [fetch] and [response.text()] stand
    outside the try block: their failure is thrown, only a parse failure
    becomes [null]. *)
Definition makeRequest (proposal : Proposal) (additionalInstruction : string)
  : M JSON :=
  text <- call (fun t => fetch_reply E t
                           (system_content additionalInstruction
                                           (p_content proposal)))
               (EvFetch (system_content additionalInstruction
                                        (p_content proposal))) ;;
  ret (parse_or_null text).

(** One attempt of [getNaniVote] and what follows a failed one:
    [result = await makeRequest(...); if (result) return result; rest]. *)
Definition attempt (proposal : Proposal) (additionalInstruction : string)
  (rest : M JSON) : M JSON :=
  result <- makeRequest proposal additionalInstruction ;;
  if JSValue.ToBoolean result then ret result else rest.

Definition format_error : JSError :=
  Error "Failed to get valid JSON response after 3 attempts".

(** [getNaniVote] (index.js:175-219). *)
Definition getNaniVote (proposal : Proposal) : M JSON :=
  result <- makeRequest proposal "" ;;
  if JSValue.ToBoolean result then ret result else
  result <- makeRequest proposal second_instruction ;;
  if JSValue.ToBoolean result then ret result else
  result <- makeRequest proposal final_instruction ;;
  if JSValue.ToBoolean result then ret result else
  throw format_error.

(** [getDomain] (index.js:394-412); its client is local to it. *)
Definition getDomain (sender chain : string) : M Domain :=
  c <- lift (resolveChain chain) ;;
  data <- call (fun t => readContract_reply E t c sender)
               (EvReadContract c sender) ;;
  ret {| d_name := d_name data;
         d_version := d_version data;
         d_chainId := d_chainId data;
         d_verifyingContract := d_verifyingContract data |}.

(** [signProposal] (index.js:221-287).  The override branch reads
    [publicClient.chain.id] in the scope of this function. *)
Definition signProposal (account : Account) (proposal : Proposal) : M string :=
  let userOperation := userOperation_of proposal in
  domain <- getDomain (sender userOperation) (p_chain proposal) ;;
  gasFees <- lift (packGasLimits userOperation) ;;
  accountGasLimits <- lift (packAccountGasLimits userOperation) ;;
  paymasterAndData <- lift (packPaymasterAndData userOperation) ;;
  let initCode := packInitCode userOperation in
  let message :=
    {| m_sender := sender userOperation;
       m_nonce := nonce userOperation;
       m_initCode := initCode;
       m_callData := callData userOperation;
       m_accountGasLimits := accountGasLimits;
       m_preVerificationGas := preVerificationGas userOperation;
       m_gasFees := gasFees;
       m_paymasterAndData := paymasterAndData;
       m_validUntil := 0;
       m_validAfter := 0 |} in
  let key := getKeyFromNonce E (nonce userOperation) in
  domain <-
    (if negb (String.eqb key zero_key) then
       app <- lift (getValidator "remote-validator") ;;
       if String.eqb key (getValidatorKey E (app_address app)) then
         chainId <- lift (client_chain_id signProposal_scope "publicClient") ;;
         app' <- lift (getValidator "remote-validator") ;;
         ret {| d_name := "RemoteValidator";
                d_version := "1.0.0";
                d_chainId := chainId;
                d_verifyingContract := app_address app' |}
       else ret domain
     else ret domain) ;;
  call (fun t => signTypedData_reply E t domain message)
       (EvSignTypedData domain message).

(** [const { vote, reason } = value]. *)
Definition destructure (value : JSON) : Result (option JSON * option JSON) :=
  match value with
  | JNull =>
      Throw (TypeError "Cannot destructure property 'vote' of null")
  | _ => Ok (JSValue.get value "vote", JSValue.get value "reason")
  end.

(** The branch of index.js:58-75. *)
Definition sign_branch (account : Account) (proposal : Proposal)
  (vote reason : option JSON) : M ResultEntry :=
  signature <- signProposal account proposal ;;
  addSignature {| sig_signer := address account;
                  sig_account := Some (p_sender proposal);
                  sig_hash := p_userOpHash proposal;
                  sig_signature := signature;
                  sig_reason := reason |} ;;;
  ret {| r_hash := p_userOpHash proposal;
         r_status := status_success;
         r_signature := Some signature;
         r_vote := vote;
         r_reason := reason;
         r_error := None |}.

(** The branch of index.js:77-90. *)
Definition reject_branch (account : Account) (proposal : Proposal)
  (vote reason : option JSON) : M ResultEntry :=
  addSignature {| sig_signer := address account;
                  sig_account := Some (p_sender proposal);
                  sig_hash := p_userOpHash proposal;
                  sig_signature := "";
                  sig_reason := reason |} ;;;
  ret {| r_hash := p_userOpHash proposal;
         r_status := status_rejected;
         r_signature := None;
         r_vote := vote;
         r_reason := reason;
         r_error := None |}.

(** What follows the oracle's decision (index.js:54-91). *)
Definition decide (account : Account) (proposal : Proposal) (decision : JSON)
  : M ResultEntry :=
  vr <- lift (destructure decision) ;;
  let '(vote, reason) := vr in
  if Bool.eqb (JSValue.truthy vote) true
  then sign_branch account proposal vote reason
  else reject_branch account proposal vote reason.

(** One iteration of the loop (index.js:51-102). *)
Definition process_proposal (account : Account) (proposal : Proposal)
  : M ResultEntry :=
  try_catch
    (decision <- getNaniVote proposal ;; decide account proposal decision)
    (fun error =>
       ret {| r_hash := p_userOpHash proposal;
              r_status := status_error;
              r_signature := None;
              r_vote := None;
              r_reason := None;
              r_error := Some (err_message error) |}).

(** The loop (index.js:50-103): [results], in the order of the pushes. *)
Fixpoint process_all (account : Account) (proposals : list Proposal)
  : M (list ResultEntry) :=
  match proposals with
  | [] => ret []
  | proposal :: rest =>
      entry <- process_proposal account proposal ;;
      entries <- process_all account rest ;;
      ret (entry :: entries)
  end.

(** The handler registered as [vote] (index.js:39-116). *)
Definition vote : M HttpResponse :=
  try_catch
    (found <- getRecentProposals 3 ;;
     match found with
     | None =>
         throw (TypeError
                  "Cannot read properties of undefined (reading 'length')")
     | Some proposals =>
         account <- call (account_reply E) EvAccount ;;
         results <- process_all account proposals ;;
         ret (Status200
                ("Processed " ++ JS.Number_toString (List.length proposals)
                   ++ " proposals")
                results)
     end)
    (fun error => ret (Status500 (err_message error))).

End Program.

Definition sample_paymaster_op : UserOperation :=
  mkUserOperation "0x0000000000001d8a2e7bf6bc369525a2654aa298" 7 "0x"
    150000 150000 21000 100 1 None None
    (Some "0x00000000000032CD4FAE890F90e61e6864e44aa7")
    None (Some 50000) (Some "0xc0ffee").

(** ** Sample data

    Concrete proposals, oracle replies and environments on which the
    program is run in the examples below. *)

Definition sample_proposal (hash content : string) (nonce : Z) : Proposal :=
  mkProposal TARGET_SENDER nonce "0x" 150000 150000 21000 100 1
    None None None None None None "base" content hash.

Definition quoted (s : string) : string := JS.dq ++ s ++ JS.dq.

Definition body_approve : string :=
  "{" ++ quoted "vote" ++ ":true," ++ quoted "reason" ++ ":"
      ++ quoted "Within the treasury policy" ++ "}".

Definition body_reject : string :=
  "{" ++ quoted "vote" ++ ":false," ++ quoted "reason" ++ ":"
      ++ quoted "Drains the treasury" ++ "}".

(** The vote is the string "false", not the boolean. *)
Definition body_string_false : string :=
  "{" ++ quoted "vote" ++ ":" ++ quoted "false" ++ "," ++ quoted "reason"
      ++ ":" ++ quoted "Drains the treasury" ++ "}".

Definition body_prose : string := "Sure! I would approve this proposal.".

(** Stand-ins for the two functions of eip-7582-utils, whose code is not
    part of this repository: the key of a nonce is its upper 24 bytes and
    the key of a validator is its address, both written as 32-byte words. *)
Definition sample_getKeyFromNonce (nonce : Z) : string :=
  "0x" ++ JS.padStart 64 "0" (JS.BigInt_toString16 (nonce / 2 ^ 64)).

Definition sample_getValidatorKey (addr : string) : string :=
  "0x" ++ JS.padStart 64 "0" (JS.toLowerCase (JS.replace "0x" "" addr)).

(** An environment in which nothing fails but what the arguments say:
    [selects] answers the proposals query, [fetches] the oracle. *)
Definition sample_env (selects : nat -> Result (list Proposal))
  (fetches : nat -> string -> Result string) (unique : bool) : Env :=
  {| select_reply := selects;
     insert_fault := fun _ => None;
     unique_signer_hash := unique;
     fetch_reply := fetches;
     account_reply := fun _ => Ok (mkAccount AI_SIGNER);
     readContract_reply :=
       fun _ c addr => Ok (mkDomain "NANI" "1.1.1" (chain_id c) addr);
     signTypedData_reply := fun _ _ _ => Ok "0x5197ed";
     getKeyFromNonce := sample_getKeyFromNonce;
     getValidatorKey := sample_getValidatorKey |}.

(** The oracle answers the [t]-th call of a run with the [t]-th body. *)
Definition bodies (script : list string) (t : nat) (_ : string)
  : Result string :=
  Ok (nth t script body_prose).

Definition no_rows (_ : nat) : Result (list Proposal) := Ok [].

Definition connection_refused : JSError :=
  mkJSError "Error" "connect ECONNREFUSED".

Definition empty_world : World := mkWorld [] [].

Definition proposal_1 : Proposal :=
  sample_proposal "0xAA01" "Pay 10 USDC to the auditors" 1.

Definition proposal_2 : Proposal :=
  sample_proposal "0xAA02" "Send the whole treasury to a fresh address" 2.

(** A proposal whose nonce carries the key of the remote validator. *)
Definition proposal_remote : Proposal :=
  sample_proposal "0xAA03" "Schedule the weekly payout"
    (0x159aafca7067005e28665a28b5b4cf * 2 ^ 64 + 5).

(** Oracles: one that answers well at once, one that never answers in
    JSON, one whose first body is the JSON text null, and one whose bodies
    are JSON texts of falsy values. *)
Definition env_approving : Env :=
  sample_env no_rows (bodies [body_approve]) false.

Definition env_prose : Env := sample_env no_rows (bodies []) false.

Definition env_null_first : Env :=
  sample_env no_rows (bodies ["null"; body_approve]) false.

Definition env_falsy : Env :=
  sample_env no_rows (bodies ["0"; "false"; quoted ""]) false.

Definition fetch_of (instruction : string) (proposal : Proposal) : Event :=
  EvFetch (system_content instruction (p_content proposal)).

(** A database that refuses every connection. *)
Definition env_db_down : Env :=
  sample_env (fun _ => Throw connection_refused) (bodies []) false.

(** ** Vocabulary of the store and batch properties *)

Definition row_key (r : SigRow) : string * string := (row_signer r, row_hash r).

(** At most one row for each (signer, hash). *)
Definition keys_unique (rows : list SigRow) : Prop := NoDup (map row_key rows).

(** The row that the processing of [proposal] has added to the store,
    read off the entry it pushed on [results]: none for an error. *)
Definition recorded (account : Account) (proposal : Proposal)
  (entry : ResultEntry) : list SigRow :=
  match r_status entry with
  | status_error => []
  | _ =>
      [ row_of {| sig_signer := address account;
                  sig_account := Some (p_sender proposal);
                  sig_hash := p_userOpHash proposal;
                  sig_signature :=
                    match r_signature entry with Some s => s | None => "" end;
                  sig_reason := r_reason entry |} ]
  end.

Fixpoint recorded_all (account : Account) (proposals : list Proposal)
  (entries : list ResultEntry) : list SigRow :=
  match proposals, entries with
  | p :: ps, e :: es => recorded account p e ++ recorded_all account ps es
  | _, _ => []
  end.

(** A computation that leaves the store as it found it. *)
Definition preserves_store {A} (m : M A) : Prop :=
  forall w, signatures (snd (m w)) = signatures w.

Definition sample_sig : Sig :=
  {| sig_signer := AI_SIGNER;
     sig_account := Some TARGET_SENDER;
     sig_hash := "0xAA01";
     sig_signature := "";
     sig_reason := None |}.

Definition env_plain (unique : bool) : Env :=
  sample_env no_rows (bodies []) unique.

Definition remote_validator_address : string :=
  "0x0000000000159aAFCA7067005E28665a28B5B4cf".

(** The typed-data message that [signProposal] builds (index.js:250-261). *)
Definition message_of (proposal : Proposal)
  (gasFees accountGasLimits paymasterAndData : string) : TypedMessage :=
  {| m_sender := p_sender proposal;
     m_nonce := p_nonce proposal;
     m_initCode := packInitCode (userOperation_of proposal);
     m_callData := p_callData proposal;
     m_accountGasLimits := accountGasLimits;
     m_preVerificationGas := p_preVerificationGas proposal;
     m_gasFees := gasFees;
     m_paymasterAndData := paymasterAndData;
     m_validUntil := 0;
     m_validAfter := 0 |}.

(** The domain that the override is written to produce. *)
Definition remote_validator_domain (chainId : Z) : Domain :=
  {| d_name := "RemoteValidator";
     d_version := "1.0.0";
     d_chainId := chainId;
     d_verifyingContract := remote_validator_address |}.

Definition is_sign_event (e : Event) : bool :=
  match e with
  | EvSignTypedData _ _ => true
  | _ => false
  end.

(** The entry pushed by the catch clause of the loop (index.js:97-101). *)
Definition error_entry (proposal : Proposal) (e : JSError) : ResultEntry :=
  {| r_hash := p_userOpHash proposal;
     r_status := status_error;
     r_signature := None;
     r_vote := None;
     r_reason := None;
     r_error := Some (err_message e) |}.

(** Two proposals are found; the oracle answers the first in prose three
    times and approves the second at once. *)
Definition env_batch : Env :=
  sample_env (fun _ => Ok [proposal_1; proposal_2])
    (bodies [body_prose; body_prose; body_prose; body_prose; body_prose;
             body_approve])
    false.

(** One proposal is found; the oracle votes with the string "false". *)
Definition env_string_false : Env :=
  sample_env (fun _ => Ok [proposal_1])
    (fun _ _ => Ok body_string_false) false.

(** ** Further sample data *)

Definition sample_factory_op : UserOperation :=
  mkUserOperation "0x0000000000001d8a2e7bf6bc369525a2654aa298" 7 "0x"
    150000 150000 21000 100 1
    (Some "0x0000000000009f1E546FC4A8F68eB98031846cb8") (Some "0xc0ffee")
    None None None None.

Definition sample_fee_op (priority fee : Z) : UserOperation :=
  mkUserOperation "0x0000000000001d8a2e7bf6bc369525a2654aa298" 7 "0x"
    150000 150000 21000 fee priority None None None None None None.

Definition network_down : JSError :=
  mkJSError "TypeError" "fetch failed".

(** The oracle answers in prose once, then the connection fails. *)
Definition env_fetch_fails : Env :=
  sample_env no_rows
    (fun t _ => if Nat.eqb t 0 then Ok body_prose else Throw network_down)
    false.

(** The outside calls of [k] queries in a row, the first one being
    iteration [i] of the retry loop: between two queries a sleep of
    [1000 * (j + 1)] ms after the failed iteration [j]. *)
Fixpoint backoff_events (i k : nat) : list Event :=
  match k with
  | O => []
  | S k' =>
      EvSelect ::
      match k' with
      | O => []
      | S _ => EvSleep (1000 * (Z.of_nat i + 1)) :: backoff_events (S i) k'
      end
  end.

(** The entries pushed on the signing and on the rejection branch
    (index.js:69-75, 85-90). *)
Definition success_entry (proposal : Proposal) (signature : string)
  (vote reason : option JSON) : ResultEntry :=
  {| r_hash := p_userOpHash proposal;
     r_status := status_success;
     r_signature := Some signature;
     r_vote := vote;
     r_reason := reason;
     r_error := None |}.

Definition rejected_entry (proposal : Proposal) (vote reason : option JSON)
  : ResultEntry :=
  {| r_hash := p_userOpHash proposal;
     r_status := status_rejected;
     r_signature := None;
     r_vote := vote;
     r_reason := reason;
     r_error := None |}.

(** The argument of [addSignature] on either branch (index.js:61-67,
    77-83). *)
Definition sig_of (account : Account) (proposal : Proposal)
  (signature : string) (reason : option JSON) : Sig :=
  {| sig_signer := address account;
     sig_account := Some (p_sender proposal);
     sig_hash := p_userOpHash proposal;
     sig_signature := signature;
     sig_reason := reason |}.

(** A row as [addSignature] writes it: signer, hash and account in lower
    case. *)
Definition normalized (r : SigRow) : Prop :=
  JS.toLowerCase (row_signer r) = row_signer r
  /\ JS.toLowerCase (row_hash r) = row_hash r
  /\ match row_account r with
     | Some a => JS.toLowerCase a = a
     | None => True
     end.

Definition is_error (entry : ResultEntry) : bool :=
  match r_status entry with
  | status_error => true
  | _ => false
  end.

(** The outside calls of a run that ends before any proposal is looked
    at: queries, sleeps and the fetch of the account. *)
Definition is_startup_event (e : Event) : bool :=
  match e with
  | EvSelect | EvSleep _ | EvAccount => true
  | _ => false
  end.

(** A proposal on a chain the function does not know. *)
Definition proposal_optimism : Proposal :=
  mkProposal TARGET_SENDER 3 "0x" 150000 150000 21000 100 1
    None None None None None None "optimism" "Fund the grants round" "0xAA04".

Definition env_always (body : string) (unique : bool) : Env :=
  sample_env no_rows (fun _ _ => Ok body) unique.

(** The table refuses every insert. *)
Definition env_insert_fails : Env :=
  {| select_reply := no_rows;
     insert_fault := fun _ => Some connection_refused;
     unique_signer_hash := false;
     fetch_reply := fun _ _ => Ok body_approve;
     account_reply := fun _ => Ok (mkAccount AI_SIGNER);
     readContract_reply :=
       fun _ c addr => Ok (mkDomain "NANI" "1.1.1" (chain_id c) addr);
     signTypedData_reply := fun _ _ _ => Ok "0x5197ed";
     getKeyFromNonce := sample_getKeyFromNonce;
     getValidatorKey := sample_getValidatorKey |}.

(** The key service of the account is unreachable. *)
Definition env_no_account : Env :=
  {| select_reply := fun _ => Ok [proposal_1];
     insert_fault := fun _ => None;
     unique_signer_hash := false;
     fetch_reply := fun _ _ => Ok body_approve;
     account_reply := fun _ => Throw connection_refused;
     readContract_reply :=
       fun _ c addr => Ok (mkDomain "NANI" "1.1.1" (chain_id c) addr);
     signTypedData_reply := fun _ _ _ => Ok "0x5197ed";
     getKeyFromNonce := sample_getKeyFromNonce;
     getValidatorKey := sample_getValidatorKey |}.

Definition sample_account : Account := mkAccount AI_SIGNER.

Definition sample_domain : Domain :=
  mkDomain "NANI" "1.1.1" 8453 TARGET_SENDER.

Definition sample_gasFees : string :=
  "0x0000000000000000000000000000000100000000000000000000000000000064".

Definition sample_accountGasLimits : string :=
  "0x000000000000000000000000000249f0000000000000000000000000000249f0".

(** The outcome of [sample_sig] again, hash and signer in other letter
    case. *)
Definition sample_sig_other_case : Sig :=
  {| sig_signer := "0x466D3E0E6D661D6E7626E9DEA93C460BD4E15B40";
     sig_account := Some TARGET_SENDER;
     sig_hash := "0xaa01";
     sig_signature := "0x5197ed";
     sig_reason := None |}.

(** A proposal whose fee does not fit in sixteen bytes. *)
Definition proposal_huge_fee : Proposal :=
  mkProposal TARGET_SENDER 4 "0x" 150000 150000 21000 (2 ^ 128) 1
    None None None None None None "base" "Raise the fee cap" "0xAA05".

(** A paymaster is set and its post-operation gas limit needs seventeen
    bytes. *)
Definition sample_paymaster_overflow_op : UserOperation :=
  mkUserOperation "0x0000000000001d8a2e7bf6bc369525a2654aa298" 7 "0x"
    150000 150000 21000 100 1 None None
    (Some "0x00000000000032CD4FAE890F90e61e6864e44aa7")
    (Some (2 ^ 128)) (Some 50000) (Some "0xc0ffee").

(* ================================================================== *)
(** * Part II. Properties                                              *)
(* ================================================================== *)

(** ** Strings *)

Lemma string_app_nil_r (s : string) : s ++ "" = s.
Proof. induction s as [|c s IH]; simpl; [reflexivity | now rewrite IH]. Qed.

Lemma string_app_assoc (a b c : string) : (a ++ b) ++ c = a ++ (b ++ c).
Proof. induction a as [|x a IH]; simpl; [reflexivity | now rewrite IH]. Qed.

Lemma string_length_app (a b : string) :
  String.length (a ++ b) = (String.length a + String.length b)%nat.
Proof. induction a as [|x a IH]; simpl; [reflexivity | now rewrite IH]. Qed.

Lemma repeat_char_length (c : ascii) (n : nat) :
  String.length (JS.repeat_char c n) = n.
Proof. induction n as [|n IH]; simpl; [reflexivity | now rewrite IH]. Qed.

Lemma strip_prefix_app (p s : string) : JS.strip_prefix p (p ++ s) = Some s.
Proof.
  induction p as [|c p IH]; simpl; [reflexivity|].
  now rewrite Ascii.eqb_refl.
Qed.

(** Removing the first ["0x"] of a string that starts with it leaves the
    digits. *)
Lemma replace_0x (ds : string) : JS.replace "0x" "" ("0x" ++ ds) = ds.
Proof. destruct ds; reflexivity. Qed.

(** Strings are read two characters at a time. *)
Lemma string_pair_ind (P : string -> Prop) :
  P "" ->
  (forall c, P (String c "")) ->
  (forall a b t, P t -> P (String a (String b t))) ->
  forall s, P s.
Proof.
  intros H0 H1 H2.
  fix IH 1.
  intros [|a [|b t]].
  - exact H0.
  - apply H1.
  - apply H2, IH.
Qed.

(** ** Hex digits and big-endian bytes *)

Lemma hex_char_value_hex_digit (d : Z) :
  0 <= d < 16 -> hex_char_value (JS.hex_digit d) = Some d.
Proof.
  intros H.
  assert (d = 0 \/ d = 1 \/ d = 2 \/ d = 3 \/ d = 4 \/ d = 5 \/ d = 6 \/ d = 7
          \/ d = 8 \/ d = 9 \/ d = 10 \/ d = 11 \/ d = 12 \/ d = 13 \/ d = 14
          \/ d = 15) as D by lia.
  repeat (destruct D as [D|D]; [subst d; reflexivity|]).
  subst d; reflexivity.
Qed.

Lemma hex_char_value_range (c : ascii) (d : Z) :
  hex_char_value c = Some d -> 0 <= d < 16.
Proof.
  unfold hex_char_value.
  set (n := Z.of_nat (nat_of_ascii c)).
  destruct ((48 <=? n) && (n <=? 57)) eqn:A.
  { intros [= <-]. apply andb_true_iff in A. lia. }
  destruct ((97 <=? n) && (n <=? 102)) eqn:B.
  { intros [= <-]. apply andb_true_iff in B. lia. }
  destruct ((65 <=? n) && (n <=? 70)) eqn:C.
  { intros [= <-]. apply andb_true_iff in C. lia. }
  discriminate.
Qed.

Lemma hex_value_acc_app (a : Z) (s t : string) :
  hex_value_acc a (s ++ t)
  = match hex_value_acc a s with
    | Some v => hex_value_acc v t
    | None => None
    end.
Proof.
  revert a; induction s as [|c s IH]; intros a; simpl; [reflexivity|].
  destruct (hex_char_value c); [apply IH | reflexivity].
Qed.

Lemma hex_value_acc_zeros (k : nat) (s : string) :
  hex_value_acc 0 (JS.repeat_char "0" k ++ s) = hex_value_acc 0 s.
Proof. induction k as [|k IH]; simpl; [reflexivity | exact IH]. Qed.

Lemma pow16_succ (k : nat) : 16 ^ Z.of_nat (S k) = 16 * 16 ^ Z.of_nat k.
Proof. rewrite Nat2Z.inj_succ, Z.pow_succ_r by lia. reflexivity. Qed.

(** The digits produced denote the number, whenever the fuel allows for
    all of them. *)
Lemma to_hex_digits_value (fuel : nat) :
  forall n, 0 <= n < 16 ^ Z.of_nat fuel ->
  hex_value_acc 0 (JS.to_hex_digits fuel n) = Some n.
Proof.
  induction fuel as [|f IH]; intros n H.
  - simpl in *. f_equal; lia.
  - cbn [JS.to_hex_digits].
    destruct (n <? 16) eqn:L.
    + apply Z.ltb_lt in L. cbn [hex_value_acc].
      rewrite hex_char_value_hex_digit by lia. f_equal; lia.
    + apply Z.ltb_ge in L. rewrite pow16_succ in H.
      rewrite hex_value_acc_app, IH.
      * cbn [hex_value_acc].
        rewrite hex_char_value_hex_digit by (apply Z.mod_pos_bound; lia).
        f_equal. pose proof (Z.div_mod n 16). lia.
      * split; [apply Z.div_pos; lia|].
        apply Z.div_lt_upper_bound; lia.
Qed.

(** A number below [16^k] has at most [k] digits, whatever the fuel. *)
Lemma to_hex_digits_length (fuel : nat) :
  forall n k, 0 <= n < 16 ^ Z.of_nat k -> (0 < k)%nat ->
  (String.length (JS.to_hex_digits fuel n) <= k)%nat.
Proof.
  induction fuel as [|f IH]; intros n k H K; [simpl; lia|].
  cbn [JS.to_hex_digits].
  destruct (n <? 16) eqn:L; [simpl; lia|].
  apply Z.ltb_ge in L.
  destruct k as [|k]; [lia|].
  rewrite pow16_succ in H.
  assert (k <> 0%nat) by (intros ->; simpl in H; lia).
  rewrite string_length_app; simpl.
  assert (String.length (JS.to_hex_digits f (n / 16)) <= k)%nat; [|lia].
  apply IH; [|lia].
  split; [apply Z.div_pos; lia | apply Z.div_lt_upper_bound; lia].
Qed.

(** The fuel of [BigInt_toString16] covers every digit. *)
Lemma to_hex_digits_fuel (n : Z) :
  0 <= n -> n < 16 ^ Z.of_nat (S (Z.to_nat (Z.log2 n))).
Proof.
  intros H.
  destruct (Z.eq_dec n 0) as [->|NZ]; [reflexivity|].
  pose proof (Z.log2_nonneg n) as LN.
  pose proof (Z.log2_spec n ltac:(lia)) as [_ U].
  rewrite Nat2Z.inj_succ, Z2Nat.id by lia.
  eapply Z.lt_le_trans; [exact U|].
  replace 16 with (2 ^ 4) by reflexivity.
  rewrite <- Z.pow_mul_r by lia.
  apply Z.pow_le_mono_r; lia.
Qed.

Lemma BigInt_toString16_value (n : Z) :
  0 <= n -> hex_value_acc 0 (JS.BigInt_toString16 n) = Some n.
Proof.
  intros H. apply to_hex_digits_value.
  split; [exact H | now apply to_hex_digits_fuel].
Qed.

Lemma BigInt_toString16_length (n : Z) (k : nat) :
  0 <= n < 16 ^ Z.of_nat k -> (0 < k)%nat ->
  (String.length (JS.BigInt_toString16 n) <= k)%nat.
Proof. apply to_hex_digits_length. Qed.

(** A number of at least [16^k] has more than [k] digits. *)
Lemma hex_value_acc_bound (s : string) :
  forall a v, 0 <= a -> hex_value_acc a s = Some v ->
  v < (a + 1) * 16 ^ Z.of_nat (String.length s).
Proof.
  induction s as [|c s IH]; intros a v A H; simpl in H.
  - injection H as <-.
    change (16 ^ Z.of_nat (String.length "")) with 1. lia.
  - destruct (hex_char_value c) as [d|] eqn:C; [|discriminate].
    apply hex_char_value_range in C.
    assert (0 <= 16 * a + d) as A' by lia.
    specialize (IH _ _ A' H).
    cbn [String.length]. rewrite pow16_succ.
    assert (0 < 16 ^ Z.of_nat (String.length s)) by (apply Z.pow_pos_nonneg; lia).
    nia.
Qed.

Lemma BigInt_toString16_long (n : Z) (k : nat) :
  16 ^ Z.of_nat k <= n -> (k < String.length (JS.BigInt_toString16 n))%nat.
Proof.
  intros H.
  assert (0 <= n) as N.
  { assert (0 < 16 ^ Z.of_nat k) by (apply Z.pow_pos_nonneg; lia). lia. }
  pose proof (hex_value_acc_bound _ 0 n ltac:(lia) (BigInt_toString16_value n N)) as B.
  destruct (Nat.lt_ge_cases k (String.length (JS.BigInt_toString16 n))) as [|G];
    [assumption|].
  exfalso.
  assert (16 ^ Z.of_nat (String.length (JS.BigInt_toString16 n)) <= 16 ^ Z.of_nat k)
    by (apply Z.pow_le_mono_r; lia).
  lia.
Qed.

Lemma be_value_cons (a b : Z) (bs : list Z) :
  be_value a (b :: bs) = be_value (256 * a + b) bs.
Proof. reflexivity. Qed.

Lemma be_value_snoc (a b : Z) (bs : list Z) :
  be_value a (bs ++ [b]) = 256 * be_value a bs + b.
Proof. unfold be_value. now rewrite fold_left_app. Qed.

Lemma be_bytes_length (n : nat) (v : Z) : List.length (be_bytes n v) = n.
Proof.
  revert v; induction n as [|n IH]; intros v; simpl; [reflexivity|].
  rewrite length_app, IH. simpl. lia.
Qed.

(** A list of bytes is the big-endian encoding of the integer it denotes. *)
Lemma be_bytes_unique (bs : list Z) :
  Forall is_byte bs -> be_bytes (List.length bs) (be_value 0 bs) = bs.
Proof.
  induction bs as [|b bs IH] using rev_ind; intros F; [reflexivity|].
  apply Forall_app in F as [F B]. inversion B as [|? ? Hb _]; subst.
  unfold is_byte in Hb.
  rewrite length_app, Nat.add_1_r, be_value_snoc. cbn [be_bytes].
  replace ((256 * be_value 0 bs + b) / 256) with (be_value 0 bs)
    by (apply Z.div_unique with b; lia).
  replace ((256 * be_value 0 bs + b) mod 256) with b
    by (apply Z.mod_unique with (be_value 0 bs); lia).
  now rewrite IH.
Qed.

(** An even number of hex digits denotes bytes with the same value. *)
Lemma hex_pairs_value (s : string) :
  forall a v, Nat.even (String.length s) = true ->
  hex_value_acc a s = Some v ->
  exists bs, hex_pairs s = Some bs
             /\ (2 * List.length bs = String.length s)%nat
             /\ be_value a bs = v /\ Forall is_byte bs.
Proof.
  induction s as [| c | c1 c2 t IH] using string_pair_ind; intros a v Ev H.
  - injection H as <-. exists []. repeat split; constructor.
  - discriminate.
  - cbn [hex_value_acc] in H.
    destruct (hex_char_value c1) as [x|] eqn:X; [|discriminate].
    destruct (hex_char_value c2) as [y|] eqn:Y; [|discriminate].
    destruct (IH _ _ Ev H) as (bs & P & L & V & F).
    exists (16 * x + y :: bs). cbn [hex_pairs]. rewrite X, Y, P.
    apply hex_char_value_range in X, Y.
    repeat split.
    + simpl. lia.
    + rewrite be_value_cons, <- V. f_equal. lia.
    + constructor; [unfold is_byte; lia | assumption].
Qed.

Lemma hex_pairs_app (s1 : string) :
  forall s2 b1 b2, hex_pairs s1 = Some b1 -> hex_pairs s2 = Some b2 ->
  hex_pairs (s1 ++ s2) = Some (b1 ++ b2)%list.
Proof.
  induction s1 as [| c | c1 c2 t IH] using string_pair_ind;
    intros s2 b1 b2 H1 H2.
  - injection H1 as <-. exact H2.
  - discriminate.
  - cbn [hex_pairs] in H1. cbn [append hex_pairs].
    destruct (hex_char_value c1); [|discriminate].
    destruct (hex_char_value c2); [|discriminate].
    destruct (hex_pairs t) as [r|] eqn:R; [|discriminate].
    injection H1 as <-. now rewrite (IH s2 r b2 eq_refl H2).
Qed.

Lemma hex_pairs_length (s : string) :
  forall bs, hex_pairs s = Some bs ->
  (2 * List.length bs = String.length s)%nat.
Proof.
  induction s as [| c | c1 c2 t IH] using string_pair_ind; intros bs H.
  - now injection H as <-.
  - discriminate.
  - cbn [hex_pairs] in H.
    destruct (hex_char_value c1); [|discriminate].
    destruct (hex_char_value c2); [|discriminate].
    destruct (hex_pairs t) as [r|] eqn:R; [|discriminate].
    injection H as <-. specialize (IH r eq_refl). simpl. lia.
Qed.

Lemma hex_to_bytes_0x (ds : string) : hex_to_bytes ("0x" ++ ds) = hex_pairs ds.
Proof. reflexivity. Qed.

(** ** [pad(toHex(v), { size: 16 })] *)

Lemma pow16_32 : 16 ^ Z.of_nat 32 = 2 ^ 128.
Proof. reflexivity. Qed.

(** Within 128 bits: the sixteen big-endian bytes of the value. *)
Lemma pad16_in_range (v : Z) :
  0 <= v < 2 ^ 128 ->
  exists ds, pad16 v = Ok ("0x" ++ ds)
             /\ String.length ds = 32%nat
             /\ hex_pairs ds = Some (be_bytes 16 v).
Proof.
  intros [V0 V1].
  assert (String.length (JS.BigInt_toString16 v) <= 32)%nat as L
    by (apply BigInt_toString16_length; [rewrite pow16_32|]; lia).
  exists (JS.padStart 32 "0" (JS.BigInt_toString16 v)).
  assert (String.length (JS.padStart 32 "0" (JS.BigInt_toString16 v)) = 32%nat)
    as L32 by (unfold JS.padStart; rewrite string_length_app, repeat_char_length; lia).
  split; [|split; [exact L32|]].
  - unfold pad16, Viem.toHex.
    destruct (v <? 0) eqn:N; [apply Z.ltb_lt in N; lia|].
    cbn [rbind]. unfold Viem.pad. rewrite replace_0x.
    change (16 * 2)%nat with 32%nat.
    destruct (Nat.ltb_spec 32 (String.length (JS.BigInt_toString16 v)));
      [lia | reflexivity].
  - destruct (hex_pairs_value (JS.padStart 32 "0" (JS.BigInt_toString16 v)) 0 v)
      as (bs & P & Len & Val & F).
    + now rewrite L32.
    + unfold JS.padStart. rewrite hex_value_acc_zeros.
      now apply BigInt_toString16_value.
    + rewrite P. f_equal.
      rewrite <- (be_bytes_unique bs F), Val.
      f_equal. lia.
Qed.

(** Beyond 128 bits: [pad] refuses the value. *)
Lemma pad16_overflow (v : Z) :
  2 ^ 128 <= v ->
  pad16 v = Throw (Viem.SizeExceedsPaddingSizeError
                     (Nat.div (String.length (JS.BigInt_toString16 v) + 1) 2) 16).
Proof.
  intros V.
  unfold pad16, Viem.toHex.
  destruct (v <? 0) eqn:N; [apply Z.ltb_lt in N; lia|].
  cbn [rbind]. unfold Viem.pad. rewrite replace_0x.
  change (16 * 2)%nat with 32%nat.
  pose proof (BigInt_toString16_long v 32 ltac:(rewrite pow16_32; lia)).
  destruct (Nat.ltb_spec 32 (String.length (JS.BigInt_toString16 v)));
    [reflexivity | lia].
Qed.

Lemma pad16_negative (v : Z) :
  v < 0 -> pad16 v = Throw (Viem.IntegerOutOfRangeError v).
Proof.
  intros V. unfold pad16, Viem.toHex.
  destruct (v <? 0) eqn:N; [reflexivity | apply Z.ltb_ge in N; lia].
Qed.

(** [pad16] returns exactly on the values of 128 bits. *)
Lemma pad16_ok_iff (v : Z) :
  (exists h, pad16 v = Ok h) <-> 0 <= v < 2 ^ 128.
Proof.
  split.
  - intros [h H].
    destruct (Z.lt_ge_cases v 0) as [N|N];
      [rewrite pad16_negative in H by lia; discriminate|].
    destruct (Z.lt_ge_cases v (2 ^ 128)) as [U|U]; [lia|].
    rewrite pad16_overflow in H by lia; discriminate.
  - intros H. destruct (pad16_in_range v H) as (ds & P & _). eauto.
Qed.

Lemma concat_two (a b : string) :
  Viem.concat ["0x" ++ a; "0x" ++ b] = "0x" ++ a ++ b.
Proof.
  unfold Viem.concat. cbn [fold_left]. now rewrite !replace_0x.
Qed.

(** Two limbs of sixteen bytes, packed in order. *)
Lemma pack_two_limbs (x y : Z) :
  0 <= x < 2 ^ 128 -> 0 <= y < 2 ^ 128 ->
  exists h,
    (a <-? pad16 x ;; b <-? pad16 y ;; Ok (Viem.concat [a; b]))%result = Ok h
    /\ exists bs, hex_to_bytes h = Some bs
                  /\ List.length bs = 32%nat
                  /\ firstn 16 bs = be_bytes 16 x
                  /\ skipn 16 bs = be_bytes 16 y.
Proof.
  intros X Y.
  destruct (pad16_in_range x X) as (dx & Px & Lx & Bx).
  destruct (pad16_in_range y Y) as (dy & Py & Ly & By).
  exists ("0x" ++ dx ++ dy). split.
  - rewrite Px, Py. cbn [rbind]. now rewrite concat_two.
  - exists (be_bytes 16 x ++ be_bytes 16 y)%list.
    rewrite hex_to_bytes_0x, (hex_pairs_app dx dy _ _ Bx By).
    split; [reflexivity|]. split; [|split].
    + rewrite length_app, !be_bytes_length. reflexivity.
    + rewrite firstn_app, be_bytes_length, Nat.sub_diag, firstn_O, app_nil_r.
      apply firstn_all2. rewrite be_bytes_length. lia.
    + rewrite skipn_app, be_bytes_length, Nat.sub_diag, skipn_O.
      rewrite skipn_all2 by (rewrite be_bytes_length; lia). reflexivity.
Qed.

Lemma be_value_be_bytes (n : nat) :
  forall v, 0 <= v < 256 ^ Z.of_nat n -> be_value 0 (be_bytes n v) = v.
Proof.
  induction n as [|n IH]; intros v H.
  - simpl in *. unfold be_value. simpl. lia.
  - cbn [be_bytes]. rewrite be_value_snoc, IH.
    + pose proof (Z.div_mod v 256). lia.
    + rewrite Nat2Z.inj_succ, Z.pow_succ_r in H by lia.
      split; [apply Z.div_pos; lia | apply Z.div_lt_upper_bound; lia].
Qed.

Lemma strip_prefix_inv (p : string) :
  forall s r, JS.strip_prefix p s = Some r -> s = p ++ r.
Proof.
  induction p as [|c p IH]; intros s r H; simpl in H.
  - now injection H as <-.
  - destruct s as [|d s]; [discriminate|].
    destruct (Ascii.eqb_spec c d) as [<-|]; [|discriminate].
    simpl. f_equal. now apply IH.
Qed.

Lemma hex_to_bytes_inv (h : string) (bs : list Z) :
  hex_to_bytes h = Some bs ->
  exists ds, h = "0x" ++ ds /\ hex_pairs ds = Some bs.
Proof.
  unfold hex_to_bytes. intros H.
  destruct (JS.strip_prefix "0x" h) as [ds|] eqn:S; [|discriminate].
  exists ds. split; [now apply strip_prefix_inv | exact H].
Qed.

Lemma concat_four (a b c d : string) :
  Viem.concat ["0x" ++ a; "0x" ++ b; "0x" ++ c; "0x" ++ d]
  = "0x" ++ a ++ b ++ c ++ d.
Proof.
  unfold Viem.concat. cbn [fold_left]. rewrite !replace_0x.
  change ("" ++ a) with a. now rewrite !string_app_assoc.
Qed.

Lemma concat_length (values : list string) :
  forall acc,
  (String.length acc
   <= String.length
        (fold_left (fun acc x => acc ++ JS.replace "0x" "" x) values acc))%nat.
Proof.
  induction values as [|x xs IH]; intros acc; simpl; [lia|].
  specialize (IH (acc ++ JS.replace "0x" "" x)).
  rewrite string_length_app in IH. lia.
Qed.

(** ** Packing of the gas limits (claims C6 and C8) *)

(** C6. For every user operation whose [verificationGasLimit] and
    [callGasLimit] each fit in 128 bits, [packAccountGasLimits] returns a
    hex string of exactly 32 bytes: the first sixteen are the big-endian,
    zero-padded [verificationGasLimit], the last sixteen the big-endian,
    zero-padded [callGasLimit]. *)
Theorem packAccountGasLimits_layout (op : UserOperation) :
  0 <= verificationGasLimit op < 2 ^ 128 ->
  0 <= callGasLimit op < 2 ^ 128 ->
  exists h,
    packAccountGasLimits op = Ok h
    /\ exists bs,
         hex_to_bytes h = Some bs
         /\ List.length bs = 32%nat
         /\ firstn 16 bs = be_bytes 16 (verificationGasLimit op)
         /\ skipn 16 bs = be_bytes 16 (callGasLimit op)
         /\ be_value 0 (firstn 16 bs) = verificationGasLimit op
         /\ be_value 0 (skipn 16 bs) = callGasLimit op.
Proof.
  intros V C.
  destruct (pack_two_limbs _ _ V C) as (h & P & bs & B & L & F & S).
  exists h. split; [exact P|].
  exists bs. rewrite F, S.
  repeat (split; [assumption || reflexivity|]).
  split; apply be_value_be_bytes; assumption.
Qed.

Lemma packAccountGasLimits_layout_witness :
  exists h,
    packAccountGasLimits (sample_op 150000 (2 ^ 128 - 1)) = Ok h
    /\ exists bs,
         hex_to_bytes h = Some bs
         /\ List.length bs = 32%nat
         /\ firstn 16 bs = be_bytes 16 150000
         /\ skipn 16 bs = be_bytes 16 (2 ^ 128 - 1)
         /\ be_value 0 (firstn 16 bs) = 150000
         /\ be_value 0 (skipn 16 bs) = 2 ^ 128 - 1.
Proof.
  apply (packAccountGasLimits_layout (sample_op 150000 (2 ^ 128 - 1)));
    simpl; lia.
Defined.

Lemma pack_two_limbs_ok_iff (x y : Z) :
  (exists h,
     (a <-? pad16 x ;; b <-? pad16 y ;; Ok (Viem.concat [a; b]))%result = Ok h)
  <-> (0 <= x < 2 ^ 128 /\ 0 <= y < 2 ^ 128).
Proof.
  split.
  - intros [h H].
    destruct (pad16 x) as [a|e] eqn:X; [|discriminate].
    destruct (pad16 y) as [b|e] eqn:Y; [|discriminate].
    split; apply pad16_ok_iff; eauto.
  - intros [X Y]. destruct (pack_two_limbs x y X Y) as (h & H & _). eauto.
Qed.

(** With a limb of 2^128 or more the packing throws.  The first limb is
    converted first: the error is the one of [pad], unless the first limb
    is negative, which [toHex] refuses before the second is looked at. *)
Lemma pack_two_limbs_oversized (x y : Z) :
  2 ^ 128 <= x \/ 2 ^ 128 <= y ->
  exists e,
    (a <-? pad16 x ;; b <-? pad16 y ;; Ok (Viem.concat [a; b]))%result = Throw e
    /\ (0 <= x -> err_name e = "SizeExceedsPaddingSizeError")
    /\ (x < 0 -> err_name e = "IntegerOutOfRangeError").
Proof.
  intros O.
  destruct (Z.lt_ge_cases x 0) as [N|P].
  { rewrite (pad16_negative x N). cbn [rbind].
    eexists. split; [reflexivity|]. split; [lia | reflexivity]. }
  destruct (Z.lt_ge_cases x (2 ^ 128)) as [Lx|Gx].
  - destruct (pad16_in_range x ltac:(lia)) as (dx & Px & _).
    rewrite Px, pad16_overflow by lia. cbn [rbind].
    eexists. split; [reflexivity|]. split; [reflexivity | lia].
  - rewrite pad16_overflow by lia. cbn [rbind].
    eexists. split; [reflexivity|]. split; [reflexivity | lia].
Qed.

(** C8, as the code has it.  A field of 2^128 or more does not overflow
    its limb silently: the packing function throws and returns nothing.
    The error is [SizeExceedsPaddingSizeError], raised by [pad], unless the
    first field of the pair ([verificationGasLimit], respectively
    [maxPriorityFeePerGas]) is negative: then [toHex] raises
    [IntegerOutOfRangeError] before the oversized field is reached.
    [packAccountGasLimits] and [packGasLimits] return exactly when both of
    their fields lie in [0, 2^128). *)
Theorem packing_rejects_overflow (op : UserOperation) :
  ((exists h, packAccountGasLimits op = Ok h)
   <-> (0 <= verificationGasLimit op < 2 ^ 128
        /\ 0 <= callGasLimit op < 2 ^ 128))
  /\ ((exists h, packGasLimits op = Ok h)
      <-> (0 <= maxPriorityFeePerGas op < 2 ^ 128
           /\ 0 <= maxFeePerGas op < 2 ^ 128))
  /\ (2 ^ 128 <= verificationGasLimit op \/ 2 ^ 128 <= callGasLimit op ->
      exists e,
        packAccountGasLimits op = Throw e
        /\ (0 <= verificationGasLimit op ->
            err_name e = "SizeExceedsPaddingSizeError")
        /\ (verificationGasLimit op < 0 ->
            err_name e = "IntegerOutOfRangeError"))
  /\ (2 ^ 128 <= maxPriorityFeePerGas op \/ 2 ^ 128 <= maxFeePerGas op ->
      exists e,
        packGasLimits op = Throw e
        /\ (0 <= maxPriorityFeePerGas op ->
            err_name e = "SizeExceedsPaddingSizeError")
        /\ (maxPriorityFeePerGas op < 0 ->
            err_name e = "IntegerOutOfRangeError")).
Proof.
  split; [apply pack_two_limbs_ok_iff|].
  split; [apply pack_two_limbs_ok_iff|].
  split; apply pack_two_limbs_oversized.
Qed.

Lemma packing_rejects_overflow_witness :
  (exists e,
     packGasLimits (sample_fee_op 1 (2 ^ 200)) = Throw e
     /\ (0 <= 1 -> err_name e = "SizeExceedsPaddingSizeError")
     /\ (1 < 0 -> err_name e = "IntegerOutOfRangeError"))
  /\ (exists e,
        packGasLimits (sample_fee_op (-1) (2 ^ 128)) = Throw e
        /\ (0 <= -1 -> err_name e = "SizeExceedsPaddingSizeError")
        /\ (-1 < 0 -> err_name e = "IntegerOutOfRangeError")).
Proof.
  split.
  - apply (proj2 (proj2 (proj2 (packing_rejects_overflow
                                  (sample_fee_op 1 (2 ^ 200)))))).
    right. simpl. lia.
  - apply (proj2 (proj2 (proj2 (packing_rejects_overflow
                                  (sample_fee_op (-1) (2 ^ 128)))))).
    right. simpl. lia.
Defined.

(** The two errors at work: an oversized fee after a fee of 1, and after
    a fee of -1. *)
Example packGasLimits_errors :
  packGasLimits (sample_fee_op 1 (2 ^ 128))
  = Throw (Viem.SizeExceedsPaddingSizeError 17 16)
  /\ packGasLimits (sample_fee_op (-1) (2 ^ 128))
     = Throw (Viem.IntegerOutOfRangeError (-1)).
Proof. split; vm_compute; reflexivity. Qed.

(** C8 as stated fails: at [verificationGasLimit = 2^128] (and at
    [maxFeePerGas = 2^128]) the packing function raises an error instead
    of returning an overflowed result. *)
Lemma packing_overflow_raises :
  packAccountGasLimits (sample_op (2 ^ 128) 0)
  = Throw (Viem.SizeExceedsPaddingSizeError 17 16)
  /\ packGasLimits
       (mkUserOperation "0x0000000000001d8a2e7bf6bc369525a2654aa298" 7 "0x"
          150000 150000 21000 (2 ^ 128) 1 None None None None None None)
     = Throw (Viem.SizeExceedsPaddingSizeError 17 16).
Proof. split; vm_compute; reflexivity. Qed.

(** ** Packing of the paymaster fields (claim C7) *)

Lemma or_zero_default (o : option Z) :
  JS.or_zero o = match o with Some v => v | None => 0 end.
Proof.
  destruct o as [v|]; [|reflexivity]. simpl.
  destruct (Z.eqb_spec v 0); congruence.
Qed.

Lemma pad16_ok_shape (v : Z) (h : string) :
  pad16 v = Ok h ->
  exists ds, h = "0x" ++ ds /\ String.length ds = 32%nat
             /\ hex_pairs ds = Some (be_bytes 16 v).
Proof.
  intros H.
  assert (0 <= v < 2 ^ 128) as R by (apply pad16_ok_iff; eauto).
  destruct (pad16_in_range v R) as (ds & P & L & B).
  exists ds. rewrite P in H. injection H as <-. auto.
Qed.

(** With a paymaster the packed value holds the two limbs at least. *)
Lemma concat_paymaster_not_empty (pm a b d : string) :
  (32 <= String.length (JS.replace "0x" "" a))%nat ->
  Viem.concat [pm; a; b; d] <> "0x".
Proof.
  intros L E. unfold Viem.concat in E. cbn [fold_left] in E.
  apply (f_equal String.length) in E.
  rewrite string_length_app, !string_length_app in E. simpl in E. lia.
Qed.

(** C7, as the code has it.  [packPaymasterAndData] returns the empty hex
    string if and only if no paymaster is set.  Otherwise, when both
    paymaster gas limits, a missing one counting as zero, lie in
    [0, 2^128), it returns the paymaster, then the sixteen big-endian bytes
    of [paymasterVerificationGasLimit], then those of
    [paymasterPostOpGasLimit], then [paymasterData], missing data counting
    as no bytes; when a limit lies outside that range it throws and
    returns nothing. *)
Theorem packPaymasterAndData_layout (op : UserOperation) :
  (packPaymasterAndData op = Ok "0x"
   <-> (paymaster op = None \/ paymaster op = Some ""))
  /\ (forall pm bp bd,
        paymaster op = Some pm ->
        hex_to_bytes pm = Some bp ->
        match paymasterData op with
        | Some d => hex_to_bytes d = Some bd
        | None => bd = []
        end ->
        let verGas :=
          match paymasterVerificationGasLimit op with Some v => v | None => 0 end in
        let postOpGas :=
          match paymasterPostOpGasLimit op with Some v => v | None => 0 end in
        0 <= verGas < 2 ^ 128 ->
        0 <= postOpGas < 2 ^ 128 ->
        exists h,
          packPaymasterAndData op = Ok h
          /\ hex_to_bytes h
             = Some (bp ++ be_bytes 16 verGas ++ be_bytes 16 postOpGas ++ bd)%list)
  /\ (forall pm,
        paymaster op = Some pm -> pm <> "" ->
        let verGas :=
          match paymasterVerificationGasLimit op with Some v => v | None => 0 end in
        let postOpGas :=
          match paymasterPostOpGasLimit op with Some v => v | None => 0 end in
        0 <= verGas < 2 ^ 128 ->
        0 <= postOpGas < 2 ^ 128 ->
        exists da db,
          packPaymasterAndData op
          = Ok ("0x" ++ JS.replace "0x" "" pm ++ da ++ db
                  ++ JS.replace "0x" "" (JS.or_string (paymasterData op) "0x"))
          /\ hex_pairs da = Some (be_bytes 16 verGas)
          /\ hex_pairs db = Some (be_bytes 16 postOpGas))
  /\ (forall pm,
        paymaster op = Some pm -> pm <> "" ->
        let verGas :=
          match paymasterVerificationGasLimit op with Some v => v | None => 0 end in
        let postOpGas :=
          match paymasterPostOpGasLimit op with Some v => v | None => 0 end in
        ~ (0 <= verGas < 2 ^ 128 /\ 0 <= postOpGas < 2 ^ 128) ->
        exists e, packPaymasterAndData op = Throw e).
Proof.
  split; [|split; [|split]].
  - unfold packPaymasterAndData. split.
    + destruct (paymaster op) as [[|c t]|] eqn:P; auto.
      cbn [JS.truthy_string]. intros H. exfalso.
      destruct (pad16 (JS.or_zero (paymasterVerificationGasLimit op)))
        as [a|] eqn:A; [|discriminate].
      destruct (pad16 (JS.or_zero (paymasterPostOpGasLimit op)))
        as [b|] eqn:B; [|discriminate].
      cbn [rbind] in H.
      apply pad16_ok_shape in A as (da & -> & La & _).
      apply (concat_paymaster_not_empty
               (JS.or_string (Some (String c t)) "") ("0x" ++ da) b
               (JS.or_string (paymasterData op) "0x"));
        [rewrite replace_0x; lia | congruence].
    + intros [-> | ->]; reflexivity.
  - intros pm bp bd P Bp Bd verGas postOpGas V G.
    apply hex_to_bytes_inv in Bp as (dp & -> & Bp).
    destruct (pad16_in_range verGas V) as (da & Pa & _ & Ba).
    destruct (pad16_in_range postOpGas G) as (db & Pb & _ & Bb).
    assert (exists dd, JS.or_string (paymasterData op) "0x" = "0x" ++ dd
                       /\ hex_pairs dd = Some bd) as (dd & Ed & Bdd).
    { destruct (paymasterData op) as [d|].
      - apply hex_to_bytes_inv in Bd as (dd & -> & Bd). exists dd. auto.
      - subst bd. exists "". auto. }
    exists ("0x" ++ dp ++ da ++ db ++ dd). split.
    + unfold packPaymasterAndData. rewrite P. cbn [JS.truthy_string append].
      rewrite !or_zero_default. fold verGas postOpGas.
      rewrite Pa, Pb. cbn [rbind]. rewrite Ed.
      change (JS.or_string (Some (String "0" (String "x" dp))) "")
        with ("0x" ++ dp).
      now rewrite concat_four.
    + rewrite hex_to_bytes_0x.
      rewrite (hex_pairs_app dp _ bp _ Bp
                 (hex_pairs_app da _ _ _ Ba (hex_pairs_app db dd _ _ Bb Bdd))).
      reflexivity.
  - intros pm P N verGas postOpGas V G.
    destruct (pad16_in_range verGas V) as (da & Pa & _ & Ba).
    destruct (pad16_in_range postOpGas G) as (db & Pb & _ & Bb).
    exists da, db. split; [|split; assumption].
    unfold packPaymasterAndData. rewrite P.
    destruct pm as [|c t]; [contradiction|]. cbn [JS.truthy_string].
    rewrite !or_zero_default. fold verGas postOpGas.
    rewrite Pa, Pb. cbn [rbind]. f_equal.
    unfold Viem.concat. cbn [fold_left JS.or_string]. rewrite !replace_0x.
    change ("" ++ JS.replace "0x" "" (String c t))
      with (JS.replace "0x" "" (String c t)).
    now rewrite !string_app_assoc.
  - intros pm P N verGas postOpGas R.
    unfold packPaymasterAndData. rewrite P.
    destruct pm as [|c t]; [contradiction|]. cbn [JS.truthy_string].
    rewrite !or_zero_default. fold verGas postOpGas.
    destruct (pad16 verGas) as [a|e] eqn:A; [|cbn [rbind]; eauto].
    destruct (pad16 postOpGas) as [b|e] eqn:B; [|cbn [rbind]; eauto].
    exfalso. apply R. split; apply pad16_ok_iff; eauto.
Qed.

Lemma packPaymasterAndData_layout_witness :
  exists h,
    packPaymasterAndData sample_paymaster_op = Ok h
    /\ hex_to_bytes h
       = Some ([0; 0; 0; 0; 0; 0; 50; 205; 79; 174; 137; 15; 144; 230; 30; 104;
                100; 228; 74; 167]
               ++ be_bytes 16 50000 ++ be_bytes 16 0 ++ [192; 255; 238])%list.
Proof.
  apply (proj1 (proj2 (packPaymasterAndData_layout sample_paymaster_op))
           "0x00000000000032CD4FAE890F90e61e6864e44aa7");
    try reflexivity; simpl; lia.
Defined.

(** C7 as stated fails: with a paymaster set and a
    [paymasterPostOpGasLimit] of 2^128 nothing is returned; [pad] throws. *)
Lemma packPaymasterAndData_overflow_raises :
  paymaster sample_paymaster_overflow_op
  = Some "0x00000000000032CD4FAE890F90e61e6864e44aa7"
  /\ paymasterPostOpGasLimit sample_paymaster_overflow_op = Some (2 ^ 128)
  /\ packPaymasterAndData sample_paymaster_overflow_op
     = Throw (Viem.SizeExceedsPaddingSizeError 17 16).
Proof. repeat split; vm_compute; reflexivity. Qed.

(** ** Running computations *)

Lemma trace_log (e : Event) (w : World) : trace (log e w) = (trace w ++ [e])%list.
Proof. reflexivity. Qed.

Lemma signatures_log (e : Event) (w : World) :
  signatures (log e w) = signatures w.
Proof. reflexivity. Qed.

Lemma now_log (e : Event) (w : World) :
  List.length (trace (log e w)) = S (List.length (trace w)).
Proof. rewrite trace_log, length_app. simpl. lia. Qed.

Lemma log_neq (e : Event) (w : World) : log e w <> w.
Proof.
  intros H. apply (f_equal (fun x => List.length (trace x))) in H.
  rewrite now_log in H. lia.
Qed.

(** ** [JSON.parse] on sample texts *)

Example parse_decision :
  JSON_.parse body_approve
  = Some (JObject
            [(JSValue.units "vote", JBool true);
             (JSValue.units "reason",
              JString (JSValue.units "Within the treasury policy"))]).
Proof. reflexivity. Qed.

Example parse_scalars :
  JSON_.parse " null " = Some JNull
  /\ JSON_.parse "-0.50e+2" = Some (JNumber true 50 0)
  /\ JSON_.parse "[1, [], {}]"
     = Some (JArray [JNumber false 1 0; JArray []; JObject []]).
Proof. repeat split. Qed.

Example parse_rejects :
  JSON_.parse body_prose = None
  /\ JSON_.parse "" = None
  /\ JSON_.parse "01" = None
  /\ JSON_.parse "1." = None
  /\ JSON_.parse "[1,]" = None
  /\ JSON_.parse "{vote:true}" = None
  /\ JSON_.parse "nul" = None
  /\ JSON_.parse "true false" = None.
Proof. repeat split. Qed.

Example truthiness :
  JSValue.ToBoolean (JString (JSValue.units "false")) = true
  /\ JSValue.ToBoolean (JNumber false 0 (-3)) = false
  /\ JSValue.ToBoolean (JNumber false 1 (-400)) = false
  /\ JSValue.ToBoolean (JNumber false 5 (-324)) = true
  /\ JSValue.ToBoolean (JArray []) = true
  /\ JSValue.truthy None = false.
Proof. repeat split; vm_compute; reflexivity. Qed.

(** ** The evaluator (claims C3 and C5) *)

Section Evaluator.

Variable E : Env.
Variable proposal : Proposal.

Let content (instruction : string) : string :=
  system_content instruction (p_content proposal).

Lemma makeRequest_run (instruction : string) (w : World) :
  makeRequest E proposal instruction w
  = (match fetch_reply E (List.length (trace w)) (content instruction) with
     | Ok text => Ok (parse_or_null text)
     | Throw e => Throw e
     end,
     log (EvFetch (content instruction)) w).
Proof.
  unfold makeRequest, bind, call, ret, content.
  destruct (fetch_reply E _ _); reflexivity.
Qed.

Lemma attempt_run (instruction : string) (rest : M JSON) (w : World) :
  attempt E proposal instruction rest w
  = match fetch_reply E (List.length (trace w)) (content instruction) with
    | Ok text =>
        if JSValue.ToBoolean (parse_or_null text)
        then (Ok (parse_or_null text), log (EvFetch (content instruction)) w)
        else rest (log (EvFetch (content instruction)) w)
    | Throw e => (Throw e, log (EvFetch (content instruction)) w)
    end.
Proof.
  unfold attempt, bind. rewrite makeRequest_run.
  destruct (fetch_reply E _ _); [|reflexivity].
  destruct (JSValue.ToBoolean _); reflexivity.
Qed.

Lemma getNaniVote_attempts :
  getNaniVote E proposal
  = attempt E proposal ""
      (attempt E proposal second_instruction
         (attempt E proposal final_instruction (throw format_error))).
Proof. reflexivity. Qed.

(** A body passes the test [if (result)] exactly when it parses and the
    parsed value is truthy. *)
Lemma truthy_parse_iff (text : string) :
  JSValue.ToBoolean (parse_or_null text) = true
  <-> exists v, JSON_.parse text = Some v /\ JSValue.ToBoolean v = true.
Proof.
  unfold parse_or_null. destruct (JSON_.parse text) as [v|].
  - split; [eauto | intros (v' & [= <-] & H); exact H].
  - split; [discriminate | intros (v' & [=] & _)].
Qed.

Lemma unparsable_is_falsy (text : string) :
  JSON_.parse text = None -> JSValue.ToBoolean (parse_or_null text) = false.
Proof. unfold parse_or_null. now intros ->. Qed.

(** The requests of one call: one, two or three, in this order. *)
Lemma getNaniVote_requests (w : World) :
  let first := EvFetch (content "") in
  let second := EvFetch (content second_instruction) in
  let third := EvFetch (content final_instruction) in
  exists evs,
    trace (snd (getNaniVote E proposal w)) = (trace w ++ evs)%list
    /\ signatures (snd (getNaniVote E proposal w)) = signatures w
    /\ (evs = [first] \/ evs = [first; second]
        \/ evs = [first; second; third]).
Proof.
  intros first second third.
  rewrite getNaniVote_attempts.
  assert (forall r evs,
            trace (snd r) = (trace w ++ evs)%list ->
            signatures (snd r) = signatures w ->
            (evs = [first] \/ evs = [first; second]
             \/ evs = [first; second; third]) ->
            exists evs,
              trace (snd (r : Result JSON * World)) = (trace w ++ evs)%list
              /\ signatures (snd r) = signatures w
              /\ (evs = [first] \/ evs = [first; second]
                  \/ evs = [first; second; third])) as done
    by (intros r evs; exists evs; auto).
  rewrite attempt_run.
  destruct (fetch_reply E _ (content "")) as [t1|e1];
    [destruct (JSValue.ToBoolean (parse_or_null t1))|];
    try solve [apply (done _ [first]); auto].
  rewrite attempt_run.
  destruct (fetch_reply E _ (content second_instruction)) as [t2|e2];
    [destruct (JSValue.ToBoolean (parse_or_null t2))|];
    try solve [apply (done _ [first; second]); cbn [snd];
               rewrite ?trace_log, <- ?app_assoc; auto].
  rewrite attempt_run.
  destruct (fetch_reply E _ (content final_instruction)) as [t3|e3];
    [destruct (JSValue.ToBoolean (parse_or_null t3))|];
    (apply (done _ [first; second; third]); cbn [snd throw];
     rewrite ?trace_log, <- ?app_assoc; auto).
Qed.

(** C3, as the code has it.  [getNaniVote] makes at most three oracle
    requests, the first with no added instruction, the second and third
    with the two strengthened instructions, in this order.  If the first
    body parses as JSON to a truthy value, that value is returned unchanged
    after one request.  After three bodies each of which is unparsable or
    parses to a falsy value ([null], [false], [0], the empty string), it
    raises the format error without a fourth request. *)
Theorem getNaniVote_protocol (w : World) :
  let now := List.length (trace w) in
  let first := EvFetch (content "") in
  let second := EvFetch (content second_instruction) in
  let third := EvFetch (content final_instruction) in
  (exists evs,
      trace (snd (getNaniVote E proposal w)) = (trace w ++ evs)%list
      /\ signatures (snd (getNaniVote E proposal w)) = signatures w
      /\ (evs = [first] \/ evs = [first; second]
          \/ evs = [first; second; third]))
  /\ (forall text v,
        fetch_reply E now (content "") = Ok text ->
        JSON_.parse text = Some v ->
        JSValue.ToBoolean v = true ->
        getNaniVote E proposal w = (Ok v, log first w))
  /\ (forall t1 t2 t3,
        fetch_reply E now (content "") = Ok t1 ->
        fetch_reply E (now + 1) (content second_instruction) = Ok t2 ->
        fetch_reply E (now + 2) (content final_instruction) = Ok t3 ->
        JSValue.ToBoolean (parse_or_null t1) = false ->
        JSValue.ToBoolean (parse_or_null t2) = false ->
        JSValue.ToBoolean (parse_or_null t3) = false ->
        getNaniVote E proposal w
        = (Throw format_error, log third (log second (log first w)))).
Proof.
  intros now first second third.
  split; [apply getNaniVote_requests|].
  rewrite getNaniVote_attempts. split.
  - intros text v R P T.
    rewrite attempt_run. fold now. rewrite R.
    unfold parse_or_null. rewrite P, T. reflexivity.
  - intros t1 t2 t3 R1 R2 R3 F1 F2 F3.
    rewrite attempt_run. fold now. rewrite R1, F1.
    rewrite attempt_run, now_log. fold now.
    replace (S now) with (now + 1)%nat by lia. rewrite R2, F2.
    rewrite attempt_run, !now_log. fold now.
    replace (S (S now)) with (now + 2)%nat by lia. rewrite R3, F3.
    reflexivity.
Qed.

(** C5, as the code has it.  An attempt is final, returning the parsed
    value with no further request, exactly when the body parses as JSON to
    a truthy value; otherwise the evaluator goes on to what follows the
    attempt.  Nothing else of the parsed value is inspected. *)
Theorem attempt_succeeds_iff_truthy
  (instruction : string) (rest : M JSON) (w : World) (text : string) :
  fetch_reply E (List.length (trace w)) (content instruction) = Ok text ->
  ((exists v, JSON_.parse text = Some v /\ JSValue.ToBoolean v = true
              /\ attempt E proposal instruction rest w
                 = (Ok v, log (EvFetch (content instruction)) w))
   \/ ((JSON_.parse text = None
        \/ exists v, JSON_.parse text = Some v /\ JSValue.ToBoolean v = false)
       /\ attempt E proposal instruction rest w
          = rest (log (EvFetch (content instruction)) w)))
  /\ getNaniVote E proposal
     = attempt E proposal ""
         (attempt E proposal second_instruction
            (attempt E proposal final_instruction (throw format_error))).
Proof.
  intros R. split; [|reflexivity].
  rewrite attempt_run, R. unfold parse_or_null.
  destruct (JSON_.parse text) as [v|].
  - destruct (JSValue.ToBoolean v) eqn:T; [left | right]; eauto 6.
  - right. auto.
Qed.

End Evaluator.

Lemma getNaniVote_protocol_witness :
  getNaniVote env_approving proposal_1 empty_world
  = (Ok (parse_or_null body_approve), log (fetch_of "" proposal_1) empty_world)
  /\ getNaniVote env_prose proposal_1 empty_world
     = (Throw format_error,
        log (fetch_of final_instruction proposal_1)
          (log (fetch_of second_instruction proposal_1)
             (log (fetch_of "" proposal_1) empty_world))).
Proof.
  split.
  - apply (proj1 (proj2 (getNaniVote_protocol env_approving proposal_1
                           empty_world)) body_approve);
      vm_compute; reflexivity.
  - apply (proj2 (proj2 (getNaniVote_protocol env_prose proposal_1
                           empty_world)) body_prose body_prose body_prose);
      vm_compute; reflexivity.
Defined.

(** C3 as stated fails: the first body, [null], parses as JSON, yet its
    value is not returned and a second request is made. *)
Lemma getNaniVote_parsed_null_not_returned :
  JSON_.parse "null" = Some JNull
  /\ getNaniVote env_null_first proposal_1 empty_world
     = (Ok (parse_or_null body_approve),
        log (fetch_of second_instruction proposal_1)
          (log (fetch_of "" proposal_1) empty_world)).
Proof. split; vm_compute; reflexivity. Qed.

Lemma attempt_succeeds_iff_truthy_witness :
  ((exists v, JSON_.parse body_approve = Some v /\ JSValue.ToBoolean v = true
              /\ attempt env_approving proposal_1 "" (throw format_error)
                   empty_world
                 = (Ok v, log (fetch_of "" proposal_1) empty_world))
   \/ ((JSON_.parse body_approve = None
        \/ exists v, JSON_.parse body_approve = Some v
                     /\ JSValue.ToBoolean v = false)
       /\ attempt env_approving proposal_1 "" (throw format_error) empty_world
          = throw format_error (log (fetch_of "" proposal_1) empty_world)))
  /\ getNaniVote env_approving proposal_1
     = attempt env_approving proposal_1 ""
         (attempt env_approving proposal_1 second_instruction
            (attempt env_approving proposal_1 final_instruction
               (throw format_error))).
Proof.
  apply (attempt_succeeds_iff_truthy env_approving proposal_1 ""
           (throw format_error) empty_world body_approve).
  reflexivity.
Defined.

(** C5 as stated fails: the bodies [0], [false] and the empty JSON string
    all parse as JSON, yet none of the three attempts is accepted and the
    format error is raised. *)
Lemma parsed_falsy_bodies_not_accepted :
  JSON_.parse "0" = Some (JNumber false 0 0)
  /\ JSON_.parse "false" = Some (JBool false)
  /\ JSON_.parse (quoted "") = Some (JString [])
  /\ getNaniVote env_falsy proposal_1 empty_world
     = (Throw format_error,
        log (fetch_of final_instruction proposal_1)
          (log (fetch_of second_instruction proposal_1)
             (log (fetch_of "" proposal_1) empty_world))).
Proof. repeat split; vm_compute; reflexivity. Qed.

(** ** The proposal source (claim C9) *)

Section ProposalSource.

Variable E : Env.

Lemma getRecentProposals_loop_step (retries i todo : nat) (w : World) :
  getRecentProposals_loop E retries i (S todo) w
  = match select_reply E (List.length (trace w)) with
    | Ok rows => (Ok (Some rows), log EvSelect w)
    | Throw e =>
        if Nat.eqb i (retries - 1) then (Throw e, log EvSelect w)
        else getRecentProposals_loop E retries (S i) todo
               (log (EvSleep (1000 * (Z.of_nat i + 1))) (log EvSelect w))
    end.
Proof.
  cbn [getRecentProposals_loop].
  unfold try_catch, bind, query_proposals, call, ret, sleep, throw.
  destruct (select_reply E _); [reflexivity|].
  destruct (Nat.eqb i (retries - 1)); reflexivity.
Qed.

(** With at least one iteration to run, the loop returns rows or throws:
    it never falls through to [undefined]. *)
Lemma getRecentProposals_loop_defined (retries : nat) :
  forall todo i w, (i + todo = retries)%nat -> (0 < todo)%nat ->
  fst (getRecentProposals_loop E retries i todo w) <> Ok None.
Proof.
  induction todo as [|todo IH]; intros i w S P; [lia|].
  rewrite getRecentProposals_loop_step.
  destruct (select_reply E _); [discriminate|].
  destruct (Nat.eqb_spec i (retries - 1)) as [|N]; [discriminate|].
  apply IH; lia.
Qed.

(** The worlds after the first, second and third query of a run. *)
Let after1 (w : World) : World := log EvSelect w.
Let after2 (w : World) : World :=
  log EvSelect (log (EvSleep 1000) (after1 w)).
Let after3 (w : World) : World :=
  log EvSelect (log (EvSleep 2000) (after2 w)).

Lemma getRecentProposals_run (w : World) :
  let now := List.length (trace w) in
  getRecentProposals E 3 w
  = match select_reply E now with
    | Ok rows => (Ok (Some rows), after1 w)
    | Throw _ =>
        match select_reply E (now + 2) with
        | Ok rows => (Ok (Some rows), after2 w)
        | Throw _ =>
            match select_reply E (now + 4) with
            | Ok rows => (Ok (Some rows), after3 w)
            | Throw e => (Throw e, after3 w)
            end
        end
    end.
Proof.
  intros now. unfold getRecentProposals.
  rewrite getRecentProposals_loop_step. fold now.
  destruct (select_reply E now); [reflexivity|]. cbn [Nat.eqb Nat.sub].
  rewrite getRecentProposals_loop_step, !now_log. fold now.
  replace (S (S now)) with (now + 2)%nat by lia.
  destruct (select_reply E (now + 2)); [reflexivity|]. cbn [Nat.eqb Nat.sub].
  rewrite getRecentProposals_loop_step, !now_log. fold now.
  replace (S (S (S (S now)))) with (now + 4)%nat by lia.
  destruct (select_reply E (now + 4)); reflexivity.
Qed.

(** C9, as the code has it.  [getRecentProposals] queries at most three
    times (two retries), sleeping 1000 ms after the first failure and
    2000 ms after the second.  When the third query fails too, its error
    is thrown at once, with no further delay; the handler then answers
    500 with that error's message and nothing else is done: no account is
    fetched, no proposal is evaluated and no row is written. *)
Theorem getRecentProposals_backoff (w : World) :
  let now := List.length (trace w) in
  (exists evs,
      trace (snd (getRecentProposals E 3 w)) = (trace w ++ evs)%list
      /\ (evs = [EvSelect]
          \/ evs = [EvSelect; EvSleep 1000; EvSelect]
          \/ evs = [EvSelect; EvSleep 1000; EvSelect; EvSleep 2000; EvSelect]))
  /\ (forall e1 e2 e3,
        select_reply E now = Throw e1 ->
        select_reply E (now + 2) = Throw e2 ->
        select_reply E (now + 4) = Throw e3 ->
        getRecentProposals E 3 w = (Throw e3, after3 w)
        /\ vote E w = (Ok (Status500 (err_message e3)), after3 w)
        /\ trace (after3 w)
           = (trace w ++ [EvSelect; EvSleep 1000; EvSelect; EvSleep 2000;
                          EvSelect])%list
        /\ signatures (after3 w) = signatures w).
Proof.
  intros now. split.
  - rewrite getRecentProposals_run. fold now.
    destruct (select_reply E now).
    { exists [EvSelect]. auto. }
    destruct (select_reply E (now + 2)).
    { exists [EvSelect; EvSleep 1000; EvSelect]. cbn [snd].
      unfold after2, after1. rewrite !trace_log, <- !app_assoc. auto. }
    exists [EvSelect; EvSleep 1000; EvSelect; EvSleep 2000; EvSelect].
    destruct (select_reply E (now + 4)); cbn [snd];
      unfold after3, after2, after1; rewrite !trace_log, <- !app_assoc; auto.
  - intros e1 e2 e3 R1 R2 R3.
    assert (getRecentProposals E 3 w = (Throw e3, after3 w)) as Run
      by (rewrite getRecentProposals_run; fold now; now rewrite R1, R2, R3).
    split; [exact Run|]. split; [|split].
    + unfold vote, try_catch, bind. now rewrite Run.
    + unfold after3, after2, after1. now rewrite !trace_log, <- !app_assoc.
    + reflexivity.
Qed.

End ProposalSource.

Lemma getRecentProposals_backoff_witness :
  getRecentProposals env_db_down 3 empty_world
  = (Throw connection_refused,
     mkWorld [] [EvSelect; EvSleep 1000; EvSelect; EvSleep 2000; EvSelect])
  /\ vote env_db_down empty_world
     = (Ok (Status500 "connect ECONNREFUSED"),
        mkWorld [] [EvSelect; EvSleep 1000; EvSelect; EvSleep 2000; EvSelect])
  /\ trace (mkWorld [] [EvSelect; EvSleep 1000; EvSelect; EvSleep 2000;
                        EvSelect])
     = ([] ++ [EvSelect; EvSleep 1000; EvSelect; EvSleep 2000; EvSelect])%list
  /\ signatures (mkWorld [] [EvSelect; EvSleep 1000; EvSelect; EvSleep 2000;
                             EvSelect]) = [].
Proof.
  apply (proj2 (getRecentProposals_backoff env_db_down empty_world)
           connection_refused connection_refused connection_refused);
    reflexivity.
Defined.

(** C9 as stated fails: with every query failing there are three queries
    and two delays, of 1000 ms and 2000 ms; no delay of 3000 ms occurs and
    the third failure is thrown at once. *)
Lemma getRecentProposals_no_third_delay :
  getRecentProposals env_db_down 3 empty_world
  = (Throw connection_refused,
     mkWorld [] [EvSelect; EvSleep 1000; EvSelect; EvSleep 2000; EvSelect])
  /\ ~ In (EvSleep 3000)
        (trace (snd (getRecentProposals env_db_down 3 empty_world))).
Proof.
  split; [reflexivity|].
  vm_compute. intros H.
  repeat (destruct H as [H|H]; [discriminate H|]). exact H.
Qed.

(** ** The outcome store (claim C2) *)

Section Store.

Variable E : Env.

Lemma addSignature_run (sig : Sig) (w : World) :
  addSignature E sig w = query_insert E (row_of sig) w.
Proof.
  unfold addSignature, try_catch, throw.
  destruct (query_insert E (row_of sig) w) as [[row|e] w']; reflexivity.
Qed.

(** An insert either appends its row or throws and changes nothing. *)
Lemma addSignature_effect (sig : Sig) (w : World) :
  trace (snd (addSignature E sig w))
  = (trace w ++ [EvInsert (row_of sig)])%list
  /\ ((fst (addSignature E sig w) = Ok (row_of sig)
       /\ signatures (snd (addSignature E sig w))
          = (signatures w ++ [row_of sig])%list)
      \/ ((exists e, fst (addSignature E sig w) = Throw e)
          /\ signatures (snd (addSignature E sig w)) = signatures w)).
Proof.
  rewrite addSignature_run. unfold query_insert.
  destruct (insert_fault E _) as [e|];
    [split; [reflexivity | right; simpl; eauto]|].
  match goal with |- context [if ?b then _ else _] => destruct b end;
    (split; [reflexivity|]); [right | left]; simpl; eauto.
Qed.

Lemma same_key_row_key (a b : SigRow) :
  same_key a b = true <-> row_key a = row_key b.
Proof.
  unfold same_key, row_key. rewrite andb_true_iff, !String.eqb_eq.
  split; [intros [-> ->]; reflexivity | intros [= -> ->]; auto].
Qed.

Lemma fresh_key_not_in (row : SigRow) (rows : list SigRow) :
  existsb (same_key row) rows = false -> ~ In (row_key row) (map row_key rows).
Proof.
  intros F I. apply in_map_iff in I as (r & K & I).
  assert (existsb (same_key row) rows = true) as T; [|congruence].
  apply existsb_exists. exists r. split; [exact I|].
  now apply same_key_row_key.
Qed.

Lemma keys_unique_snoc (row : SigRow) (rows : list SigRow) :
  keys_unique rows -> ~ In (row_key row) (map row_key rows) ->
  keys_unique (rows ++ [row]).
Proof.
  unfold keys_unique. intros U F. rewrite map_app. simpl.
  apply NoDup_app; [exact U | repeat constructor; auto | ].
  intros k I [<-|[]]. contradiction.
Qed.

(** C2, as the code has it.  [addSignature] issues one unconditional
    insert.  If the table accepts it (no uniqueness declared, or the pair
    is new) the row is appended and returned, whether or not the pair was
    recorded before.  If the table declares (signer, hash) unique, an
    invocation for a recorded pair throws the table's error and leaves the
    store as it was, and at most one row per pair is kept. *)
Theorem addSignature_insert (sig : Sig) (w : World) :
  (insert_fault E (List.length (trace w)) = None ->
   unique_signer_hash E = false
   \/ existsb (same_key (row_of sig)) (signatures w) = false ->
   addSignature E sig w
   = (Ok (row_of sig),
      log (EvInsert (row_of sig))
        (mkWorld (signatures w ++ [row_of sig]) (trace w))))
  /\ (unique_signer_hash E = true ->
      existsb (same_key (row_of sig)) (signatures w) = true ->
      (exists e, fst (addSignature E sig w) = Throw e)
      /\ snd (addSignature E sig w) = log (EvInsert (row_of sig)) w)
  /\ (unique_signer_hash E = true ->
      keys_unique (signatures w) ->
      keys_unique (signatures (snd (addSignature E sig w)))).
Proof.
  rewrite !addSignature_run. unfold query_insert.
  split; [|split].
  - intros -> [-> | ->]; [reflexivity|]. now rewrite andb_false_r.
  - intros -> ->. destruct (insert_fault E _); simpl; eauto.
  - intros -> U. destruct (insert_fault E _); [exact U|]. simpl.
    destruct (existsb (same_key (row_of sig)) (signatures w)) eqn:X;
      [exact U|]. simpl.
    apply keys_unique_snoc; [exact U | now apply fresh_key_not_in].
Qed.

End Store.

Lemma addSignature_insert_witness :
  addSignature (env_plain false) sample_sig
    (snd (addSignature (env_plain false) sample_sig empty_world))
  = (Ok (row_of sample_sig),
     mkWorld [row_of sample_sig; row_of sample_sig]
       [EvInsert (row_of sample_sig); EvInsert (row_of sample_sig)]).
Proof.
  apply (proj1 (addSignature_insert (env_plain false) sample_sig
                  (snd (addSignature (env_plain false) sample_sig
                          empty_world))));
    [reflexivity | left; reflexivity].
Defined.

(** C2 as stated fails: a second invocation for a recorded pair is not a
    no-op.  Without a uniqueness constraint it stores a second row for the
    pair; with one it throws. *)
Lemma addSignature_twice_not_noop :
  signatures
    (snd (addSignature (env_plain false) sample_sig
            (snd (addSignature (env_plain false) sample_sig empty_world))))
  = [row_of sample_sig; row_of sample_sig]
  /\ fst (addSignature (env_plain true) sample_sig
            (snd (addSignature (env_plain true) sample_sig empty_world)))
     = Throw unique_violation.
Proof. split; reflexivity. Qed.

(** ** The domain override (claim C1) *)

Lemma getValidator_remote :
  getValidator "remote-validator"
  = Ok (mkApp "remote-validator" remote_validator_address "Scheduler"
          "/apps/remote-validator.png"
          "Set specific days and times for your transactions to be processed").
Proof. reflexivity. Qed.

(** [publicClient] is declared in [getDomain] only: inside [signProposal]
    the identifier refers to nothing. *)
Lemma publicClient_unbound :
  lookup "publicClient" signProposal_scope = None
  /\ client_chain_id signProposal_scope "publicClient"
     = Throw (ReferenceError "publicClient")
  /\ forall c, client_chain_id (getDomain_scope c) "publicClient"
               = Ok (chain_id c).
Proof. repeat split. Qed.

Section DomainOverride.

Variable E : Env.
Variable account : Account.
Variable proposal : Proposal.

Let key : string := getKeyFromNonce E (p_nonce proposal).
Let matches : bool :=
  negb (String.eqb key zero_key)
  && String.eqb key (getValidatorKey E remote_validator_address).

(** What [signProposal] does once the domain is read and the fields are
    packed. *)
Lemma signProposal_run (w : World) (c : Chain) (data : Domain)
  (gasFees accountGasLimits paymasterAndData : string) :
  resolveChain (p_chain proposal) = Ok c ->
  readContract_reply E (List.length (trace w)) c (p_sender proposal) = Ok data ->
  packGasLimits (userOperation_of proposal) = Ok gasFees ->
  packAccountGasLimits (userOperation_of proposal) = Ok accountGasLimits ->
  packPaymasterAndData (userOperation_of proposal) = Ok paymasterAndData ->
  let w1 := log (EvReadContract c (p_sender proposal)) w in
  let message := message_of proposal gasFees accountGasLimits paymasterAndData in
  signProposal E account proposal w
  = if matches
    then (Throw (ReferenceError "publicClient"), w1)
    else (signTypedData_reply E (S (List.length (trace w))) data message,
          log (EvSignTypedData data message) w1).
Proof.
  intros C R G A P w1 message.
  unfold signProposal, getDomain, bind at 1 2 3 4 5 6, lift, call, ret.
  cbn [sender userOperation_of]. rewrite C, R, G, A, P.
  unfold matches, key. cbn [nonce userOperation_of].
  destruct (String.eqb (getKeyFromNonce E (p_nonce proposal)) zero_key);
    cbn [negb andb]; unfold bind, lift, ret, call.
  - destruct data; rewrite now_log; reflexivity.
  - rewrite getValidator_remote. cbn [app_address].
    destruct (String.eqb _ (getValidatorKey E remote_validator_address)).
    + reflexivity.
    + destruct data; rewrite now_log; reflexivity.
Qed.

Lemma matches_iff :
  matches = true
  <-> key <> zero_key /\ key = getValidatorKey E remote_validator_address.
Proof.
  unfold matches. rewrite andb_true_iff, negb_true_iff, String.eqb_neq,
    String.eqb_eq. reflexivity.
Qed.

(** The three ways a call of [signProposal] can go: it throws before any
    outside call, it throws after reading the domain, or it reaches the
    signer, which happens only when the override does not apply. *)
Lemma signProposal_shape (w : World) :
  (exists e, signProposal E account proposal w = (Throw e, w))
  \/ (exists c e,
        signProposal E account proposal w
        = (Throw e, log (EvReadContract c (p_sender proposal)) w))
  \/ (exists c d m r,
        matches = false
        /\ signProposal E account proposal w
           = (r, log (EvSignTypedData d m)
                   (log (EvReadContract c (p_sender proposal)) w))).
Proof.
  destruct (resolveChain (p_chain proposal)) as [c|e] eqn:C.
  2:{ left. exists e. unfold signProposal, getDomain, bind at 1 2, lift.
      now rewrite C. }
  right.
  destruct (readContract_reply E (List.length (trace w)) c (p_sender proposal))
    as [data|e] eqn:R.
  2:{ left. exists c, e.
      unfold signProposal, getDomain, bind at 1 2 3, lift, call.
      cbn [sender userOperation_of]. now rewrite C, R. }
  destruct (packGasLimits (userOperation_of proposal)) as [g|e] eqn:G.
  2:{ left. exists c, e.
      unfold signProposal, getDomain, bind at 1 2 3 4, lift, call, ret.
      cbn [sender userOperation_of]. now rewrite C, R, G. }
  destruct (packAccountGasLimits (userOperation_of proposal)) as [a|e] eqn:A.
  2:{ left. exists c, e.
      unfold signProposal, getDomain, bind at 1 2 3 4 5, lift, call, ret.
      cbn [sender userOperation_of]. now rewrite C, R, G, A. }
  destruct (packPaymasterAndData (userOperation_of proposal)) as [p|e] eqn:P.
  2:{ left. exists c, e.
      unfold signProposal, getDomain, bind at 1 2 3 4 5 6, lift, call, ret.
      cbn [sender userOperation_of]. now rewrite C, R, G, A, P. }
  rewrite (signProposal_run w c data g a p C R G A P).
  destruct matches eqn:M; [left; eauto | right; eauto 8].
Qed.

Lemma signProposal_preserves_store :
  preserves_store (signProposal E account proposal).
Proof.
  intros w.
  destruct (signProposal_shape w)
    as [(e & ->) | [(c & e & ->) | (c & d & m & r & _ & ->)]]; reflexivity.
Qed.

(** The other half of the override: a key that is zero, or that is not
    the remote validator's, leaves the domain read from the chain as it
    is, and the operation is signed under it. *)
Lemma signProposal_keeps_resolved_domain (w : World) (c : Chain)
  (data : Domain) (gasFees accountGasLimits paymasterAndData : string) :
  resolveChain (p_chain proposal) = Ok c ->
  readContract_reply E (List.length (trace w)) c (p_sender proposal) = Ok data ->
  packGasLimits (userOperation_of proposal) = Ok gasFees ->
  packAccountGasLimits (userOperation_of proposal) = Ok accountGasLimits ->
  packPaymasterAndData (userOperation_of proposal) = Ok paymasterAndData ->
  key = zero_key \/ key <> getValidatorKey E remote_validator_address ->
  signProposal E account proposal w
  = (signTypedData_reply E (S (List.length (trace w))) data
       (message_of proposal gasFees accountGasLimits paymasterAndData),
     log (EvSignTypedData data
            (message_of proposal gasFees accountGasLimits paymasterAndData))
       (log (EvReadContract c (p_sender proposal)) w)).
Proof.
  intros C R G A P K.
  rewrite (signProposal_run w c data _ _ _ C R G A P).
  destruct matches eqn:M; [|reflexivity].
  apply matches_iff in M as [NZ EQ]. destruct K; contradiction.
Qed.

(** C1 on the code.  When the key of the nonce is not zero and equals the
    derived key of the remote validator, [signProposal] does not sign under
    the fixed RemoteValidator domain: it signs nothing.  Building that
    domain reads [publicClient.chain.id], and [publicClient] is not in
    scope in [signProposal], so a ReferenceError is thrown once the domain
    has been read and the fields packed; on every path the call throws and
    the signer is not invoked. *)
Theorem signProposal_override_throws (w : World) :
  key <> zero_key ->
  key = getValidatorKey E remote_validator_address ->
  (exists e, fst (signProposal E account proposal w) = Throw e)
  /\ (forall d m,
        ~ In (EvSignTypedData d m)
            (skipn (List.length (trace w))
                   (trace (snd (signProposal E account proposal w)))))
  /\ (forall c data gasFees accountGasLimits paymasterAndData,
        resolveChain (p_chain proposal) = Ok c ->
        readContract_reply E (List.length (trace w)) c (p_sender proposal)
        = Ok data ->
        packGasLimits (userOperation_of proposal) = Ok gasFees ->
        packAccountGasLimits (userOperation_of proposal) = Ok accountGasLimits ->
        packPaymasterAndData (userOperation_of proposal) = Ok paymasterAndData ->
        signProposal E account proposal w
        = (Throw (ReferenceError "publicClient"),
           log (EvReadContract c (p_sender proposal)) w)).
Proof.
  intros NZ EQ.
  assert (matches = true) as M by (apply matches_iff; auto).
  split; [|split].
  - destruct (signProposal_shape w)
      as [(e & ->) | [(c & e & ->) | (c & d & m & r & F & _)]];
      [cbn [fst]; eauto | cbn [fst]; eauto | congruence].
  - intros d m.
    destruct (signProposal_shape w)
      as [(e & ->) | [(c & e & ->) | (c & d' & m' & r & F & _)]];
      [| | congruence]; cbn [snd].
    + rewrite skipn_all. intros [].
    + rewrite trace_log, skipn_app, skipn_all, Nat.sub_diag. simpl.
      intros [H|[]]. discriminate H.
  - intros c data g a p C R G A P.
    rewrite (signProposal_run w c data g a p C R G A P). now rewrite M.
Qed.

End DomainOverride.

Lemma signProposal_override_throws_witness :
  signProposal (env_plain false) (mkAccount AI_SIGNER) proposal_remote
    empty_world
  = (Throw (ReferenceError "publicClient"),
     log (EvReadContract base TARGET_SENDER) empty_world).
Proof.
  apply (proj2 (proj2 (signProposal_override_throws (env_plain false)
                         (mkAccount AI_SIGNER) proposal_remote empty_world
                         ltac:(vm_compute; discriminate) eq_refl))
           base (mkDomain "NANI" "1.1.1" 8453 TARGET_SENDER)
           "0x0000000000000000000000000000000100000000000000000000000000000064"
           "0x000000000000000000000000000249f0000000000000000000000000000249f0"
           "0x");
    reflexivity.
Defined.

(** ** The batch loop (claims C4 and C10) *)

Section Orchestrator.

Variable E : Env.
Variable account : Account.

Lemma getNaniVote_preserves_store (proposal : Proposal) :
  preserves_store (getNaniVote E proposal).
Proof.
  intros w.
  destruct (getNaniVote_requests E proposal w) as (evs & _ & S & _).
  exact S.
Qed.

(** The evaluator returns truthy values only. *)
Lemma getNaniVote_returns_truthy (proposal : Proposal) (w : World) (d : JSON) :
  fst (getNaniVote E proposal w) = Ok d -> JSValue.ToBoolean d = true.
Proof.
  rewrite getNaniVote_attempts, attempt_run.
  destruct (fetch_reply E _ _) as [t1|]; [|discriminate].
  destruct (JSValue.ToBoolean (parse_or_null t1)) eqn:T1;
    [now intros [= <-]|].
  rewrite attempt_run.
  destruct (fetch_reply E _ _) as [t2|]; [|discriminate].
  destruct (JSValue.ToBoolean (parse_or_null t2)) eqn:T2;
    [now intros [= <-]|].
  rewrite attempt_run.
  destruct (fetch_reply E _ _) as [t3|]; [|discriminate].
  destruct (JSValue.ToBoolean (parse_or_null t3)) eqn:T3;
    [now intros [= <-] | discriminate].
Qed.

Lemma destructure_truthy (d : JSON) :
  JSValue.ToBoolean d = true ->
  destructure d = Ok (JSValue.get d "vote", JSValue.get d "reason").
Proof. destruct d; [discriminate | reflexivity ..]. Qed.

Lemma decide_run (proposal : Proposal) (d : JSON) :
  JSValue.ToBoolean d = true ->
  decide E account proposal d
  = if JSValue.truthy (JSValue.get d "vote")
    then sign_branch E account proposal
           (JSValue.get d "vote") (JSValue.get d "reason")
    else reject_branch E account proposal
           (JSValue.get d "vote") (JSValue.get d "reason").
Proof.
  intros T. unfold decide. rewrite (destructure_truthy d T).
  unfold bind, lift.
  destruct (JSValue.truthy (JSValue.get d "vote")); reflexivity.
Qed.

Lemma reject_branch_trace (proposal : Proposal) (vote reason : option JSON)
  (w : World) :
  trace (snd (reject_branch E account proposal vote reason w))
  = (trace w
     ++ [EvInsert (row_of {| sig_signer := address account;
                             sig_account := Some (p_sender proposal);
                             sig_hash := p_userOpHash proposal;
                             sig_signature := "";
                             sig_reason := reason |})])%list.
Proof.
  unfold reject_branch, bind.
  match goal with |- context [addSignature E ?s w] =>
    pose proof (proj1 (addSignature_effect E s w)) as T;
    destruct (addSignature E s w) as [[row|e] w1]
  end; exact T.
Qed.

Lemma sign_branch_run (proposal : Proposal) (vote reason : option JSON)
  (w : World) :
  sign_branch E account proposal vote reason w
  = match signProposal E account proposal w with
    | (Ok signature, w1) =>
        match addSignature E (sig_of account proposal signature reason) w1 with
        | (Ok _, w2) => (Ok (success_entry proposal signature vote reason), w2)
        | (Throw e, w2) => (Throw e, w2)
        end
    | (Throw e, w1) => (Throw e, w1)
    end.
Proof.
  unfold sign_branch, bind, ret.
  destruct (signProposal E account proposal w) as [[signature|e] w1];
    [|reflexivity].
  fold (sig_of account proposal signature reason).
  destruct (addSignature E (sig_of account proposal signature reason) w1)
    as [[row|e] w2]; reflexivity.
Qed.

Lemma reject_branch_run (proposal : Proposal) (vote reason : option JSON)
  (w : World) :
  reject_branch E account proposal vote reason w
  = match addSignature E (sig_of account proposal "" reason) w with
    | (Ok _, w1) => (Ok (rejected_entry proposal vote reason), w1)
    | (Throw e, w1) => (Throw e, w1)
    end.
Proof.
  unfold reject_branch, bind, ret.
  fold (sig_of account proposal "" reason).
  destruct (addSignature E (sig_of account proposal "" reason) w)
    as [[row|e] w1]; reflexivity.
Qed.

(** C10. The branch is chosen by [Boolean(vote)] alone.  For a decision of
    the evaluator whose [vote] is truthy, and so for every non-empty
    string, the string "false" included, the signing branch runs:
    [signProposal] is called; if it throws, so does the iteration's body;
    otherwise [addSignature] is called with the signature it returned and,
    if the insert is accepted, the entry is a success carrying that
    signature and the store has gained the row with that signature.  For a
    decision whose [vote] is absent or falsy the rejection branch runs:
    [signProposal] is not called, the one outside call is the insert of a
    row with the empty signature, and if it is accepted the entry is
    rejected. *)
Theorem vote_boolean_coercion (proposal : Proposal) (decision : JSON) :
  JSValue.ToBoolean decision = true ->
  let vote := JSValue.get decision "vote" in
  let reason := JSValue.get decision "reason" in
  let signing : M ResultEntry :=
    fun w =>
      match signProposal E account proposal w with
      | (Ok signature, w1) =>
          match addSignature E (sig_of account proposal signature reason) w1
          with
          | (Ok _, w2) =>
              (Ok (success_entry proposal signature vote reason), w2)
          | (Throw e, w2) => (Throw e, w2)
          end
      | (Throw e, w1) => (Throw e, w1)
      end in
  let rejecting : M ResultEntry :=
    fun w =>
      match addSignature E (sig_of account proposal "" reason) w with
      | (Ok _, w1) => (Ok (rejected_entry proposal vote reason), w1)
      | (Throw e, w1) => (Throw e, w1)
      end in
  (JSValue.truthy vote = true ->
   decide E account proposal decision
   = sign_branch E account proposal vote reason
   /\ forall w, decide E account proposal decision w = signing w)
  /\ (forall s, vote = Some (JString s) -> s <> [] ->
      decide E account proposal decision
      = sign_branch E account proposal vote reason
      /\ forall w, decide E account proposal decision w = signing w)
  /\ (JSValue.truthy vote = true ->
      forall w entry w',
        decide E account proposal decision w = (Ok entry, w') ->
        exists signature w1,
          signProposal E account proposal w = (Ok signature, w1)
          /\ entry = success_entry proposal signature vote reason
          /\ signatures w'
             = (signatures w
                ++ [row_of (sig_of account proposal signature reason)])%list
          /\ trace w'
             = (trace w1
                ++ [EvInsert
                      (row_of (sig_of account proposal signature reason))])%list)
  /\ (vote = None \/ JSValue.truthy vote = false ->
      decide E account proposal decision
      = reject_branch E account proposal vote reason
      /\ forall w,
           trace (snd (decide E account proposal decision w))
           = (trace w
              ++ [EvInsert
                    (row_of {| sig_signer := address account;
                               sig_account := Some (p_sender proposal);
                               sig_hash := p_userOpHash proposal;
                               sig_signature := "";
                               sig_reason := reason |})])%list)
  /\ (vote = None \/ JSValue.truthy vote = false ->
      (forall w, decide E account proposal decision w = rejecting w)
      /\ forall w entry w',
           decide E account proposal decision w = (Ok entry, w') ->
           entry = rejected_entry proposal vote reason
           /\ signatures w'
              = (signatures w ++ [row_of (sig_of account proposal "" reason)])%list).
Proof.
  intros T vote reason signing rejecting.
  rewrite (decide_run proposal decision T). fold vote reason.
  assert (JSValue.truthy vote = true ->
          forall w entry w',
            sign_branch E account proposal vote reason w = (Ok entry, w') ->
            exists signature w1,
              signProposal E account proposal w = (Ok signature, w1)
              /\ entry = success_entry proposal signature vote reason
              /\ signatures w'
                 = (signatures w
                    ++ [row_of (sig_of account proposal signature reason)])%list
              /\ trace w'
                 = (trace w1
                    ++ [EvInsert
                          (row_of (sig_of account proposal signature reason))])%list)
    as Outcome.
  { intros _ w entry w'. rewrite sign_branch_run.
    pose proof (signProposal_preserves_store E account proposal w) as S.
    destruct (signProposal E account proposal w) as [[signature|e] w1];
      [|discriminate]. cbn [snd] in S.
    destruct (addSignature_effect E (sig_of account proposal signature reason) w1)
      as [Tr [[_ A] | [[e R] _]]];
      destruct (addSignature E (sig_of account proposal signature reason) w1)
        as [[row|e'] w2]; cbn [fst snd] in *; try discriminate.
    intros [= <- <-]. exists signature, w1.
    repeat split; [now rewrite A, S | exact Tr]. }
  split; [|split; [|split; [|split]]].
  - intros ->. split; [reflexivity|]. intros w. apply sign_branch_run.
  - intros s -> N. destruct s; [contradiction|].
    split; [reflexivity|]. intros w. apply sign_branch_run.
  - intros V. rewrite V. now apply Outcome.
  - intros F.
    assert (JSValue.truthy vote = false) as ->
      by (destruct F as [-> | F]; [reflexivity | exact F]).
    split; [reflexivity|]. intros w. apply reject_branch_trace.
  - intros F.
    assert (JSValue.truthy vote = false) as ->
      by (destruct F as [-> | F]; [reflexivity | exact F]).
    split; [intros w; apply reject_branch_run|].
    intros w entry w'. rewrite reject_branch_run.
    destruct (addSignature_effect E (sig_of account proposal "" reason) w)
      as [_ [[_ A] | [[e R] _]]];
      destruct (addSignature E (sig_of account proposal "" reason) w)
        as [[row|e'] w1]; cbn [fst snd] in *; try discriminate.
    intros [= <- <-]. split; [reflexivity | exact A].
Qed.

(** What one decision leaves behind: an entry other than an error and the
    row it stands for, or an exception and an untouched store. *)
Lemma decide_outcome (proposal : Proposal) (d : JSON) (w : World) :
  match decide E account proposal d w with
  | (Ok entry, w') =>
      r_hash entry = p_userOpHash proposal
      /\ ((r_status entry = status_success
           /\ exists s, r_signature entry = Some s)
          \/ (r_status entry = status_rejected /\ r_signature entry = None))
      /\ signatures w' = (signatures w ++ recorded account proposal entry)%list
  | (Throw _, w') => signatures w' = signatures w
  end.
Proof.
  unfold decide, bind at 1, lift.
  destruct (destructure d) as [[vote reason]|e]; [|reflexivity].
  destruct (Bool.eqb (JSValue.truthy vote) true).
  - unfold sign_branch, bind.
    pose proof (signProposal_preserves_store E account proposal w) as S.
    destruct (signProposal E account proposal w) as [[s|e] w1];
      cbn [snd] in S; [|exact S].
    match goal with |- context [addSignature E ?sg w1] =>
      destruct (addSignature_effect E sg w1) as [_ [[R A] | [[e R] A]]];
      destruct (addSignature E sg w1) as [[row|e'] w2]
    end; cbn [fst snd] in *; try discriminate.
    + unfold ret. split; [reflexivity|]. split; [left; cbn; eauto|].
      now rewrite A, S.
    + now rewrite A.
  - unfold reject_branch, bind.
    match goal with |- context [addSignature E ?sg w] =>
      destruct (addSignature_effect E sg w) as [_ [[R A] | [[e R] A]]];
      destruct (addSignature E sg w) as [[row|e'] w2]
    end; cbn [fst snd] in *; try discriminate.
    + unfold ret. split; [reflexivity|]. split; [right; cbn; auto|].
      exact A.
    + exact A.
Qed.

(** One iteration never throws.  It pushes the entry of its proposal; the
    store gains a row exactly when the entry is not an error. *)
Lemma process_proposal_outcome (proposal : Proposal) (w : World) :
  exists entry w',
    process_proposal E account proposal w = (Ok entry, w')
    /\ r_hash entry = p_userOpHash proposal
    /\ signatures w' = (signatures w ++ recorded account proposal entry)%list
    /\ match r_status entry with
       | status_success => exists s, r_signature entry = Some s
       | _ => r_signature entry = None
       end
    /\ (r_status entry = status_error
        <-> exists e,
              fst ((decision <- getNaniVote E proposal ;;
                    decide E account proposal decision)%js w) = Throw e
              /\ entry = error_entry proposal e).
Proof.
  unfold process_proposal, try_catch.
  assert (forall e, signatures w
                    = (signatures w
                       ++ recorded account proposal (error_entry proposal e))%list)
    as Err by (intros e; cbn; now rewrite app_nil_r).
  unfold bind.
  pose proof (getNaniVote_preserves_store proposal w) as S.
  destruct (getNaniVote E proposal w) as [[d|e] w1]; cbn [snd] in S.
  - pose proof (decide_outcome proposal d w1) as O.
    destruct (decide E account proposal d w1) as [[entry|e] w2].
    + destruct O as (H & N & A). exists entry, w2.
      split; [reflexivity|]. split; [exact H|].
      split; [now rewrite A, S|].
      split; [destruct N as [[-> X] | [-> X]]; exact X|].
      split; [destruct N as [[N _] | [N _]]; congruence|].
      intros (e & [=] & _).
    + exists (error_entry proposal e), w2.
      repeat split; [now rewrite O, S, <- Err | cbn [fst]; eauto].
  - exists (error_entry proposal e), w1.
    repeat split; [now rewrite S, <- Err | cbn [fst]; eauto].
Qed.

Lemma process_all_outcome (proposals : list Proposal) :
  forall w,
  exists entries w',
    process_all E account proposals w = (Ok entries, w')
    /\ map r_hash entries = map p_userOpHash proposals
    /\ signatures w'
       = (signatures w ++ recorded_all account proposals entries)%list.
Proof.
  induction proposals as [|p ps IH]; intros w.
  - exists [], w. cbn. now rewrite app_nil_r.
  - destruct (process_proposal_outcome p w) as (entry & w1 & R & H & A & _ & _).
    destruct (IH w1) as (entries & w2 & Rs & Hs & As).
    exists (entry :: entries), w2.
    cbn [process_all]. unfold bind at 1. rewrite R.
    unfold bind at 1. rewrite Rs. unfold ret.
    repeat split.
    + cbn. now rewrite H, Hs.
    + cbn [recorded_all]. now rewrite As, A, app_assoc.
Qed.

End Orchestrator.




Lemma vote_boolean_coercion_witness :
  decide env_string_false (mkAccount AI_SIGNER) proposal_1
    (parse_or_null body_string_false) empty_world
  = (Ok (success_entry proposal_1 "0x5197ed"
           (Some (JString (JSValue.units "false")))
           (Some (JString (JSValue.units "Drains the treasury")))),
     mkWorld
       [row_of (sig_of (mkAccount AI_SIGNER) proposal_1 "0x5197ed"
                  (Some (JString (JSValue.units "Drains the treasury"))))]
       [EvReadContract base TARGET_SENDER;
        EvSignTypedData sample_domain
          (message_of proposal_1 sample_gasFees sample_accountGasLimits "0x");
        EvInsert
          (row_of (sig_of (mkAccount AI_SIGNER) proposal_1 "0x5197ed"
                     (Some (JString (JSValue.units "Drains the treasury")))))]).
Proof.
  rewrite (proj2 (proj1 (proj2 (vote_boolean_coercion env_string_false
                                  (mkAccount AI_SIGNER) proposal_1
                                  (parse_or_null body_string_false) eq_refl))
                    (JSValue.units "false") eq_refl
                    ltac:(discriminate))).
  reflexivity.
Defined.

(** The same on a whole run: a vote that is the string "false" gets the
    proposal signed and recorded as a success. *)
Example string_false_is_signed :
  exists message w',
    vote env_string_false empty_world
    = (Ok (Status200 message
             [ {| r_hash := "0xAA01";
                  r_status := status_success;
                  r_signature := Some "0x5197ed";
                  r_vote := Some (JString (JSValue.units "false"));
                  r_reason :=
                    Some (JString (JSValue.units "Drains the treasury"));
                  r_error := None |} ]), w')
    /\ map row_signature (signatures w') = ["0x5197ed"].
Proof. do 2 eexists. vm_compute. split; reflexivity. Qed.


(* ================================================================== *)
(** * Part III. Further properties of the code                         *)
(* ================================================================== *)

(** ** The packer: init code, gas fees, injectivity, failures *)

(** X1. [packInitCode] (index.js:338-345) is the empty hex string when no
    factory is set; with a factory it is the bytes of the factory followed
    by the bytes of [factoryData], missing data counting as no bytes. *)
Theorem packInitCode_layout (op : UserOperation) :
  (factory op = None \/ factory op = Some "" -> packInitCode op = "0x")
  /\ (forall f bf bd,
        factory op = Some f ->
        hex_to_bytes f = Some bf ->
        match factoryData op with
        | Some d => hex_to_bytes d = Some bd
        | None => bd = []
        end ->
        hex_to_bytes (packInitCode op) = Some (bf ++ bd)%list).
Proof.
  unfold packInitCode. split.
  - intros [-> | ->]; reflexivity.
  - intros f bf bd F Bf Bd. rewrite F.
    apply hex_to_bytes_inv in Bf as (df & -> & Bf).
    assert (exists dd, JS.or_string (factoryData op) "0x" = "0x" ++ dd
                       /\ hex_pairs dd = Some bd) as (dd & -> & Bdd).
    { destruct (factoryData op) as [d|].
      - apply hex_to_bytes_inv in Bd as (dd & -> & Bd). exists dd. auto.
      - subst bd. exists "". auto. }
    change (JS.truthy_string (Some ("0x" ++ df))) with true. cbv iota.
    change (JS.or_string (Some ("0x" ++ df)) "") with ("0x" ++ df).
    rewrite concat_two, hex_to_bytes_0x.
    now apply hex_pairs_app.
Qed.

Lemma packInitCode_layout_witness :
  hex_to_bytes (packInitCode sample_factory_op)
  = Some ([0; 0; 0; 0; 0; 0; 159; 30; 84; 111; 196; 168; 246; 142; 185; 128;
           49; 132; 108; 184] ++ [192; 255; 238])%list.
Proof.
  apply (proj2 (packInitCode_layout sample_factory_op)
           "0x0000000000009f1E546FC4A8F68eB98031846cb8");
    reflexivity.
Defined.

(** X2. [packGasLimits] (index.js:354-359), for fees that fit in 128 bits,
    returns 32 bytes: first the sixteen big-endian bytes of
    [maxPriorityFeePerGas], then those of [maxFeePerGas]. *)
Theorem packGasLimits_layout (op : UserOperation) :
  0 <= maxPriorityFeePerGas op < 2 ^ 128 ->
  0 <= maxFeePerGas op < 2 ^ 128 ->
  exists h,
    packGasLimits op = Ok h
    /\ exists bs,
         hex_to_bytes h = Some bs
         /\ List.length bs = 32%nat
         /\ firstn 16 bs = be_bytes 16 (maxPriorityFeePerGas op)
         /\ skipn 16 bs = be_bytes 16 (maxFeePerGas op)
         /\ be_value 0 (firstn 16 bs) = maxPriorityFeePerGas op
         /\ be_value 0 (skipn 16 bs) = maxFeePerGas op.
Proof.
  intros P F.
  destruct (pack_two_limbs _ _ P F) as (h & R & bs & B & L & H1 & H2).
  exists h. split; [exact R|].
  exists bs. rewrite H1, H2.
  repeat (split; [assumption || reflexivity|]).
  split; apply be_value_be_bytes; assumption.
Qed.

Lemma packGasLimits_layout_witness :
  exists h,
    packGasLimits (sample_fee_op 1 100) = Ok h
    /\ exists bs,
         hex_to_bytes h = Some bs
         /\ List.length bs = 32%nat
         /\ firstn 16 bs = be_bytes 16 1
         /\ skipn 16 bs = be_bytes 16 100
         /\ be_value 0 (firstn 16 bs) = 1
         /\ be_value 0 (skipn 16 bs) = 100.
Proof.
  apply (packGasLimits_layout (sample_fee_op 1 100)); simpl; lia.
Defined.

Lemma pack_two_limbs_injective (x1 y1 x2 y2 : Z) (h : string) :
  (a <-? pad16 x1 ;; b <-? pad16 y1 ;; Ok (Viem.concat [a; b]))%result = Ok h ->
  (a <-? pad16 x2 ;; b <-? pad16 y2 ;; Ok (Viem.concat [a; b]))%result = Ok h ->
  x1 = x2 /\ y1 = y2.
Proof.
  intros H1 H2.
  destruct (proj1 (pack_two_limbs_ok_iff x1 y1) (ex_intro _ h H1)) as [X1 Y1].
  destruct (proj1 (pack_two_limbs_ok_iff x2 y2) (ex_intro _ h H2)) as [X2 Y2].
  destruct (pack_two_limbs x1 y1 X1 Y1) as (h1 & R1 & b1 & B1 & _ & F1 & S1).
  destruct (pack_two_limbs x2 y2 X2 Y2) as (h2 & R2 & b2 & B2 & _ & F2 & S2).
  assert (h1 = h) as -> by congruence.
  assert (h2 = h) as -> by congruence.
  assert (b1 = b2) as -> by congruence.
  split.
  - rewrite <- (be_value_be_bytes 16 x1), <- (be_value_be_bytes 16 x2)
      by assumption. congruence.
  - rewrite <- (be_value_be_bytes 16 y1), <- (be_value_be_bytes 16 y2)
      by assumption. congruence.
Qed.

(** X3. Packing loses nothing: two operations whose gas limits pack to the
    same [accountGasLimits] have the same [verificationGasLimit] and
    [callGasLimit], and two whose fees pack to the same [gasFees] have the
    same [maxPriorityFeePerGas] and [maxFeePerGas] (index.js:347-359). *)
Theorem packed_limits_injective (op1 op2 : UserOperation) :
  (forall h,
     packAccountGasLimits op1 = Ok h -> packAccountGasLimits op2 = Ok h ->
     verificationGasLimit op1 = verificationGasLimit op2
     /\ callGasLimit op1 = callGasLimit op2)
  /\ (forall h,
        packGasLimits op1 = Ok h -> packGasLimits op2 = Ok h ->
        maxPriorityFeePerGas op1 = maxPriorityFeePerGas op2
        /\ maxFeePerGas op1 = maxFeePerGas op2).
Proof.
  split; intros h; apply pack_two_limbs_injective.
Qed.

Lemma packed_limits_injective_witness :
  verificationGasLimit (sample_op 150000 150000)
  = verificationGasLimit (sample_fee_op 5 7)
  /\ callGasLimit (sample_op 150000 150000) = callGasLimit (sample_fee_op 5 7).
Proof.
  apply (proj1 (packed_limits_injective (sample_op 150000 150000)
                  (sample_fee_op 5 7))
           "0x000000000000000000000000000249f0000000000000000000000000000249f0");
    reflexivity.
Defined.



(** ** Chains and validators *)

Lemma lower_char_idempotent (c : ascii) :
  JS.lower_char (JS.lower_char c) = JS.lower_char c.
Proof.
  destruct c as [[] [] [] [] [] [] [] []]; reflexivity.
Qed.

Lemma toLowerCase_idempotent (s : string) :
  JS.toLowerCase (JS.toLowerCase s) = JS.toLowerCase s.
Proof.
  induction s as [|c s IH]; simpl; [reflexivity|].
  now rewrite lower_char_idempotent, IH.
Qed.

(** X5. [resolveChain] (index.js:414-425) reads the chain's name without
    regard to letter case.  It answers mainnet, arbitrum or base exactly
    for the names eth, arbitrum and base; for every other name it throws
    an error whose message is "Unsupported chain " and does not name the
    chain. *)
Theorem resolveChain_cases (chain : string) :
  resolveChain (JS.toLowerCase chain) = resolveChain chain
  /\ (resolveChain chain = Ok mainnet <-> JS.toLowerCase chain = "eth")
  /\ (resolveChain chain = Ok arbitrum <-> JS.toLowerCase chain = "arbitrum")
  /\ (resolveChain chain = Ok base <-> JS.toLowerCase chain = "base")
  /\ ((forall c, resolveChain chain <> Ok c)
      <-> resolveChain chain = Throw (Error "Unsupported chain ")).
Proof.
  unfold resolveChain. rewrite toLowerCase_idempotent.
  split; [reflexivity|].
  destruct (String.eqb_spec (JS.toLowerCase chain) "eth") as [->|N1].
  { repeat split; try discriminate; try reflexivity.
    - intros H. now elim (H mainnet). }
  destruct (String.eqb_spec (JS.toLowerCase chain) "arbitrum") as [->|N2].
  { repeat split; try discriminate; try reflexivity.
    - intros H. now elim (H arbitrum). }
  destruct (String.eqb_spec (JS.toLowerCase chain) "base") as [->|N3].
  { repeat split; try discriminate; try reflexivity.
    - intros H. now elim (H base). }
  repeat split; try discriminate; try contradiction; try reflexivity.
Qed.

Example resolveChain_samples :
  resolveChain "Base" = Ok base
  /\ resolveChain "ETH" = Ok mainnet
  /\ resolveChain "mainnet" = Throw (Error "Unsupported chain ")
  /\ resolveChain "optimism" = Throw (Error "Unsupported chain ").
Proof. repeat split. Qed.

Lemma find_app_id (id : string) (apps : list ValidatorApp) :
  match find (fun app => String.eqb (app_id app) id) apps with
  | Some app => app_id app = id /\ In app apps
  | None => ~ In id (map app_id apps)
  end.
Proof.
  induction apps as [|a apps IH]; simpl; [tauto|].
  destruct (String.eqb_spec (app_id a) id) as [E|N]; [auto|].
  destruct (find _ apps) as [app|]; [tauto|].
  intros [H|H]; auto.
Qed.

(** X6. [getValidator] (index.js:330-336) answers an entry of the registry
    carrying the asked id, and throws "App not found" exactly when no entry
    carries it.  The five ids of the registry differ, and so do their
    addresses, so the answer is the only entry with that id. *)
Theorem getValidator_lookup (id : string) :
  (forall app, getValidator id = Ok app ->
               app_id app = id /\ In app validatorApps)
  /\ (In id (map app_id validatorApps) <-> exists app, getValidator id = Ok app)
  /\ (~ In id (map app_id validatorApps)
      <-> getValidator id = Throw (Error "App not found"))
  /\ NoDup (map app_id validatorApps)
  /\ NoDup (map (fun app => JS.toLowerCase (app_address app)) validatorApps).
Proof.
  unfold getValidator.
  pose proof (find_app_id id validatorApps) as F.
  destruct (find _ validatorApps) as [a|].
  - destruct F as [I M]. split; [intros app [= <-]; auto|].
    split; [split; [eauto | intros _; rewrite <- I; now apply in_map]|].
    split; [split; [intros N; elim N; rewrite <- I; now apply in_map
                   | discriminate]|].
    split; vm_compute; repeat constructor; simpl; intuition discriminate.
  - split; [discriminate|].
    split; [split; [contradiction | intros [app [=]]]|].
    split; [split; auto|].
    split; vm_compute; repeat constructor; simpl; intuition discriminate.
Qed.

(** ** The evaluator: failures of the request, shape of the result *)

(** X7. A failure of the request itself ([fetch] or [response.text()],
    index.js:177-193) is not retried: [getNaniVote] throws it at once,
    whichever of the three attempts it strikes, and makes no further
    request. *)
Theorem getNaniVote_fetch_failure (E : Env) (proposal : Proposal) (w : World) :
  let now := List.length (trace w) in
  let first := fetch_of "" proposal in
  let second := fetch_of second_instruction proposal in
  let third := fetch_of final_instruction proposal in
  let reply t instruction :=
    fetch_reply E t (system_content instruction (p_content proposal)) in
  (forall e, reply now "" = Throw e ->
             getNaniVote E proposal w = (Throw e, log first w))
  /\ (forall t1 e,
        reply now "" = Ok t1 ->
        JSValue.ToBoolean (parse_or_null t1) = false ->
        reply (now + 1)%nat second_instruction = Throw e ->
        getNaniVote E proposal w = (Throw e, log second (log first w)))
  /\ (forall t1 t2 e,
        reply now "" = Ok t1 ->
        JSValue.ToBoolean (parse_or_null t1) = false ->
        reply (now + 1)%nat second_instruction = Ok t2 ->
        JSValue.ToBoolean (parse_or_null t2) = false ->
        reply (now + 2)%nat final_instruction = Throw e ->
        getNaniVote E proposal w
        = (Throw e, log third (log second (log first w)))).
Proof.
  intros now first second third reply. unfold reply, first, second, third, fetch_of.
  rewrite getNaniVote_attempts. split; [|split].
  - intros e R. rewrite attempt_run. fold now. now rewrite R.
  - intros t1 e R1 F1 R2.
    rewrite attempt_run. fold now. rewrite R1, F1.
    rewrite attempt_run, now_log. fold now.
    replace (S now) with (now + 1)%nat by lia. now rewrite R2.
  - intros t1 t2 e R1 F1 R2 F2 R3.
    rewrite attempt_run. fold now. rewrite R1, F1.
    rewrite attempt_run, now_log. fold now.
    replace (S now) with (now + 1)%nat by lia. rewrite R2, F2.
    rewrite attempt_run, !now_log. fold now.
    replace (S (S now)) with (now + 2)%nat by lia. now rewrite R3.
Qed.

Lemma getNaniVote_fetch_failure_witness :
  getNaniVote env_fetch_fails proposal_1 empty_world
  = (Throw network_down,
     log (fetch_of second_instruction proposal_1)
       (log (fetch_of "" proposal_1) empty_world)).
Proof.
  apply (proj1 (proj2 (getNaniVote_fetch_failure env_fetch_fails proposal_1
                         empty_world)) body_prose network_down);
    reflexivity.
Defined.

Lemma nth_error_log (e : Event) (w : World) :
  nth_error (trace (log e w)) (List.length (trace w)) = Some e.
Proof.
  rewrite trace_log, nth_error_app2, Nat.sub_diag by lia. reflexivity.
Qed.

(** X8. Whatever [getNaniVote] returns is truthy, and it is the parsed body
    of the last request the call made: the last outside call recorded is
    that request, and the oracle answered it with a body that parses to
    the value returned.  So the destructuring
    [const { vote, reason } = await getNaniVote(proposal)] (index.js:54)
    never throws: it reads the two properties, each possibly undefined. *)
Theorem getNaniVote_result (E : Env) (proposal : Proposal) (w : World)
  (d : JSON) :
  fst (getNaniVote E proposal w) = Ok d ->
  JSValue.ToBoolean d = true
  /\ destructure d = Ok (JSValue.get d "vote", JSValue.get d "reason")
  /\ exists t instruction text,
       (List.length (trace w) <= t)%nat
       /\ S t = List.length (trace (snd (getNaniVote E proposal w)))
       /\ nth_error (trace (snd (getNaniVote E proposal w))) t
          = Some (EvFetch (system_content instruction (p_content proposal)))
       /\ (instruction = "" \/ instruction = second_instruction
           \/ instruction = final_instruction)
       /\ fetch_reply E t (system_content instruction (p_content proposal))
          = Ok text
       /\ JSON_.parse text = Some d.
Proof.
  intros H.
  assert (JSValue.ToBoolean d = true
          /\ exists t instruction text,
               (List.length (trace w) <= t)%nat
               /\ S t = List.length (trace (snd (getNaniVote E proposal w)))
               /\ nth_error (trace (snd (getNaniVote E proposal w))) t
                  = Some (EvFetch
                            (system_content instruction (p_content proposal)))
               /\ (instruction = "" \/ instruction = second_instruction
                   \/ instruction = final_instruction)
               /\ fetch_reply E t
                    (system_content instruction (p_content proposal))
                  = Ok text
               /\ JSValue.ToBoolean (parse_or_null text) = true
               /\ d = parse_or_null text)
    as (T & t & i & text & L & Last & Ev & I & R & P & D).
  { revert H. rewrite getNaniVote_attempts, attempt_run.
    destruct (fetch_reply E _ _) as [t1|] eqn:R1; [|discriminate].
    destruct (JSValue.ToBoolean (parse_or_null t1)) eqn:T1.
    { cbn [fst]. intros [= <-]. split; [exact T1|].
      exists (List.length (trace w)), "", t1. cbn [snd].
      rewrite now_log, nth_error_log. repeat split; auto. }
    rewrite attempt_run.
    destruct (fetch_reply E _ (system_content second_instruction _))
      as [t2|] eqn:R2; [|discriminate].
    destruct (JSValue.ToBoolean (parse_or_null t2)) eqn:T2.
    { cbn [fst]. intros [= <-]. split; [exact T2|].
      eexists _, second_instruction, t2. cbn [snd].
      rewrite now_log, nth_error_log.
      split; [|repeat split; [auto | exact R2 | exact T2]].
      rewrite now_log. lia. }
    rewrite attempt_run.
    destruct (fetch_reply E _ (system_content final_instruction _))
      as [t3|] eqn:R3; [|discriminate].
    destruct (JSValue.ToBoolean (parse_or_null t3)) eqn:T3; [|discriminate].
    cbn [fst]. intros [= <-]. split; [exact T3|].
    eexists _, final_instruction, t3. cbn [snd].
    rewrite now_log, nth_error_log.
    split; [|repeat split; [auto | exact R3 | exact T3]].
    rewrite !now_log. lia. }
  split; [exact T|]. split; [now apply destructure_truthy|].
  exists t, i, text. repeat split; try assumption.
  apply truthy_parse_iff in P as (v & Pv & _).
  subst d. unfold parse_or_null. now rewrite Pv.
Qed.

Lemma getNaniVote_result_witness :
  JSValue.ToBoolean (parse_or_null body_approve) = true
  /\ destructure (parse_or_null body_approve)
     = Ok (JSValue.get (parse_or_null body_approve) "vote",
           JSValue.get (parse_or_null body_approve) "reason")
  /\ exists t instruction text,
       (List.length (trace empty_world) <= t)%nat
       /\ S t = List.length
                  (trace (snd (getNaniVote env_approving proposal_1 empty_world)))
       /\ nth_error
            (trace (snd (getNaniVote env_approving proposal_1 empty_world))) t
          = Some (EvFetch (system_content instruction (p_content proposal_1)))
       /\ (instruction = "" \/ instruction = second_instruction
           \/ instruction = final_instruction)
       /\ fetch_reply env_approving t
            (system_content instruction (p_content proposal_1)) = Ok text
       /\ JSON_.parse text = Some (parse_or_null body_approve).
Proof.
  apply (getNaniVote_result env_approving proposal_1 empty_world).
  reflexivity.
Defined.

(** ** The proposal source for any number of tries *)

Lemma getRecentProposals_loop_general (E : Env) (retries : nat) :
  forall todo i w, (i + todo = retries)%nat -> (0 < todo)%nat ->
  exists k,
    (1 <= k <= todo)%nat
    /\ trace (snd (getRecentProposals_loop E retries i todo w))
       = (trace w ++ backoff_events i k)%list
    /\ signatures (snd (getRecentProposals_loop E retries i todo w))
       = signatures w
    /\ ((exists rows,
           fst (getRecentProposals_loop E retries i todo w) = Ok (Some rows)
           /\ select_reply E (List.length (trace w) + 2 * (k - 1)) = Ok rows)
        \/ (k = todo
            /\ exists e,
                 fst (getRecentProposals_loop E retries i todo w) = Throw e
                 /\ select_reply E (List.length (trace w) + 2 * (k - 1))
                    = Throw e)).
Proof.
  induction todo as [|todo IH]; intros i w S P; [lia|].
  rewrite getRecentProposals_loop_step.
  destruct (select_reply E (List.length (trace w))) as [rows|e] eqn:R.
  { exists 1%nat. cbn [fst snd backoff_events].
    rewrite Nat.add_0_r. repeat split; try lia; eauto. }
  destruct (Nat.eqb_spec i (retries - 1)) as [L|N].
  { exists 1%nat. cbn [fst snd backoff_events].
    rewrite Nat.add_0_r. repeat split; try lia.
    right. split; [lia | eauto]. }
  destruct (IH (Datatypes.S i)
              (log (EvSleep (1000 * (Z.of_nat i + 1))) (log EvSelect w))
              ltac:(lia) ltac:(lia))
    as (k & K & T & St & O).
  exists (Datatypes.S k).
  rewrite !now_log in O.
  replace (Datatypes.S (Datatypes.S (List.length (trace w))) + 2 * (k - 1))%nat
    with (List.length (trace w) + 2 * (Datatypes.S k - 1))%nat in O by lia.
  split; [lia|]. split; [|split; [exact St|]].
  - rewrite T, !trace_log, <- !app_assoc.
    destruct k as [|k]; [lia | reflexivity].
  - destruct O as [O | [-> O]]; [left; exact O | right; auto].
Qed.

(** X9. [getRecentProposals(retries)] (index.js:121-150), for any number
    of tries: with [retries = 0] it makes no query and returns undefined;
    otherwise it makes [k] queries, [1 <= k <= retries], sleeping
    1000, 2000, ... ms after the first, second, ... failure, and either
    returns the rows of the [k]-th query or, all [retries] queries having
    failed, throws the error of the last one.  It never returns undefined
    and never writes to the store. *)
Theorem getRecentProposals_retries (E : Env) (retries : nat) (w : World) :
  (retries = 0%nat -> getRecentProposals E retries w = (Ok None, w))
  /\ ((0 < retries)%nat ->
      exists k,
        (1 <= k <= retries)%nat
        /\ trace (snd (getRecentProposals E retries w))
           = (trace w ++ backoff_events 0 k)%list
        /\ signatures (snd (getRecentProposals E retries w)) = signatures w
        /\ ((exists rows,
               fst (getRecentProposals E retries w) = Ok (Some rows)
               /\ select_reply E (List.length (trace w) + 2 * (k - 1))
                  = Ok rows)
            \/ (k = retries
                /\ exists e,
                     fst (getRecentProposals E retries w) = Throw e
                     /\ select_reply E (List.length (trace w) + 2 * (k - 1))
                        = Throw e))).
Proof.
  split.
  - intros ->. reflexivity.
  - intros P. apply getRecentProposals_loop_general; lia.
Qed.

Lemma getRecentProposals_retries_witness :
  exists k,
    (1 <= k <= 5)%nat
    /\ trace (snd (getRecentProposals env_db_down 5 empty_world))
       = (trace empty_world ++ backoff_events 0 k)%list
    /\ signatures (snd (getRecentProposals env_db_down 5 empty_world))
       = signatures empty_world
    /\ ((exists rows,
           fst (getRecentProposals env_db_down 5 empty_world) = Ok (Some rows)
           /\ select_reply env_db_down
                (List.length (trace empty_world) + 2 * (k - 1)) = Ok rows)
        \/ (k = 5%nat
            /\ exists e,
                 fst (getRecentProposals env_db_down 5 empty_world) = Throw e
                 /\ select_reply env_db_down
                      (List.length (trace empty_world) + 2 * (k - 1))
                    = Throw e)).
Proof.
  apply (proj2 (getRecentProposals_retries env_db_down 5 empty_world)). lia.
Defined.

Example backoff_of_five_failures :
  trace (snd (getRecentProposals env_db_down 5 empty_world))
  = [EvSelect; EvSleep 1000; EvSelect; EvSleep 2000; EvSelect; EvSleep 3000;
     EvSelect; EvSleep 4000; EvSelect].
Proof. reflexivity. Qed.

(** ** Reading the domain *)

(** X11. [getDomain] (index.js:394-412) reads the chain's name without
    regard to letter case.  For a name other than eth, arbitrum or base it
    throws "Unsupported chain " and makes no outside call.  For one of the
    three it makes exactly one outside call, the read of [eip712Domain] on
    that chain at the sender's address, and returns the name, version,
    chain id and verifying contract read, or throws the error of the
    read. *)
Theorem getDomain_calls (E : Env) (sender chain : string) (w : World) :
  getDomain E sender (JS.toLowerCase chain) w = getDomain E sender chain w
  /\ ((forall c, resolveChain chain <> Ok c) ->
      getDomain E sender chain w = (Throw (Error "Unsupported chain "), w))
  /\ (forall c,
        resolveChain chain = Ok c ->
        (JS.toLowerCase chain = "eth" /\ chain_id c = 1
         \/ JS.toLowerCase chain = "arbitrum" /\ chain_id c = 42161
         \/ JS.toLowerCase chain = "base" /\ chain_id c = 8453)
        /\ snd (getDomain E sender chain w) = log (EvReadContract c sender) w
        /\ (forall data,
              readContract_reply E (List.length (trace w)) c sender = Ok data ->
              fst (getDomain E sender chain w) = Ok data)
        /\ (forall e,
              readContract_reply E (List.length (trace w)) c sender = Throw e ->
              fst (getDomain E sender chain w) = Throw e)).
Proof.
  unfold getDomain, bind at 1 3 5 6 7, lift.
  assert (resolveChain (JS.toLowerCase chain) = resolveChain chain) as L
    by (unfold resolveChain; now rewrite toLowerCase_idempotent).
  rewrite L. split; [reflexivity|]. split.
  - intros U.
    destruct (resolveChain chain) as [c|e] eqn:C; [now elim (U c)|].
    revert C. unfold resolveChain.
    repeat match goal with |- context [if ?b then _ else _] => destruct b end;
      congruence.
  - intros c C. rewrite C. unfold bind, call, ret. split.
    + revert C. unfold resolveChain.
      destruct (String.eqb_spec (JS.toLowerCase chain) "eth") as [->|];
        [intros [= <-]; auto|].
      destruct (String.eqb_spec (JS.toLowerCase chain) "arbitrum") as [->|];
        [intros [= <-]; auto|].
      destruct (String.eqb_spec (JS.toLowerCase chain) "base") as [->|];
        [intros [= <-]; auto | discriminate].
    + destruct (readContract_reply E (List.length (trace w)) c sender)
        as [data|e]; cbn [fst snd].
      * split; [reflexivity|]. split; [|discriminate].
        intros data' [= <-]. now destruct data.
      * split; [reflexivity|]. split; [discriminate|].
        now intros e' [= <-].
Qed.

Lemma getDomain_calls_witness :
  getDomain (env_plain false) TARGET_SENDER "optimism" empty_world
  = (Throw (Error "Unsupported chain "), empty_world)
  /\ fst (getDomain (env_plain false) TARGET_SENDER "Base" empty_world)
     = Ok sample_domain.
Proof.
  split.
  - apply (proj1 (proj2 (getDomain_calls (env_plain false) TARGET_SENDER
                           "optimism" empty_world))).
    intros c. vm_compute. discriminate.
  - apply (proj1 (proj2 (proj2 (proj2 (proj2 (getDomain_calls
             (env_plain false) TARGET_SENDER "Base" empty_world)) base
             eq_refl)))).
    reflexivity.
Defined.

(** ** One proposal from the oracle's answer to the store *)

Section OneProposal.

Variable E : Env.
Variable account : Account.
Variable proposal : Proposal.

Let first : Event := fetch_of "" proposal.
Let handler (e : JSError) : M ResultEntry := ret (error_entry proposal e).

(** Once the first body is accepted, the iteration is the decision under
    the catch clause. *)
Lemma process_proposal_first_reply (w : World) (text : string) :
  fetch_reply E (List.length (trace w))
    (system_content "" (p_content proposal)) = Ok text ->
  JSValue.ToBoolean (parse_or_null text) = true ->
  process_proposal E account proposal w
  = try_catch (decide E account proposal (parse_or_null text)) handler
      (log first w).
Proof.
  intros R T.
  unfold process_proposal, try_catch, bind.
  rewrite getNaniVote_attempts, attempt_run, R, T. reflexivity.
Qed.

Lemma addSignature_accepts (sig : Sig) (w : World) :
  insert_fault E (List.length (trace w)) = None ->
  unique_signer_hash E = false
  \/ existsb (same_key (row_of sig)) (signatures w) = false ->
  addSignature E sig w
  = (Ok (row_of sig),
     mkWorld (signatures w ++ [row_of sig])
             (trace w ++ [EvInsert (row_of sig)])).
Proof.
  intros F U. rewrite addSignature_run. unfold query_insert. rewrite F.
  destruct U as [-> | ->]; [reflexivity|]. now rewrite andb_false_r.
Qed.

Lemma addSignature_fault (sig : Sig) (w : World) (e : JSError) :
  insert_fault E (List.length (trace w)) = Some e ->
  addSignature E sig w = (Throw e, log (EvInsert (row_of sig)) w).
Proof.
  intros F. rewrite addSignature_run. unfold query_insert. now rewrite F.
Qed.

(** X10. For a nonce whose key is zero, or is not the remote validator's
    key (the keys of the four other registered validators included),
    [signProposal] (index.js:221-287) asks for one signature, under exactly
    the domain read from the account contract, over a message that carries
    the proposal's sender, nonce and call data, the packed fields and zero
    validity bounds; it returns what the signer answers. *)
Theorem signProposal_signs_resolved_domain (w : World) (c : Chain)
  (data : Domain) (gasFees accountGasLimits paymasterAndData : string) :
  resolveChain (p_chain proposal) = Ok c ->
  readContract_reply E (List.length (trace w)) c (p_sender proposal) = Ok data ->
  packGasLimits (userOperation_of proposal) = Ok gasFees ->
  packAccountGasLimits (userOperation_of proposal) = Ok accountGasLimits ->
  packPaymasterAndData (userOperation_of proposal) = Ok paymasterAndData ->
  getKeyFromNonce E (p_nonce proposal) = zero_key
  \/ getKeyFromNonce E (p_nonce proposal)
     <> getValidatorKey E remote_validator_address ->
  exists m,
    signProposal E account proposal w
    = (signTypedData_reply E (S (List.length (trace w))) data m,
       mkWorld (signatures w)
         (trace w ++ [EvReadContract c (p_sender proposal);
                      EvSignTypedData data m]))
    /\ m_sender m = p_sender proposal
    /\ m_nonce m = p_nonce proposal
    /\ m_callData m = p_callData proposal
    /\ m_preVerificationGas m = p_preVerificationGas proposal
    /\ m_initCode m = packInitCode (userOperation_of proposal)
    /\ m_accountGasLimits m = accountGasLimits
    /\ m_gasFees m = gasFees
    /\ m_paymasterAndData m = paymasterAndData
    /\ m_validUntil m = 0
    /\ m_validAfter m = 0.
Proof.
  intros C R G A P K.
  exists (message_of proposal gasFees accountGasLimits paymasterAndData).
  split; [|repeat split].
  rewrite (signProposal_keeps_resolved_domain E account proposal w c data
             _ _ _ C R G A P K).
  unfold log. cbn [signatures trace]. now rewrite <- app_assoc.
Qed.

(** X12. The signing path end to end (index.js:54-75): the first body is
    accepted with a truthy vote, the domain is read, the fields pack, the
    override does not apply, the signer answers and the table takes the
    row.  Then the entry is a success carrying the signature, the store
    gains one row with that signature and the oracle's reason, and the
    outside calls are, in order, the request, the domain read, the
    signature and the insert. *)
Theorem approved_proposal_is_signed_and_stored (w : World) (text : string)
  (c : Chain) (data : Domain)
  (gasFees accountGasLimits paymasterAndData signature : string) :
  let now := List.length (trace w) in
  let d := parse_or_null text in
  let m := message_of proposal gasFees accountGasLimits paymasterAndData in
  let row :=
    row_of (sig_of account proposal signature (JSValue.get d "reason")) in
  fetch_reply E now (system_content "" (p_content proposal)) = Ok text ->
  JSValue.ToBoolean d = true ->
  JSValue.truthy (JSValue.get d "vote") = true ->
  resolveChain (p_chain proposal) = Ok c ->
  readContract_reply E (now + 1) c (p_sender proposal) = Ok data ->
  packGasLimits (userOperation_of proposal) = Ok gasFees ->
  packAccountGasLimits (userOperation_of proposal) = Ok accountGasLimits ->
  packPaymasterAndData (userOperation_of proposal) = Ok paymasterAndData ->
  getKeyFromNonce E (p_nonce proposal) = zero_key
  \/ getKeyFromNonce E (p_nonce proposal)
     <> getValidatorKey E remote_validator_address ->
  signTypedData_reply E (now + 2) data m = Ok signature ->
  insert_fault E (now + 3) = None ->
  unique_signer_hash E = false
  \/ existsb (same_key row) (signatures w) = false ->
  process_proposal E account proposal w
  = (Ok (success_entry proposal signature
           (JSValue.get d "vote") (JSValue.get d "reason")),
     mkWorld (signatures w ++ [row])
       (trace w ++ [first; EvReadContract c (p_sender proposal);
                    EvSignTypedData data m; EvInsert row])).
Proof.
  intros now d m row R T V C Rd G A P K Sg F U.
  rewrite (process_proposal_first_reply w text R T). fold d.
  unfold try_catch. rewrite (decide_run E account proposal d T), V.
  unfold sign_branch, bind.
  rewrite (signProposal_keeps_resolved_domain E account proposal _ c data
             gasFees accountGasLimits paymasterAndData C);
    try assumption;
    [|rewrite now_log; fold now;
      replace (S now) with (now + 1)%nat by lia; exact Rd].
  rewrite now_log. fold now m.
  replace (S (S now)) with (now + 2)%nat by lia. rewrite Sg.
  fold (sig_of account proposal signature (JSValue.get d "reason")).
  rewrite addSignature_accepts.
  - unfold ret, success_entry, log. cbn [signatures trace]. fold row.
    now rewrite <- !app_assoc.
  - rewrite !now_log. fold now.
    replace (S (S (S now))) with (now + 3)%nat by lia. exact F.
  - exact U.
Qed.

(** X13. The rejection path end to end (index.js:54-57, 76-91): the first
    body is accepted and its vote is absent or falsy, and the table takes
    the row.  Then the entry is rejected, the store gains one row with the
    empty signature and the oracle's reason, and the only outside calls
    are the request and the insert: the chain is not resolved, so a
    rejection is recorded even for a chain the function does not know. *)
Theorem rejected_proposal_is_stored (w : World) (text : string) :
  let now := List.length (trace w) in
  let d := parse_or_null text in
  let row := row_of (sig_of account proposal "" (JSValue.get d "reason")) in
  fetch_reply E now (system_content "" (p_content proposal)) = Ok text ->
  JSValue.ToBoolean d = true ->
  JSValue.truthy (JSValue.get d "vote") = false ->
  insert_fault E (now + 1) = None ->
  unique_signer_hash E = false
  \/ existsb (same_key row) (signatures w) = false ->
  process_proposal E account proposal w
  = (Ok (rejected_entry proposal
           (JSValue.get d "vote") (JSValue.get d "reason")),
     mkWorld (signatures w ++ [row]) (trace w ++ [first; EvInsert row])).
Proof.
  intros now d row R T V F U.
  rewrite (process_proposal_first_reply w text R T). fold d.
  unfold try_catch. rewrite (decide_run E account proposal d T), V.
  unfold reject_branch, bind.
  fold (sig_of account proposal "" (JSValue.get d "reason")).
  rewrite addSignature_accepts.
  - unfold ret, rejected_entry, log. cbn [signatures trace]. fold row.
    now rewrite <- !app_assoc.
  - rewrite now_log. fold now.
    replace (S now) with (now + 1)%nat by lia. exact F.
  - exact U.
Qed.

(** X14. When the insert fails after the signature was obtained
    (index.js:58-67, 92-102), the proposal ends as an error entry with the
    insert's message: the signature that was produced is neither stored nor
    returned in the entry. *)
Theorem signature_lost_when_insert_fails (w : World) (text : string)
  (c : Chain) (data : Domain)
  (gasFees accountGasLimits paymasterAndData signature : string)
  (e : JSError) :
  let now := List.length (trace w) in
  let d := parse_or_null text in
  let m := message_of proposal gasFees accountGasLimits paymasterAndData in
  let row :=
    row_of (sig_of account proposal signature (JSValue.get d "reason")) in
  fetch_reply E now (system_content "" (p_content proposal)) = Ok text ->
  JSValue.ToBoolean d = true ->
  JSValue.truthy (JSValue.get d "vote") = true ->
  resolveChain (p_chain proposal) = Ok c ->
  readContract_reply E (now + 1) c (p_sender proposal) = Ok data ->
  packGasLimits (userOperation_of proposal) = Ok gasFees ->
  packAccountGasLimits (userOperation_of proposal) = Ok accountGasLimits ->
  packPaymasterAndData (userOperation_of proposal) = Ok paymasterAndData ->
  getKeyFromNonce E (p_nonce proposal) = zero_key
  \/ getKeyFromNonce E (p_nonce proposal)
     <> getValidatorKey E remote_validator_address ->
  signTypedData_reply E (now + 2) data m = Ok signature ->
  insert_fault E (now + 3) = Some e ->
  process_proposal E account proposal w
  = (Ok (error_entry proposal e),
     mkWorld (signatures w)
       (trace w ++ [first; EvReadContract c (p_sender proposal);
                    EvSignTypedData data m; EvInsert row]))
  /\ r_signature (error_entry proposal e) = None.
Proof.
  intros now d m row R T V C Rd G A P K Sg F.
  split; [|reflexivity].
  rewrite (process_proposal_first_reply w text R T). fold d.
  unfold try_catch. rewrite (decide_run E account proposal d T), V.
  unfold sign_branch, bind.
  rewrite (signProposal_keeps_resolved_domain E account proposal _ c data
             gasFees accountGasLimits paymasterAndData C);
    try assumption;
    [|rewrite now_log; fold now;
      replace (S now) with (now + 1)%nat by lia; exact Rd].
  rewrite now_log. fold now m.
  replace (S (S now)) with (now + 2)%nat by lia. rewrite Sg.
  fold (sig_of account proposal signature (JSValue.get d "reason")).
  rewrite (addSignature_fault _ _ e).
  - unfold handler, ret, log. cbn [signatures trace]. fold row.
    now rewrite <- !app_assoc.
  - rewrite !now_log. fold now.
    replace (S (S (S now))) with (now + 3)%nat by lia. exact F.
Qed.

End OneProposal.

Lemma signProposal_signs_resolved_domain_witness :
  fst (signProposal (env_plain false) sample_account proposal_1 empty_world)
  = Ok "0x5197ed".
Proof.
  destruct (signProposal_signs_resolved_domain (env_plain false)
              sample_account proposal_1 empty_world base sample_domain
              sample_gasFees sample_accountGasLimits "0x"
              eq_refl eq_refl eq_refl eq_refl eq_refl (or_introl eq_refl))
    as (m & H & _).
  rewrite H. reflexivity.
Defined.

Lemma approved_proposal_is_signed_and_stored_witness :
  fst (process_proposal (env_always body_approve false) sample_account
         proposal_1 empty_world)
  = Ok (success_entry proposal_1 "0x5197ed" (Some (JBool true))
          (Some (JString (JSValue.units "Within the treasury policy")))).
Proof.
  rewrite (approved_proposal_is_signed_and_stored
             (env_always body_approve false) sample_account proposal_1
             empty_world body_approve base sample_domain sample_gasFees
             sample_accountGasLimits "0x" "0x5197ed")
    by first [reflexivity | left; reflexivity].
  reflexivity.
Defined.

Lemma rejected_proposal_is_stored_witness :
  process_proposal (env_always body_reject false) sample_account
    proposal_optimism empty_world
  = (Ok (rejected_entry proposal_optimism (Some (JBool false))
           (Some (JString (JSValue.units "Drains the treasury")))),
     mkWorld
       [row_of (sig_of sample_account proposal_optimism ""
                  (Some (JString (JSValue.units "Drains the treasury"))))]
       [fetch_of "" proposal_optimism;
        EvInsert
          (row_of (sig_of sample_account proposal_optimism ""
                     (Some (JString (JSValue.units "Drains the treasury")))))]).
Proof.
  apply (rejected_proposal_is_stored (env_always body_reject false)
           sample_account proposal_optimism empty_world body_reject);
    first [reflexivity | left; reflexivity].
Defined.

Lemma signature_lost_when_insert_fails_witness :
  fst (process_proposal env_insert_fails sample_account proposal_1 empty_world)
  = Ok (error_entry proposal_1 connection_refused).
Proof.
  rewrite (proj1 (signature_lost_when_insert_fails env_insert_fails
                    sample_account proposal_1 empty_world body_approve base
                    sample_domain sample_gasFees sample_accountGasLimits "0x"
                    "0x5197ed" connection_refused
                    eq_refl eq_refl eq_refl eq_refl eq_refl eq_refl eq_refl
                    eq_refl (or_introl eq_refl) eq_refl eq_refl)).
  reflexivity.
Defined.

(** ** The handler as a whole *)

Lemma backoff_events_startup (k : nat) :
  forall i, forallb is_startup_event (backoff_events i k) = true.
Proof.
  induction k as [|k IH]; intros i; [reflexivity|].
  cbn [backoff_events forallb is_startup_event andb].
  destruct k as [|k]; [reflexivity|].
  cbn [forallb is_startup_event andb]. apply IH.
Qed.

Lemma row_of_normalized (sig : Sig) : normalized (row_of sig).
Proof.
  unfold normalized, row_of. cbn [row_signer row_hash row_account].
  rewrite !toLowerCase_idempotent. repeat split.
  destruct (JS.truthy_string (sig_account sig)); [|exact I].
  apply toLowerCase_idempotent.
Qed.

Lemma recorded_all_normalized (account : Account) (proposals : list Proposal) :
  forall entries, Forall normalized (recorded_all account proposals entries).
Proof.
  induction proposals as [|p ps IH]; intros [|e es]; cbn [recorded_all];
    try constructor.
  apply Forall_app. split; [|apply IH].
  unfold recorded. destruct (r_status e); repeat constructor;
    apply row_of_normalized.
Qed.

Lemma recorded_all_length (account : Account) (proposals : list Proposal) :
  forall entries,
  List.length proposals = List.length entries ->
  List.length (recorded_all account proposals entries)
  = List.length (filter (fun e => negb (is_error e)) entries).
Proof.
  induction proposals as [|p ps IH]; intros [|e es] L;
    try discriminate; [reflexivity|].
  cbn [recorded_all filter]. rewrite length_app, IH by (simpl in L; lia).
  unfold recorded, is_error. destruct (r_status e); reflexivity.
Qed.

Lemma vote_unfold (E : Env) (w : World) :
  vote E w
  = match getRecentProposals E 3 w with
    | (Throw e, w1) => (Ok (Status500 (err_message e)), w1)
    | (Ok None, w1) =>
        (Ok (Status500
               "Cannot read properties of undefined (reading 'length')"), w1)
    | (Ok (Some rows), w1) =>
        match account_reply E (List.length (trace w1)) with
        | Throw e => (Ok (Status500 (err_message e)), log EvAccount w1)
        | Ok account =>
            match process_all E account rows (log EvAccount w1) with
            | (Ok entries, w2) =>
                (Ok (Status200
                       ("Processed " ++ JS.Number_toString (List.length rows)
                          ++ " proposals") entries), w2)
            | (Throw e, w2) => (Ok (Status500 (err_message e)), w2)
            end
        end
    end.
Proof.
  unfold vote, try_catch, bind at 1.
  destruct (getRecentProposals E 3 w) as [[[rows|]|e] w1]; try reflexivity.
  unfold bind at 1, call.
  destruct (account_reply E (List.length (trace w1))); [|reflexivity].
  unfold bind, ret.
  destruct (process_all E a rows (log EvAccount w1)) as [[entries|e] w2];
    reflexivity.
Qed.

(** The three ways a run of the handler can go. *)
Lemma vote_cases (E : Env) (w : World) :
  exists k w1,
    (1 <= k <= 3)%nat
    /\ trace w1 = (trace w ++ backoff_events 0 k)%list
    /\ signatures w1 = signatures w
    /\ ((exists e, vote E w = (Ok (Status500 (err_message e)), w1))
        \/ (exists e,
              account_reply E (List.length (trace w1)) = Throw e
              /\ vote E w = (Ok (Status500 (err_message e)), log EvAccount w1))
        \/ (exists rows account entries w2,
              account_reply E (List.length (trace w1)) = Ok account
              /\ process_all E account rows (log EvAccount w1) = (Ok entries, w2)
              /\ vote E w
                 = (Ok (Status200
                          ("Processed "
                             ++ JS.Number_toString (List.length rows)
                             ++ " proposals") entries), w2)
              /\ map r_hash entries = map p_userOpHash rows
              /\ signatures w2
                 = (signatures w ++ recorded_all account rows entries)%list)).
Proof.
  destruct (getRecentProposals_loop_general E 3 3 0 w eq_refl ltac:(lia))
    as (k & K & T & St & O).
  fold (getRecentProposals E 3) in *.
  rewrite vote_unfold.
  destruct (getRecentProposals E 3 w) as [[found|e] w1];
    cbn [fst snd] in *.
  2:{ exists k, w1. repeat split; try lia; eauto. }
  exists k, w1. split; [exact K|]. split; [exact T|]. split; [exact St|].
  destruct O as [(rows & [= ->] & _) | (_ & e & [=] & _)].
  right.
  destruct (account_reply E (List.length (trace w1))) as [account|e] eqn:A.
  2:{ left. exists e. auto. }
  right.
  destruct (process_all_outcome E account rows (log EvAccount w1))
    as (entries & w2 & R & H & S2).
  exists rows, account, entries, w2. rewrite R.
  repeat split; auto. rewrite S2, signatures_log. congruence.
Qed.

(** The rows a run has found are the answer of its first query that did
    not fail. *)
Lemma getRecentProposals_found (E : Env) (w w1 : World)
  (rows : list Proposal) :
  getRecentProposals E 3 w = (Ok (Some rows), w1) ->
  exists k,
    (1 <= k <= 3)%nat
    /\ select_reply E (List.length (trace w) + 2 * (k - 1)) = Ok rows
    /\ (forall j, (j < k - 1)%nat ->
                  exists e,
                    select_reply E (List.length (trace w) + 2 * j) = Throw e)
    /\ trace w1 = (trace w ++ backoff_events 0 k)%list
    /\ List.length (trace w1) = (List.length (trace w) + 2 * k - 1)%nat
    /\ signatures w1 = signatures w.
Proof.
  rewrite getRecentProposals_run. cbv zeta.
  destruct (select_reply E (List.length (trace w))) as [r0|e0] eqn:R0.
  { intros [= -> <-]. exists 1%nat.
    replace (List.length (trace w) + 2 * (1 - 1))%nat
      with (List.length (trace w)) by lia.
    rewrite now_log, trace_log.
    split; [lia|]. split; [exact R0|]. split; [intros j J; lia|].
    split; [reflexivity|]. split; [lia | reflexivity]. }
  destruct (select_reply E (List.length (trace w) + 2)) as [r1|e1] eqn:R1.
  { intros [= -> <-]. exists 2%nat.
    rewrite !now_log, !trace_log, <- !app_assoc.
    split; [lia|]. split; [exact R1|].
    split.
    { intros j J. assert (j = 0%nat) as -> by lia.
      rewrite Nat.add_0_r. eauto. }
    split; [reflexivity|]. split; [lia | reflexivity]. }
  destruct (select_reply E (List.length (trace w) + 4)) as [r2|e2] eqn:R2;
    [|discriminate].
  intros [= -> <-]. exists 3%nat.
  rewrite !now_log, !trace_log, <- !app_assoc.
  split; [lia|]. split; [exact R2|].
  split.
  { intros j J. assert (j = 0 \/ j = 1)%nat as [-> | ->] by lia.
    - rewrite Nat.add_0_r. eauto.
    - eauto. }
  split; [reflexivity|]. split; [lia | reflexivity].
Qed.

(** X15. The handler (index.js:39-116) never throws: every run ends in a
    response.  A 500 response means the run stopped before any proposal
    was looked at: the store is as it was and the only outside calls were
    queries, sleeps and at most the fetch of the account.  A 200 response
    means that one of the at most three queries of the run was answered,
    those before it having failed, and that the account was fetched; the
    response counts the rows of that answer and carries the entries the
    loop produced for them, one per row, in the order of the rows. *)
Theorem vote_always_responds (E : Env) (w : World) :
  exists response w',
    vote E w = (Ok response, w')
    /\ (forall details,
          response = Status500 details ->
          signatures w' = signatures w
          /\ exists evs,
               trace w' = (trace w ++ evs)%list
               /\ forallb is_startup_event evs = true)
    /\ (forall message entries,
          response = Status200 message entries ->
          exists k rows account w1,
            (1 <= k <= 3)%nat
            /\ select_reply E (List.length (trace w) + 2 * (k - 1)) = Ok rows
            /\ (forall j, (j < k - 1)%nat ->
                          exists e,
                            select_reply E (List.length (trace w) + 2 * j)
                            = Throw e)
            /\ account_reply E (List.length (trace w) + 2 * k - 1) = Ok account
            /\ trace w1
               = (trace w ++ backoff_events 0 k ++ [EvAccount])%list
            /\ signatures w1 = signatures w
            /\ process_all E account rows w1 = (Ok entries, w')
            /\ message = "Processed " ++ JS.Number_toString (List.length rows)
                           ++ " proposals"
            /\ map r_hash entries = map p_userOpHash rows).
Proof.
  destruct (getRecentProposals_loop_general E 3 3 0 w eq_refl ltac:(lia))
    as (k0 & K0 & T0 & St0 & O0).
  fold (getRecentProposals E 3) in *.
  rewrite vote_unfold.
  destruct (getRecentProposals E 3 w) as [[[rows|]|e] w1] eqn:G;
    cbn [fst snd] in *.
  - destruct (getRecentProposals_found E w w1 rows G)
      as (k & K & R & F & T & L & St).
    destruct (account_reply E (List.length (trace w1))) as [account|e] eqn:A.
    + destruct (process_all_outcome E account rows (log EvAccount w1))
        as (entries & w2 & P & H & S2).
      rewrite P.
      exists (Status200
                ("Processed " ++ JS.Number_toString (List.length rows)
                   ++ " proposals") entries), w2.
      split; [reflexivity|]. split; [discriminate|].
      intros m es [= <- <-].
      exists k, rows, account, (log EvAccount w1).
      rewrite <- L.
      repeat split; try assumption; try lia.
      rewrite trace_log, T. now rewrite <- app_assoc.
    + exists (Status500 (err_message e)), (log EvAccount w1).
      split; [reflexivity|]. split; [|discriminate].
      intros _ _. split; [exact St|].
      exists (backoff_events 0 k ++ [EvAccount])%list.
      rewrite trace_log, T, <- app_assoc. split; [reflexivity|].
      rewrite forallb_app, backoff_events_startup. reflexivity.
  - destruct O0 as [(r & [=] & _) | (_ & e & [=] & _)].
  - exists (Status500 (err_message e)), w1.
    split; [reflexivity|]. split; [|discriminate].
    intros _ _. split; [exact St0|].
    exists (backoff_events 0 k0).
    split; [exact T0 | apply backoff_events_startup].
Qed.

(** X16. The rows of the store stay in lower case: if every row has its
    signer, hash and account in lower case before a run of the handler, so
    has every row after it (index.js:158-164). *)
Theorem vote_keeps_rows_normalized (E : Env) (w : World) :
  Forall normalized (signatures w) ->
  Forall normalized (signatures (snd (vote E w))).
Proof.
  intros N.
  destruct (vote_cases E w) as (k & w1 & K & T & St & C).
  destruct C as [(e & ->) | [(e & A & ->) | (rows & a & es & w2 & A & R & -> & H & S2)]];
    cbn [snd].
  - now rewrite St.
  - now rewrite signatures_log, St.
  - rewrite S2. apply Forall_app. split; [exact N|].
    apply recorded_all_normalized.
Qed.

Lemma vote_keeps_rows_normalized_witness :
  Forall normalized (signatures (snd (vote env_batch empty_world))).
Proof.
  apply (vote_keeps_rows_normalized env_batch empty_world). constructor.
Defined.

(** X17. The handler only appends to the store: after a run the rows that
    were there come first, unchanged.  On a 200 response the rows added are
    as many as the entries that are not errors, hence at most one per
    proposal; on a 500 response none is added. *)
Theorem vote_appends_rows (E : Env) (w : World) :
  exists added,
    signatures (snd (vote E w)) = (signatures w ++ added)%list
    /\ (forall message entries,
          fst (vote E w) = Ok (Status200 message entries) ->
          List.length added
          = List.length (filter (fun e => negb (is_error e)) entries))
    /\ (forall details,
          fst (vote E w) = Ok (Status500 details) -> added = []).
Proof.
  destruct (vote_cases E w) as (k & w1 & K & T & St & C).
  destruct C as [(e & ->) | [(e & A & ->) | (rows & a & es & w2 & A & R & -> & H & S2)]];
    cbn [fst snd].
  - exists []. rewrite app_nil_r. repeat split; [exact St | discriminate].
  - exists []. rewrite app_nil_r, signatures_log.
    repeat split; [exact St | discriminate].
  - exists (recorded_all a rows es). split; [exact S2|].
    split; [|discriminate]. intros m es' [= _ <-].
    apply recorded_all_length.
    apply (f_equal (@List.length _)) in H. rewrite !length_map in H. lia.
Qed.

(** ** The store and letter case; packing failures before signing *)

(** X18. Where the table declares (signer, hash) unique, a pair is
    recognised without regard to letter case, since [addSignature]
    (index.js:158-164) lower-cases both: after an accepted insert, an
    insert for the same signer and hash written in any other case throws
    and leaves the store as it was. *)
Theorem addSignature_pair_any_case (E : Env) (sig1 sig2 : Sig) (w : World) :
  unique_signer_hash E = true ->
  JS.toLowerCase (sig_signer sig1) = JS.toLowerCase (sig_signer sig2) ->
  JS.toLowerCase (sig_hash sig1) = JS.toLowerCase (sig_hash sig2) ->
  fst (addSignature E sig1 w) = Ok (row_of sig1) ->
  let w1 := snd (addSignature E sig1 w) in
  (exists e, fst (addSignature E sig2 w1) = Throw e)
  /\ signatures (snd (addSignature E sig2 w1)) = signatures w1.
Proof.
  intros U S H A w1.
  assert (signatures w1 = (signatures w ++ [row_of sig1])%list) as St.
  { destruct (addSignature_effect E sig1 w) as [_ [[_ X] | [[e X] _]]];
      [exact X | congruence]. }
  assert (existsb (same_key (row_of sig2)) (signatures w1) = true) as X.
  { rewrite St, existsb_app. apply orb_true_iff. right.
    cbn [existsb]. rewrite orb_false_r.
    apply same_key_row_key. unfold row_key, row_of.
    cbn [row_signer row_hash]. congruence. }
  rewrite addSignature_run. unfold query_insert. rewrite U, X.
  destruct (insert_fault E _); cbn [fst snd andb]; split; eauto.
Qed.

Lemma addSignature_pair_any_case_witness :
  (exists e,
     fst (addSignature (env_plain true) sample_sig_other_case
            (snd (addSignature (env_plain true) sample_sig empty_world)))
     = Throw e)
  /\ signatures
       (snd (addSignature (env_plain true) sample_sig_other_case
               (snd (addSignature (env_plain true) sample_sig empty_world))))
     = signatures (snd (addSignature (env_plain true) sample_sig empty_world)).
Proof.
  apply (addSignature_pair_any_case (env_plain true) sample_sig
           sample_sig_other_case empty_world);
    reflexivity.
Defined.

(** X19. [signProposal] never asks for a signature over fields it could
    not pack (index.js:244-248): when the domain has been read and one of
    [packGasLimits], [packAccountGasLimits], [packPaymasterAndData], tried
    in this order, throws, that error is thrown with the domain read as
    the only outside call. *)
Theorem signProposal_packing_failure (E : Env) (account : Account)
  (proposal : Proposal) (w : World) (c : Chain) (data : Domain)
  (e : JSError) :
  resolveChain (p_chain proposal) = Ok c ->
  readContract_reply E (List.length (trace w)) c (p_sender proposal) = Ok data ->
  packGasLimits (userOperation_of proposal) = Throw e
  \/ ((exists g, packGasLimits (userOperation_of proposal) = Ok g)
      /\ packAccountGasLimits (userOperation_of proposal) = Throw e)
  \/ ((exists g, packGasLimits (userOperation_of proposal) = Ok g)
      /\ (exists a, packAccountGasLimits (userOperation_of proposal) = Ok a)
      /\ packPaymasterAndData (userOperation_of proposal) = Throw e) ->
  signProposal E account proposal w
  = (Throw e, log (EvReadContract c (p_sender proposal)) w).
Proof.
  intros C R F.
  unfold signProposal, getDomain, bind at 1 2 3 4 5 6, lift, call, ret.
  cbn [sender userOperation_of]. rewrite C, R.
  destruct F as [G | [([g G] & A) | ([g G] & [a A] & P)]].
  - now rewrite G.
  - now rewrite G, A.
  - now rewrite G, A, P.
Qed.

Lemma signProposal_packing_failure_witness :
  signProposal (env_plain false) sample_account proposal_huge_fee empty_world
  = (Throw (Viem.SizeExceedsPaddingSizeError 17 16),
     log (EvReadContract base TARGET_SENDER) empty_world).
Proof.
  apply (signProposal_packing_failure (env_plain false) sample_account
           proposal_huge_fee empty_world base sample_domain);
    [reflexivity | reflexivity | left; vm_compute; reflexivity].
Defined.
